(** * haxball-solo: the simulation core (Utils, Entities, Physics, World, Bot)

    A shallow embedding of the TypeScript sources.  The program computes
    with JavaScript numbers; every definition below is written once, over
    an abstract number type [F] with the operations the sources use
    ([Number]), and is run at two instances:

    - [float_Number]: IEEE 754 binary64 (the kernel's primitive floats),
      which is what a JavaScript engine executes, NaN and the infinities
      included.  Definitions evaluate with [vm_compute] at this instance.
    - [R_Number]: the real numbers, i.e. the same program in exact
      arithmetic (no rounding, every number finite).  The algebraic
      properties of the physics are proved at this instance.

    Objects that the sources share by reference (the players of a World,
    which sit in [humanTeam]/[botTeam] and are reached through
    [humanPlayer] as well) live in a store, and a reference is an index
    into it. *)

From Stdlib Require Import ZArith QArith Reals Lra Lia Floats Bool List.
From stdpp Require Import base option list strings gmap.

Set Warnings "-inexact-float".

(** ** Numbers *)

(** The operations on [number] used by the sources. *)
Class Number (F : Type) := {
  fromQ : Q -> F;              (* a decimal literal of the source text *)
  fromZ : Z -> F;              (* an integer value (array index) as a number *)
  add : F -> F -> F;
  sub : F -> F -> F;
  mul : F -> F -> F;
  div : F -> F -> F;
  opp : F -> F;
  Math_sqrt : F -> F;
  Math_min : F -> F -> F;
  Math_max : F -> F -> F;
  ltb : F -> F -> bool;        (* a < b *)
  leb : F -> F -> bool;        (* a <= b *)
  eqb : F -> F -> bool;        (* a === b on numbers *)
  isFinite : F -> bool
}.

(** The functions of [Math] that the kernel's floats do not provide; code
    that calls them takes the library as a parameter. *)
Record MathLib (F : Type) := {
  Math_atan2 : F -> F -> F;
  Math_cos : F -> F;
  Math_sin : F -> F
}.
Arguments Math_atan2 {F} _ _ _.
Arguments Math_cos {F} _ _.
Arguments Math_sin {F} _ _.

Declare Scope num_scope.
Delimit Scope num_scope with num.
Notation "a + b" := (add a b) : num_scope.
Notation "a - b" := (sub a b) : num_scope.
Notation "a * b" := (mul a b) : num_scope.
Notation "a / b" := (div a b) : num_scope.
Notation "- a" := (opp a) : num_scope.
Notation "a <? b" := (ltb a b) : num_scope.
Notation "a <=? b" := (leb a b) : num_scope.
Notation "a >? b" := (ltb b a) : num_scope.
Notation "a >=? b" := (leb b a) : num_scope.
Notation "a =? b" := (eqb a b) : num_scope.

(** [num 0.8] is the literal [0.8] of the source text. *)
Definition num {F : Type} {NF : Number F} (q : Q) : F := fromQ q.
Arguments num {F NF} q%_Q.

(** *** IEEE 754 binary64 *)

Definition float_of_Z (z : Z) : float :=
  match z with
  | Z0 => PrimFloat.zero
  | Zpos _ => PrimFloat.of_uint63 (Uint63.of_Z z)
  | Zneg p => PrimFloat.opp (PrimFloat.of_uint63 (Uint63.of_Z (Zpos p)))
  end.

(** A decimal literal [n / 10^k] denotes the double nearest to it; the
    correctly rounded quotient of two exactly representable integers is
    that double. *)
Definition float_of_Q (q : Q) : float :=
  PrimFloat.div (float_of_Z (Qnum q)) (float_of_Z (Zpos (Qden q))).

(** [Math.min]: NaN if an argument is NaN, and -0 is below +0. *)
Definition float_min (a b : float) : float :=
  if PrimFloat.is_nan a || PrimFloat.is_nan b then PrimFloat.nan
  else if PrimFloat.ltb a b then a
  else if PrimFloat.ltb b a then b
  else if PrimFloat.get_sign a then a else b.

Definition float_max (a b : float) : float :=
  if PrimFloat.is_nan a || PrimFloat.is_nan b then PrimFloat.nan
  else if PrimFloat.ltb a b then b
  else if PrimFloat.ltb b a then a
  else if PrimFloat.get_sign a then b else a.

#[export] Instance float_Number : Number float := {|
  fromQ := float_of_Q;
  fromZ := float_of_Z;
  add := PrimFloat.add;
  sub := PrimFloat.sub;
  mul := PrimFloat.mul;
  div := PrimFloat.div;
  opp := PrimFloat.opp;
  Math_sqrt := PrimFloat.sqrt;
  Math_min := float_min;
  Math_max := float_max;
  ltb := PrimFloat.ltb;
  leb := PrimFloat.leb;
  eqb := PrimFloat.eqb;
  isFinite := PrimFloat.is_finite
|}.

(** *** Exact arithmetic *)

Definition Rltb (a b : R) : bool := if Rlt_dec a b then true else false.
Definition Rleb (a b : R) : bool := if Rle_dec a b then true else false.
Definition Reqb (a b : R) : bool := if Req_dec_T a b then true else false.

#[export] Instance R_Number : Number R := {|
  fromQ := Q2R;
  fromZ := IZR;
  add := Rplus;
  sub := Rminus;
  mul := Rmult;
  div := Rdiv;
  opp := Ropp;
  Math_sqrt := R_sqrt.sqrt;
  Math_min := Rmin;
  Math_max := Rmax;
  ltb := Rltb;
  leb := Rleb;
  eqb := Reqb;
  isFinite := fun _ => true
|}.

(** [Math.atan2(y, x)] on the reals. *)
Definition Ratan2 (y x : R) : R :=
  if Rlt_dec 0 x then atan (y / x)
  else if Rlt_dec x 0 then
    (if Rle_dec 0 y then atan (y / x) + PI else atan (y / x) - PI)%R
  else if Rlt_dec 0 y then (PI / 2)%R
  else if Rlt_dec y 0 then (- (PI / 2))%R
  else 0%R.

Definition R_Math : MathLib R :=
  {| Math_atan2 := Ratan2; Math_cos := cos; Math_sin := sin |}.

(** The two facts about the order that the guards of [tryKick] and
    [tryPass] rely on; both instances satisfy them. *)
Class NumberOrder (F : Type) `{Number F} : Prop := {
  ltb_leb_false : forall a b : F, ltb a b = true -> leb b a = false;
  ltb_asym : forall a b : F, ltb a b = true -> ltb b a = false
}.

Section Program.
Context {F : Type} {NF : Number F}.
Local Open Scope num_scope.

(** ** Utils.ts *)

Record Vec2 := vec2 { x : F; y : F }.

Definition vec2Zero : Vec2 := vec2 (num 0) (num 0).
Definition vec2Add (a b : Vec2) : Vec2 := vec2 (x a + x b) (y a + y b).
Definition vec2Sub (a b : Vec2) : Vec2 := vec2 (x a - x b) (y a - y b).
Definition vec2Scale (v : Vec2) (s : F) : Vec2 := vec2 (x v * s) (y v * s).
Definition vec2Length (v : Vec2) : F := Math_sqrt (x v * x v + y v * y v).
Definition vec2LengthSq (v : Vec2) : F := x v * x v + y v * y v.

Definition vec2Normalize (v : Vec2) : Vec2 :=
  let len := vec2Length v in
  if len <? (num 0.0001) then vec2Zero else vec2Scale v ((num 1) / len).

Definition vec2Dot (a b : Vec2) : F := x a * x b + y a * y b.
Definition vec2Distance (a b : Vec2) : F := vec2Length (vec2Sub a b).
Definition vec2DistanceSq (a b : Vec2) : F := vec2LengthSq (vec2Sub a b).
Definition clamp (value min max : F) : F := Math_max min (Math_min max value).
Definition lerp (a b t : F) : F := a + (b - a) * t.

(** ** Entities.ts *)

Definition PLAYER_RADIUS : F := num 18.
Definition PLAYER_MASS : F := num 2.2.
Definition PLAYER_RESTITUTION : F := num 0.35.
Definition PLAYER_MAX_SPEED : F := num 180.
Definition PLAYER_ACCELERATION : F := num 500.
Definition PLAYER_DAMPING : F := num 0.991.
Definition KICK_RADIUS : F := num 35.
Definition KICK_FORCE : F := num 320.
Definition BALL_RADIUS : F := num 10.
Definition BALL_MASS : F := num 0.9.
Definition BALL_RESTITUTION : F := num 0.88.
Definition BALL_MAX_SPEED : F := num 350.
Definition BALL_DAMPING : F := num 0.992.
Definition ARENA_WIDTH : F := num 900.
Definition ARENA_HEIGHT : F := num 540.
Definition GOAL_HEIGHT : F := num 160.
Definition WALL_THICKNESS : F := num 20.
Definition COLLISION_SLOP : F := num 0.1.
Definition POSITION_CORRECTION_PERCENT : F := num 0.8.

Inductive EntityType := EntityType_Player | EntityType_Ball.

(** The fields of class [Entity]. *)
Record Entity := mkEntity {
  type : EntityType;
  position : Vec2;
  velocity : Vec2;
  radius : F;
  mass : F;
  restitution : F;
  maxSpeed : F;
  damping : F
}.

Definition set_position (e : Entity) (p : Vec2) : Entity :=
  mkEntity (type e) p (velocity e) (radius e) (mass e) (restitution e)
           (maxSpeed e) (damping e).
Definition set_velocity (e : Entity) (v : Vec2) : Entity :=
  mkEntity (type e) (position e) v (radius e) (mass e) (restitution e)
           (maxSpeed e) (damping e).

(** [new Entity(...)]: the position is copied, the velocity starts at zero. *)
Definition Entity_new (t : EntityType) (pos : Vec2) (r m e ms d : F) : Entity :=
  mkEntity t (vec2 (x pos) (y pos)) vec2Zero r m e ms d.

(** [get invMass()] *)
Definition invMass (e : Entity) : F :=
  if mass e >? (num 0) then (num 1) / mass e else (num 0).

(** [Entity.update(dt)] *)
Definition Entity_update (dt : F) (e : Entity) : Entity :=
  (* Apply damping *)
  let vx := x (velocity e) * damping e in
  let vy := y (velocity e) * damping e in
  (* Clamp speed *)
  let speed := Math_sqrt (vx * vx + vy * vy) in
  let v :=
    if speed >? maxSpeed e then
      let scale := maxSpeed e / speed in
      vec2 (vx * scale) (vy * scale)
    else vec2 vx vy in
  (* Update position *)
  mkEntity (type e)
           (vec2 (x (position e) + x v * dt) (y (position e) + y v * dt))
           v (radius e) (mass e) (restitution e) (maxSpeed e) (damping e).

(** [Entity.applyImpulse(impulse)] *)
Definition applyImpulse (impulse : Vec2) (e : Entity) : Entity :=
  let vx := x (velocity e) + x impulse * invMass e in
  let vy := y (velocity e) + y impulse * invMass e in
  set_velocity e (vec2 vx vy).

(** [class Player extends Entity] *)
Record Player := mkPlayer {
  player_entity : Entity;
  isHuman : bool;
  inputAcceleration : Vec2
}.

Definition Player_new (pos : Vec2) (human : bool) : Player :=
  mkPlayer
    (Entity_new EntityType_Player pos PLAYER_RADIUS PLAYER_MASS
                PLAYER_RESTITUTION PLAYER_MAX_SPEED PLAYER_DAMPING)
    human vec2Zero.

Definition Player_with_entity (p : Player) (e : Entity) : Player :=
  mkPlayer e (isHuman p) (inputAcceleration p).

(** [Player.update(dt, accelerationMultiplier)] *)
Definition Player_update (dt accelerationMultiplier : F) (p : Player) : Player :=
  let e := player_entity p in
  (* Apply input acceleration *)
  let accel := PLAYER_ACCELERATION * accelerationMultiplier in
  let vx := x (velocity e) + x (inputAcceleration p) * accel * dt in
  let vy := y (velocity e) + y (inputAcceleration p) * accel * dt in
  (* Call parent update for damping and clamping *)
  Player_with_entity p (Entity_update dt (set_velocity e (vec2 vx vy))).

(** [class Ball extends Entity] *)
Record Ball := mkBall {
  ball_entity : Entity;
  isFrozen : bool;
  freezeTime : F
}.

Definition Ball_new (pos : Vec2) : Ball :=
  mkBall
    (Entity_new EntityType_Ball pos BALL_RADIUS BALL_MASS BALL_RESTITUTION
                BALL_MAX_SPEED BALL_DAMPING)
    false (num 0).

(** [Ball.update(dt)] *)
Definition Ball_update (dt : F) (b : Ball) : Ball :=
  if isFrozen b then
    let ft := freezeTime b - dt in
    if ft <=? (num 0) then
      mkBall (Entity_update dt (ball_entity b)) false ft
    else
      (* Ball is frozen, don't update *)
      mkBall (ball_entity b) true ft
  else
    mkBall (Entity_update dt (ball_entity b)) (isFrozen b) (freezeTime b).

(** [Ball.freeze(duration)] *)
Definition Ball_freeze (duration : F) (b : Ball) : Ball :=
  mkBall (set_velocity (ball_entity b) vec2Zero) true duration.

(** ** Physics.ts *)

(** [interface Collision]; the two entities are the values the detection
    read, and the resolution returns their new values. *)
Record Collision := mkCollision {
  entityA : Entity;
  entityB : Entity;
  normal : Vec2;
  penetration : F
}.

(** [detectCircleCollision(a, b)] *)
Definition detectCircleCollision (a b : Entity) : option Collision :=
  let dx := x (position b) - x (position a) in
  let dy := y (position b) - y (position a) in
  let distSq := dx * dx + dy * dy in
  let minDist := radius a + radius b in
  if distSq >=? minDist * minDist then None
  else
    let dist := Math_sqrt distSq in
    let penetration := minDist - dist in
    (* Normal points from A to B *)
    let normal := if dist >? (num 0.0001) then vec2Normalize (vec2 dx dy)
                  else vec2 (num 1) (num 0) in
    Some (mkCollision a b normal penetration).

(** [resolveCircleCollision(collision, dt)]: the new values of
    [entityA] and [entityB]. *)
Definition resolveCircleCollision (c : Collision) (dt : F) : Entity * Entity :=
  let a := entityA c in
  let b := entityB c in
  let n := normal c in
  (* Positional correction to prevent sinking *)
  let '(a, b) :=
    if penetration c >? COLLISION_SLOP then
      let correction := POSITION_CORRECTION_PERCENT * penetration c in
      let totalInvMass := invMass a + invMass b in
      if totalInvMass >? (num 0) then
        let correctionA := correction * (invMass a / totalInvMass) in
        let correctionB := correction * (invMass b / totalInvMass) in
        (set_position a (vec2 (x (position a) - x n * correctionA)
                              (y (position a) - y n * correctionA)),
         set_position b (vec2 (x (position b) + x n * correctionB)
                              (y (position b) + y n * correctionB)))
      else (a, b)
    else (a, b) in
  (* Relative velocity *)
  let relativeVel := vec2Sub (velocity b) (velocity a) in
  let velAlongNormal := vec2Dot relativeVel n in
  (* Don't resolve if velocities are separating *)
  if velAlongNormal >? (num 0) then (a, b)
  else
    (* Restitution (use minimum of both) *)
    let e := Math_min (restitution a) (restitution b) in
    (* Impulse scalar *)
    let invMassSum := invMass a + invMass b in
    if invMassSum =? (num 0) then (a, b)
    else
      let impulseScalar := - ((num 1) + e) * velAlongNormal / invMassSum in
      let impulse := vec2Scale n impulseScalar in
      (* Apply impulse *)
      (applyImpulse (vec2Scale impulse (- (num 1))) a, applyImpulse impulse b).

(** [interface WallCollision] *)
Record WallCollision := mkWallCollision {
  wall_entity : Entity;
  wall_normal : Vec2;
  wall_penetration : F
}.

(** [detectWallCollision(entity)]: the four tests run in sequence, a later
    one overwriting [normal] and [penetration]. *)
Definition detectWallCollision (entity : Entity) : option WallCollision :=
  let centerY := ARENA_HEIGHT / num 2 in
  let goalTop := centerY - GOAL_HEIGHT / num 2 in
  let goalBottom := centerY + GOAL_HEIGHT / num 2 in
  let px := x (position entity) in
  let py := y (position entity) in
  let isPlayer := match type entity with EntityType_Player => true | _ => false end in
  let st0 : option Vec2 * F := (None, num 0) in
  (* Left wall (with goal opening) *)
  let st1 :=
    if px - radius entity <? WALL_THICKNESS then
      if isPlayer || (py <? goalTop) || (py >? goalBottom) then
        (Some (vec2 (num 1) (num 0)), WALL_THICKNESS - (px - radius entity))
      else st0
    else st0 in
  (* Right wall (with goal opening) *)
  let st2 :=
    if px + radius entity >? ARENA_WIDTH - WALL_THICKNESS then
      if isPlayer || (py <? goalTop) || (py >? goalBottom) then
        (Some (vec2 (- num 1) (num 0)),
         (px + radius entity) - (ARENA_WIDTH - WALL_THICKNESS))
      else st1
    else st1 in
  (* Top wall *)
  let st3 :=
    if py - radius entity <? WALL_THICKNESS then
      (Some (vec2 (num 0) (num 1)), WALL_THICKNESS - (py - radius entity))
    else st2 in
  (* Bottom wall *)
  let st4 :=
    if py + radius entity >? ARENA_HEIGHT - WALL_THICKNESS then
      (Some (vec2 (num 0) (- num 1)),
       (py + radius entity) - (ARENA_HEIGHT - WALL_THICKNESS))
    else st3 in
  match st4 with
  | (Some n, pen) =>
      if pen >? num 0 then Some (mkWallCollision entity n pen) else None
  | (None, _) => None
  end.

(** [resolveWallCollision(collision, dt)] *)
Definition resolveWallCollision (c : WallCollision) (dt : F) : Entity :=
  let e := wall_entity c in
  let n := wall_normal c in
  (* Positional correction *)
  let e :=
    if wall_penetration c >? COLLISION_SLOP then
      let correction := POSITION_CORRECTION_PERCENT * wall_penetration c in
      set_position e (vec2 (x (position e) + x n * correction)
                           (y (position e) + y n * correction))
    else e in
  (* Reflect velocity *)
  let velAlongNormal := vec2Dot (velocity e) n in
  if velAlongNormal <? num 0 then
    let reflectedVel :=
      vec2Scale n (- num 2 * velAlongNormal * restitution e) in
    set_velocity e (vec2 (x (velocity e) + x reflectedVel)
                         (y (velocity e) + y reflectedVel))
  else e.

(** The value of [checkGoal]: ['left'] (the left team scored), ['right']
    or [null]. *)
Inductive Side := SideLeft | SideRight.

(** [checkGoal(ball)] *)
Definition checkGoal (ball : Ball) : option Side :=
  let centerY := ARENA_HEIGHT / num 2 in
  let goalTop := centerY - GOAL_HEIGHT / num 2 in
  let goalBottom := centerY + GOAL_HEIGHT / num 2 in
  let b := ball_entity ball in
  (* Left goal *)
  if (x (position b) - radius b <? num 0) && (y (position b) >=? goalTop)
     && (y (position b) <=? goalBottom) then
    Some SideRight (* Right team scored (ball went into left goal) *)
  (* Right goal *)
  else if (x (position b) + radius b >? ARENA_WIDTH)
          && (y (position b) >=? goalTop) && (y (position b) <=? goalBottom) then
    Some SideLeft (* Left team scored (ball went into right goal) *)
  else None.

(** ** World.ts *)

Inductive GameMode := OneVsOne | TwoVsTwo | ThreeVsThree.

(** [a === b] on game modes. *)
Definition GameMode_eqb (a b : GameMode) : bool :=
  match a, b with
  | OneVsOne, OneVsOne | TwoVsTwo, TwoVsTwo | ThreeVsThree, ThreeVsThree => true
  | _, _ => false
  end.

(** [score: { human: number; bot: number }]; the counters start at 0 and
    only ever take [++], so they are integers (a double counts them
    exactly up to 2^53). *)
Record Score := mkScore { human : Z; bot : Z }.

(** [class World].  [players] is the store of the Player objects; a
    reference to a Player ([humanPlayer], the members of [humanTeam] and
    [botTeam], the argument of [tryKick]) is an index into it. *)
Record World := mkWorld {
  players : list Player;
  humanPlayer : nat;
  humanTeam : list nat;
  botTeam : list nat;
  ball : Ball;
  score : Score;
  kickoffFreezeTime : F;
  isPaused : bool;
  gameMode : GameMode
}.

Definition set_players (w : World) (ps : list Player) : World :=
  mkWorld ps (humanPlayer w) (humanTeam w) (botTeam w) (ball w) (score w)
          (kickoffFreezeTime w) (isPaused w) (gameMode w).
Definition set_ball (w : World) (b : Ball) : World :=
  mkWorld (players w) (humanPlayer w) (humanTeam w) (botTeam w) b (score w)
          (kickoffFreezeTime w) (isPaused w) (gameMode w).
Definition set_score (w : World) (sc : Score) : World :=
  mkWorld (players w) (humanPlayer w) (humanTeam w) (botTeam w) (ball w) sc
          (kickoffFreezeTime w) (isPaused w) (gameMode w).
Definition set_kickoffFreezeTime (w : World) (t : F) : World :=
  mkWorld (players w) (humanPlayer w) (humanTeam w) (botTeam w) (ball w)
          (score w) t (isPaused w) (gameMode w).
Definition set_isPaused (w : World) (p : bool) : World :=
  mkWorld (players w) (humanPlayer w) (humanTeam w) (botTeam w) (ball w)
          (score w) (kickoffFreezeTime w) p (gameMode w).

(** [new World(gameMode)]: the human player is allocated first, then the
    teammates, then the bots. *)
Definition World_new (gameMode : GameMode) : World :=
  let centerX := ARENA_WIDTH / num 2 in
  let centerY := ARENA_HEIGHT / num 2 in
  (* Always create human player first *)
  let human := Player_new (vec2 (num 250) centerY) true in
  let '(ps, hs, bs) :=
    match gameMode with
    | OneVsOne =>
        let bot := Player_new (vec2 (num 650) centerY) false in
        ([human; bot], [0], [1])%nat
    | TwoVsTwo =>
        let teammate := Player_new (vec2 (num 300) (centerY - num 80)) true in
        let bot1 := Player_new (vec2 (num 650) centerY) false in
        let bot2 := Player_new (vec2 (num 600) (centerY - num 80)) false in
        ([human; teammate; bot1; bot2], [0; 1], [2; 3])%nat
    | ThreeVsThree =>
        let teammate1 := Player_new (vec2 (num 300) (centerY - num 100)) true in
        let teammate2 := Player_new (vec2 (num 300) (centerY + num 100)) true in
        let bot1 := Player_new (vec2 (num 650) centerY) false in
        let bot2 := Player_new (vec2 (num 600) (centerY - num 100)) false in
        let bot3 := Player_new (vec2 (num 600) (centerY + num 100)) false in
        ([human; teammate1; teammate2; bot1; bot2; bot3], [0; 1; 2], [3; 4; 5])%nat
    end in
  (* Create ball last *)
  mkWorld ps 0%nat hs bs (Ball_new (vec2 centerX centerY))
          (mkScore 0 0) (num 0) false gameMode.

(** [getAllPlayers()] *)
Definition getAllPlayers (w : World) : list nat := humanTeam w ++ botTeam w.

(** A reference to an entity of the world: a player or the ball. *)
Inductive EntityRef := PlayerRef (h : nat) | BallRef.

Definition getEntity (w : World) (r : EntityRef) : option Entity :=
  match r with
  | PlayerRef h => player_entity <$> players w !! h
  | BallRef => Some (ball_entity (ball w))
  end.

Definition setEntity (w : World) (r : EntityRef) (e : Entity) : World :=
  match r with
  | PlayerRef h => set_players w (alter (fun p => Player_with_entity p e) h (players w))
  | BallRef => set_ball w (mkBall e (isFrozen (ball w)) (freezeTime (ball w)))
  end.

(** One iteration of the inner loop of [resolveCollisions] for the pair
    [entities[i]], [entities[j]], two distinct objects. *)
Definition resolvePair (dt : F) (a b : EntityRef) (w : World) : World :=
  match getEntity w a, getEntity w b with
  | Some ea, Some eb =>
      match detectCircleCollision ea eb with
      | Some collision =>
          let '(ea', eb') := resolveCircleCollision collision dt in
          setEntity (setEntity w a ea') b eb'
      | None => w
      end
  | _, _ => w
  end.

(** [for i ... for j = i + 1 ...] over [entities]. *)
Fixpoint resolvePairs (dt : F) (entities : list EntityRef) (w : World) : World :=
  match entities with
  | [] => w
  | a :: rest =>
      resolvePairs dt rest (fold_left (fun w b => resolvePair dt a b w) rest w)
  end.

Definition resolveWall (dt : F) (w : World) (r : EntityRef) : World :=
  match getEntity w r with
  | Some e =>
      match detectWallCollision e with
      | Some wallCollision => setEntity w r (resolveWallCollision wallCollision dt)
      | None => w
      end
  | None => w
  end.

(** [World.resolveCollisions(dt)] *)
Definition World_resolveCollisions (dt : F) (w : World) : World :=
  let allPlayers := getAllPlayers w in
  let entities := map PlayerRef allPlayers ++ [BallRef] in
  (* Entity-entity collisions *)
  let w := resolvePairs dt entities w in
  (* Wall collisions for all entities *)
  fold_left (resolveWall dt) entities w.

(** [player.position = vec2(px, py); player.velocity = vec2(0, 0)] for the
    player a roster slot holds, if the slot exists. *)
Definition resetPlayer (slot : option nat) (pos : Vec2) (ps : list Player) : list Player :=
  match slot with
  | Some h =>
      alter (fun p => Player_with_entity p
                        (set_velocity (set_position (player_entity p) pos)
                                      (vec2 (num 0) (num 0)))) h ps
  | None => ps
  end.

(** [World.resetKickoff()] *)
Definition World_resetKickoff (w : World) : World :=
  let centerX := ARENA_WIDTH / num 2 in
  let centerY := ARENA_HEIGHT / num 2 in
  (* Reset human player *)
  let ps := resetPlayer (Some (humanPlayer w)) (vec2 (num 250) centerY) (players w) in
  (* Reset human team (skip index 0 which is human player) *)
  let ps :=
    match gameMode w with
    | TwoVsTwo =>
        resetPlayer (humanTeam w !! 1%nat) (vec2 (num 300) (centerY - num 80)) ps
    | ThreeVsThree =>
        let ps := resetPlayer (humanTeam w !! 1%nat) (vec2 (num 300) (centerY - num 100)) ps in
        resetPlayer (humanTeam w !! 2%nat) (vec2 (num 300) (centerY + num 100)) ps
    | OneVsOne => ps
    end in
  (* Reset bot team *)
  let ps :=
    match gameMode w with
    | OneVsOne =>
        resetPlayer (botTeam w !! 0%nat) (vec2 (num 650) centerY) ps
    | TwoVsTwo =>
        let ps := resetPlayer (botTeam w !! 0%nat) (vec2 (num 650) centerY) ps in
        resetPlayer (botTeam w !! 1%nat) (vec2 (num 600) (centerY - num 80)) ps
    | ThreeVsThree =>
        let ps := resetPlayer (botTeam w !! 0%nat) (vec2 (num 650) centerY) ps in
        let ps := resetPlayer (botTeam w !! 1%nat) (vec2 (num 600) (centerY - num 100)) ps in
        resetPlayer (botTeam w !! 2%nat) (vec2 (num 600) (centerY + num 100)) ps
    end in
  let b := ball w in
  let b := mkBall (set_velocity (set_position (ball_entity b) (vec2 centerX centerY))
                                (vec2 (num 0) (num 0)))
                  (isFrozen b) (freezeTime b) in
  let b := Ball_freeze (num 1.0) b in (* 1 second freeze *)
  mkWorld ps (humanPlayer w) (humanTeam w) (botTeam w) b (score w)
          (num 1.0) (isPaused w) (gameMode w).

(** [World.reset()] *)
Definition World_reset (w : World) : World :=
  World_resetKickoff (set_score w (mkScore 0 0)).

(** The first half of [World.update]: the kickoff freeze timer, then every
    entity's [update]. *)
Definition World_updateEntities (dt botAccelerationMultiplier : F) (w : World) : World :=
  (* Update kickoff freeze timer *)
  let w :=
    if kickoffFreezeTime w >? num 0 then
      let t := kickoffFreezeTime w - dt in
      let b := ball w in
      let b := if (t <=? num 0) && isFrozen b
               then mkBall (ball_entity b) false (freezeTime b) else b in
      set_ball (set_kickoffFreezeTime w t) b
    else w in
  (* Update all entities *)
  let ps := alter (Player_update dt (num 1.0)) (humanPlayer w) (players w) in
  let ps :=
    fold_left (fun ps player =>
                 if negb (Nat.eqb player (humanPlayer w))
                 then alter (Player_update dt (num 1.0)) player ps else ps)
              (humanTeam w) ps in
  let ps :=
    fold_left (fun ps player => alter (Player_update dt botAccelerationMultiplier) player ps)
              (botTeam w) ps in
  set_ball (set_players w ps) (Ball_update dt (ball w)).

(** [this.score.human++] or [this.score.bot++] *)
Definition World_addGoal (goal : Side) (w : World) : World :=
  match goal with
  | SideLeft => set_score w (mkScore (human (score w) + 1) (bot (score w)))
  | SideRight => set_score w (mkScore (human (score w)) (bot (score w) + 1))
  end.

(** [World.update(dt, botAccelerationMultiplier)]: the new state and the
    returned value. *)
Definition World_update (dt botAccelerationMultiplier : F) (w : World)
  : World * option Side :=
  if isPaused w then (w, None)
  else
    let w := World_updateEntities dt botAccelerationMultiplier w in
    (* Check for goal *)
    match checkGoal (ball w) with
    | Some goal => (World_resetKickoff (World_addGoal goal w), Some goal)
    | None =>
        (* Collision detection and resolution *)
        (World_resolveCollisions dt w, None)
    end.

(** [this.ball.velocity.x = vx; this.ball.velocity.y = vy] *)
Definition set_ball_velocity (w : World) (v : Vec2) : World :=
  let b := ball w in
  set_ball w (mkBall (set_velocity (ball_entity b) v) (isFrozen b) (freezeTime b)).

(** [World.tryKick(player)]: the new state and the returned boolean.  A
    reference that holds no Player is the [!player] case. *)
Definition World_tryKick (player : nat) (w : World) : World * bool :=
  match players w !! player with
  | None => (w, false)
  | Some p =>
    let pe := player_entity p in
    let be := ball_entity (ball w) in
    (* Check if positions are valid *)
    if negb (isFinite (x (position pe))) || negb (isFinite (y (position pe)))
       || negb (isFinite (x (position be))) || negb (isFinite (y (position be)))
    then (w, false)
    else
      (* Check if ball is within kick radius *)
      let dist := vec2Distance (position pe) (position be) in
      let kickRadius := KICK_RADIUS in
      if isFinite dist && (dist <=? kickRadius) && negb (isFrozen (ball w)) then
        (* Check if player has input (movement keys pressed) *)
        let inputMag :=
          Math_sqrt (x (inputAcceleration p) * x (inputAcceleration p)
                     + y (inputAcceleration p) * y (inputAcceleration p)) in
        let velocityMag :=
          Math_sqrt (x (velocity pe) * x (velocity pe)
                     + y (velocity pe) * y (velocity pe)) in
        let direction :=
          (* Priority 1: Use input direction if player is pressing keys *)
          if inputMag >? num 0.001 then vec2Normalize (inputAcceleration p)
          (* Priority 2: Use velocity direction if player is moving *)
          else if velocityMag >? num 1 then vec2Normalize (velocity pe)
          (* Priority 3: Kick forward (toward opponent goal) if stationary *)
          else
            let forwardX := if isHuman p then num 1 else - num 1 in
            vec2Normalize (vec2 forwardX (num 0)) in
        (* Apply kick force in the determined direction *)
        if isFinite (x direction) && isFinite (y direction) then
          let dirMag := vec2Length direction in
          if dirMag >? num 0.1 then
            let kickForce := KICK_FORCE in
            (set_ball_velocity w (vec2 (x direction * kickForce) (y direction * kickForce)),
             true)
          else (w, false)
        else (w, false)
      else (w, false)
  end.

Section WithMath.
Variable M : MathLib F.

(** The loop of [tryPass] over [teammates]: [best] is [bestTeammate] with
    its [bestScore]; [None] is the initial [null] with [bestScore =
    Infinity], below which every finite score lies. *)
Definition tryPass_scan (ps : list Player) (p : Player) (ballPos : Vec2)
    (best : option (nat * F)) (teammate : nat) : option (nat * F) :=
  match ps !! teammate with
  | None => best
  | Some t =>
    let ppos := position (player_entity p) in
    let tpos := position (player_entity t) in
    let dist := vec2Distance ppos tpos in
    (* Skip if invalid or too close/far *)
    if negb (isFinite dist) || (dist <? num 0.1) || (dist >? num 500) then best
    else
      let passAngle := Math_atan2 M (y tpos - y ppos) (x tpos - x ppos) in
      if negb (isFinite passAngle) then best
      else
        let ballToTeammate := vec2Sub tpos ballPos in
        let ballToTeammateNorm := vec2Normalize ballToTeammate in
        let passDirNorm :=
          vec2Normalize (vec2 (Math_cos M passAngle) (Math_sin M passAngle)) in
        let teammateAhead := vec2Dot ballToTeammateNorm passDirNorm in
        if negb (isFinite teammateAhead) then best
        else
          (* Prefer teammates that are ahead and not too close/far *)
          let score :=
            dist + (if teammateAhead <? num 0 then num 1000 else num 0)
            - (teammateAhead * num 50) in
          let belowBest :=
            match best with Some (_, bestScore) => score <? bestScore | None => true end in
          if (dist <? num 400) && (dist >? num 30) && belowBest && isFinite score
          then Some (teammate, score) else best
  end.

(** [World.tryPass(player)]: the new state and the receiver, if any. *)
Definition World_tryPass (player : nat) (w : World) : World * option nat :=
  match players w !! player with
  | None => (w, None)
  | Some p =>
    let ppos := position (player_entity p) in
    let bpos := position (ball_entity (ball w)) in
    (* Check if player has ball *)
    if negb (isFinite (x ppos)) || negb (isFinite (y ppos))
       || negb (isFinite (x bpos)) || negb (isFinite (y bpos))
    then (w, None)
    else
    let distToBall := vec2Distance ppos bpos in
    if negb (isFinite distToBall) || (distToBall >? KICK_RADIUS) || isFrozen (ball w)
    then (w, None)
    else
    (* Find nearest teammate - check by reference *)
    let isHumanTeam := existsb (Nat.eqb player) (humanTeam w) in
    let keep (h : nat) : bool :=
      match players w !! h with
      | Some q => negb (Nat.eqb h player)
                  && isFinite (x (position (player_entity q)))
                  && isFinite (y (position (player_entity q)))
      | None => false
      end in
    let teammates :=
      if isHumanTeam then List.filter keep (humanTeam w)
      else List.filter keep (botTeam w) in
    if Nat.eqb (length teammates) 0 then (w, None)
    else
    (* If teammate is passing, prioritize human player heavily *)
    let toHuman : option (World * option nat) :=
      match humanTeam w !! 0%nat with
      | None => None
      | Some humanPlayer =>
        match players w !! humanPlayer with
        | None => None
        | Some hp =>
          if isHumanTeam && negb (Nat.eqb humanPlayer player) then
            let hpos := position (player_entity hp) in
            let hvel := velocity (player_entity hp) in
            let distToHuman := vec2Distance ppos hpos in
            let humanAhead := x hpos >? x ppos in
            let humanInGoodPosition := x hpos >? ARENA_WIDTH / num 2 - num 100 in
            let humanOpen := (distToHuman >? num 30) && (distToHuman <? num 500) in
            (* Human gets very high priority if they're in a good position *)
            if humanOpen && (humanAhead || humanInGoodPosition) then
              (* Calculate pass with lead *)
              let humanSpeed := Math_sqrt (x hvel * x hvel + y hvel * y hvel) in
              let passLead := Math_min (humanSpeed * num 0.45) (num 85) in
              let humanDirection :=
                if humanSpeed >? num 5 then vec2Normalize hvel
                else vec2Normalize (vec2Sub hpos ppos) in
              if isFinite (x humanDirection) then
                let passTarget :=
                  vec2 (x hpos + x humanDirection * passLead)
                       (y hpos + y humanDirection * passLead) in
                (* Clamp to valid area *)
                let passTarget :=
                  vec2 (Math_max (num 0) (Math_min ARENA_WIDTH (x passTarget)))
                       (Math_max (num 80)
                                 (Math_min (ARENA_HEIGHT - num 80) (y passTarget))) in
                (* Pass the ball toward predicted human position *)
                let passDirection := vec2Normalize (vec2Sub passTarget bpos) in
                if isFinite (x passDirection) && isFinite (y passDirection) then
                  let passForce := KICK_FORCE * num 0.92 in
                  Some (set_ball_velocity w (vec2 (x passDirection * passForce)
                                                  (y passDirection * passForce)),
                        Some humanPlayer)
                else None
              else None
            else None
          else None
        end
      end in
    match toHuman with
    | Some result => result
    | None =>
      (* Find best teammate to pass to (closest and in good position) *)
      match fold_left (tryPass_scan (players w) p bpos) teammates None with
      | None => (w, None)
      | Some (bestTeammate, _) =>
        match players w !! bestTeammate with
        | None => (w, None)
        | Some t =>
          let tpos := position (player_entity t) in
          let tvel := velocity (player_entity t) in
          if isFinite (x tpos) && isFinite (y tpos) then
            (* Pass the ball toward teammate with lead *)
            let targetSpeed := Math_sqrt (x tvel * x tvel + y tvel * y tvel) in
            let passLead := Math_min (targetSpeed * num 0.35) (num 70) in
            let targetDirection :=
              if targetSpeed >? num 5 then vec2Normalize tvel
              else vec2Normalize (vec2Sub tpos ppos) in
            let fresh := isFinite (x targetDirection) in
            let passTarget :=
              if fresh then
                vec2 (x tpos + x targetDirection * passLead)
                     (y tpos + y targetDirection * passLead)
              else tpos in
            (* Clamp to valid area *)
            let passTarget :=
              vec2 (Math_max (num 0) (Math_min ARENA_WIDTH (x passTarget)))
                   (Math_max (num 80)
                             (Math_min (ARENA_HEIGHT - num 80) (y passTarget))) in
            (* when [passTarget] is [bestTeammate.position] itself, the
               clamp has written into the teammate *)
            let w :=
              if fresh then w
              else set_players w
                     (alter (fun q => Player_with_entity q
                                        (set_position (player_entity q) passTarget))
                            bestTeammate (players w)) in
            let passDirection := vec2Normalize (vec2Sub passTarget bpos) in
            if isFinite (x passDirection) && isFinite (y passDirection) then
              let passForce := KICK_FORCE * num 0.9 in (* Slightly less than kick *)
              (set_ball_velocity w (vec2 (x passDirection * passForce)
                                         (y passDirection * passForce)),
               Some bestTeammate)
            else (w, None)
          else (w, None)
        end
      end
    end
  end.

End WithMath.

(** ** Bot.ts *)

(** [array.indexOf(item)] on references: the first index, or -1. *)
Fixpoint indexOf_from (i : Z) (l : list nat) (h : nat) : Z :=
  match l with
  | [] => (-1)%Z
  | h' :: l' => if Nat.eqb h' h then i else indexOf_from (i + 1)%Z l' h
  end.
Definition indexOf (l : list nat) (h : nat) : Z := indexOf_from 0%Z l h.

(** [array.includes(item)] on references. *)
Definition includes (l : list nat) (h : nat) : bool := existsb (Nat.eqb h) l.

(** [Math.max(lo, Math.min(hi, v))], as the sources write their clamps. *)
Definition maxmin (lo hi v : F) : F := Math_max lo (Math_min hi v).

(** The loop body of [calculateSeparation]; the state is [separation] and
    [count]. *)
Definition separation_step (ps : list Player) (bot : nat) (b : Player)
    (humanTeam botTeam : list nat) (isTeammate : bool)
    (st : Vec2 * nat) (other : nat) : Vec2 * nat :=
  let separationRadius := num 100 in
  match ps !! other with
  | None => st
  | Some o =>
    if Nat.eqb other bot then st
    else
      let opos := position (player_entity o) in
      let bpos := position (player_entity b) in
      if negb (isFinite (x opos)) || negb (isFinite (y opos)) then st
      else
        let dist := vec2Distance bpos opos in
        if (dist <? separationRadius) && (dist >? num 0.1) then
          (* Calculate direction away from other player *)
          let away := vec2Normalize (vec2Sub bpos opos) in
          if isFinite (x away) && isFinite (y away) then
            (* Stronger separation when closer, especially for same team *)
            let isSameTeam :=
              (isTeammate && includes humanTeam other)
              || (negb isTeammate && includes botTeam other) in
            let baseStrength := (separationRadius - dist) / separationRadius in
            let strength :=
              if isSameTeam then baseStrength * num 1.5 else baseStrength in
            (vec2Add (fst st) (vec2Scale away strength), S (snd st))
          else st
        else st
  end.

(** [Bot.calculateSeparation(bot, humanTeam, botTeam, isTeammate)] *)
Definition calculateSeparation (ps : list Player) (bot : nat) (b : Player)
    (humanTeam botTeam : list nat) (isTeammate : bool) : Vec2 :=
  (* Check all players (both teams) *)
  let allPlayers := humanTeam ++ botTeam in
  let '(separation, count) :=
    fold_left (separation_step ps bot b humanTeam botTeam isTeammate)
              allPlayers (vec2 (num 0) (num 0), 0%nat) in
  if Nat.ltb 0 count
     && (negb (x separation =? num 0) || negb (y separation =? num 0))
  then vec2Normalize separation
  else vec2 (num 0) (num 0).

(** The lead-biased pass target used throughout [Bot]: the receiver's
    position plus [passLead] along its direction of travel (or towards
    [toward] when it is near-stationary), clamped to the field; [None]
    when the direction is not finite. *)
Definition leadTarget (r : Player) (toward : Vec2) (factor cap : F) : option Vec2 :=
  let rpos := position (player_entity r) in
  let rvel := velocity (player_entity r) in
  let speed := Math_sqrt (x rvel * x rvel + y rvel * y rvel) in
  let passLead := Math_min (speed * factor) cap in
  let direction :=
    if speed >? num 5 then vec2Normalize rvel
    else vec2Normalize (vec2Sub toward rpos) in
  if isFinite (x direction) then
    let tx := x rpos + x direction * passLead in
    let ty := y rpos + y direction * passLead in
    Some (vec2 (maxmin (num 0) ARENA_WIDTH tx)
               (maxmin (num 80) (ARENA_HEIGHT - num 80) ty))
  else None.

(** [Bot.get3v3TeammatePosition(...)] *)
Definition get3v3TeammatePosition (ps : list Player) (bot : nat) (b : Player)
    (ball : Ball) (humanPlayer : nat) (humanTeam : list nat)
    (ballOnBotSide : bool) (centerX centerY : F) (humanGoalCenter : Vec2)
    (botHasBallControl : bool) : Vec2 :=
  let bpos := position (player_entity b) in
  let ballPos := position (ball_entity ball) in
  let teammateIndex := indexOf humanTeam bot in
  let isLeftWinger := Z.eqb teammateIndex 1 in (* First teammate (left winger) *)
  let isRightWinger := Z.eqb teammateIndex 2 in (* Second teammate (right winger) *)
  (* Winger positions - wide on the field *)
  let topWingerY := centerY - num 120 in
  let bottomWingerY := centerY + num 120 in
  (* Fallback: stay in position *)
  let fallback := vec2 (x bpos) (y bpos) in
  if botHasBallControl then
    (* No good pass option - advance toward goal *)
    let advance := vec2 (x humanGoalCenter - num 100) (y bpos) in
    match ps !! humanPlayer with
    | None => advance
    | Some hp =>
      let hpos := position (player_entity hp) in
      if isFinite (x hpos) && isFinite (y hpos) then
        let distToHuman := vec2Distance bpos hpos in
        let humanAhead := x hpos >? x bpos in
        let humanInGoodPosition := x hpos >? centerX - num 100 in
        (* Priority 1: Human is ahead and in good position *)
        let p1 :=
          if humanAhead && humanInGoodPosition
             && (distToHuman <? num 450) && (distToHuman >? num 40)
          then leadTarget hp humanGoalCenter (num 0.5) (num 90) else None in
        match p1 with
        | Some passTarget => passTarget
        | None =>
          (* Priority 1.5: Human is in range (even if not ahead) *)
          let p15 :=
            if (distToHuman <? num 400) && (distToHuman >? num 40)
               && humanInGoodPosition
            then leadTarget hp humanGoalCenter (num 0.4) (num 70) else None in
          match p15 with
          | Some passTarget => passTarget
          | None =>
            (* Priority 2: Human is behind but close *)
            if negb humanAhead && (distToHuman <? num 200) then
              vec2 (Math_min (x bpos + num 100) (x humanGoalCenter - num 60)) (y bpos)
            (* Priority 3: Human too close *)
            else if distToHuman <? num 50 then
              if isLeftWinger
              then vec2 (x bpos) (Math_max (num 80) (y bpos - num 80))
              else vec2 (x bpos) (Math_min (ARENA_HEIGHT - num 80) (y bpos + num 80))
            else advance
          end
        end
      else advance
    end
  else
    (* WITHOUT BALL: Advanced positioning as winger/playmaker *)
    let human := ps !! humanPlayer in
    let humanHasBall :=
      match human with
      | Some hp => vec2Distance (position (player_entity hp)) ballPos <? num 40
      | None => false
      end in
    let humanX := match human with
                  | Some hp => x (position (player_entity hp))
                  | None => num 0 (* read only when [humanHasBall] *)
                  end in
    let winger (insideY wingerY : F) : Vec2 :=
      if humanHasBall then
        (* Option 1: Make overlapping run (cut inside) *)
        if humanX >? centerX + num 50 then
          vec2 (Math_min (humanX + num 80) (x humanGoalCenter - num 40))
               (maxmin (num 80) (ARENA_HEIGHT - num 80) insideY)
        (* Option 2: Stay wide for cross/through ball *)
        else
          vec2 (Math_max (x ballPos - num 40) (centerX - num 30))
               (maxmin (num 80) (ARENA_HEIGHT - num 80) wingerY)
      else
        (* Ball with opponent or teammate - support positioning *)
        vec2 (Math_max (x ballPos - num 80) (centerX - num 60))
             (maxmin (num 80) (ARENA_HEIGHT - num 80) wingerY) in
    if ballOnBotSide then
      (* OFFENSIVE: Complex winger positioning *)
      if isLeftWinger then winger (centerY - num 60) topWingerY
      else if isRightWinger then winger (centerY + num 60) bottomWingerY
      else fallback
    else
      (* DEFENSIVE: Wingers track back but maintain width *)
      if isLeftWinger then
        vec2 (Math_max (centerX + num 100) (x ballPos - num 120))
             (maxmin (num 80) (ARENA_HEIGHT - num 80) topWingerY)
      else if isRightWinger then
        vec2 (Math_max (centerX + num 100) (x ballPos - num 120))
             (maxmin (num 80) (ARENA_HEIGHT - num 80) bottomWingerY)
      else fallback.

(** The loop of [getOpponentCoordinatedPosition] over [teammates]:
    [best] is [bestTeammate] with its [bestScore] ([None]: [null] and
    [Infinity]). *)
Definition opponent_scan (ps : list Player) (b : Player) (centerX : F)
    (best : option (nat * F)) (teammate : nat) : option (nat * F) :=
  match ps !! teammate with
  | None => best
  | Some t =>
    let bpos := position (player_entity b) in
    let tpos := position (player_entity t) in
    if negb (isFinite (x tpos)) then best
    else
      let dist := vec2Distance bpos tpos in
      let teammateAhead := x tpos >? x bpos in
      let teammateInGoodPosition := x tpos >? centerX - num 80 in
      let teammateOpen := (dist >? num 50) && (dist <? num 350) in
      (* Prefer teammates that are ahead, in good position, and open *)
      let score :=
        dist + (if teammateAhead then - num 80 else num 100)
        + (if teammateInGoodPosition then - num 50 else num 50)
        + (if teammateOpen then - num 30 else num 50) in
      let belowBest :=
        match best with Some (_, bestScore) => score <? bestScore | None => true end in
      if (dist <? num 400) && (dist >? num 40) && isFinite score && belowBest
      then Some (teammate, score) else best
  end.

Definition is2v2 (gameMode : option GameMode) : bool :=
  match gameMode with Some TwoVsTwo => true | _ => false end.
Definition is3v3 (gameMode : option GameMode) : bool :=
  match gameMode with Some ThreeVsThree => true | _ => false end.

(** [Bot.getOpponentCoordinatedPosition(...)] *)
Definition getOpponentCoordinatedPosition (ps : list Player) (bot : nat)
    (b : Player) (ball : Ball) (botTeam : list nat) (ballOnBotSide : bool)
    (centerX centerY : F) (humanGoalCenter : Vec2) (botHasBallControl : bool)
    (predictedBallPos : Vec2) (gameMode : option GameMode) : Vec2 :=
  let bpos := position (player_entity b) in
  let ballPos := position (ball_entity ball) in
  let botIndex := indexOf botTeam bot in
  (* Fallback *)
  let fallback := vec2 (x ballPos) (y ballPos) in
  if botHasBallControl then
    (* HAS BALL: Look for passing opportunities to teammates *)
    let teammates :=
      List.filter (fun h => match ps !! h with
                            | Some _ => negb (Nat.eqb h bot)
                            | None => false
                            end) botTeam in
    (* No good pass - attack goal *)
    let attack := vec2 (x humanGoalCenter) (y humanGoalCenter) in
    match fold_left (opponent_scan ps b centerX) teammates None with
    | None => attack
    | Some (bestTeammate, _) =>
      match ps !! bestTeammate with
      | None => attack
      | Some t =>
        let tpos := position (player_entity t) in
        if isFinite (x tpos) then
          (* Pass to teammate - predict their position *)
          match leadTarget t humanGoalCenter (num 0.3) (num 60) with
          | Some passTarget => passTarget
          | None => vec2 (x tpos) (y tpos)
          end
        else attack
      end
    end
  else
    (* WITHOUT BALL: Strategic positioning with spacing *)
    if ballOnBotSide then
      (* OFFENSIVE: Spread out and support attack *)
      if is2v2 gameMode then
        if Z.eqb botIndex 0 then
          (* First bot - chase ball *)
          let distToBall := vec2Distance bpos ballPos in
          if distToBall <? num 250
          then vec2 (x predictedBallPos) (y predictedBallPos)
          else vec2 (x ballPos - num 80) centerY
        else
          (* Second bot - support wide *)
          let supportX := Math_max (x ballPos - num 100) (centerX - num 40) in
          let supportY := if Z.eqb botIndex 1 then centerY - num 100
                          else centerY + num 100 in
          vec2 supportX (maxmin (num 80) (ARENA_HEIGHT - num 80) supportY)
      else if is3v3 gameMode then
        if Z.eqb botIndex 0 then
          (* Center - chase ball or support *)
          let distToBall := vec2Distance bpos ballPos in
          if distToBall <? num 200
          then vec2 (x predictedBallPos) (y predictedBallPos)
          else vec2 (x ballPos - num 70) centerY
        else if Z.eqb botIndex 1 then
          (* Left winger - stay wide left *)
          vec2 (Math_max (x ballPos - num 90) (centerX - num 50))
               (maxmin (num 80) (ARENA_HEIGHT - num 80) (centerY - num 110))
        else if Z.eqb botIndex 2 then
          (* Right winger - stay wide right *)
          vec2 (Math_max (x ballPos - num 90) (centerX - num 50))
               (maxmin (num 80) (ARENA_HEIGHT - num 80) (centerY + num 110))
        else fallback
      else fallback
    else
      (* DEFENSIVE: Coordinate defense with spacing *)
      if is2v2 gameMode then
        if Z.eqb botIndex 0 then
          (* First bot - defend goal area *)
          vec2 (Math_max (centerX + num 100) (x ballPos - num 100)) centerY
        else
          (* Second bot - intercept or wide defense *)
          let defendX := Math_max (centerX + num 80) (x ballPos - num 120) in
          let defendY := if Z.eqb botIndex 1 then centerY - num 100
                         else centerY + num 100 in
          vec2 defendX (maxmin (num 80) (ARENA_HEIGHT - num 80) defendY)
      else if is3v3 gameMode then
        if Z.eqb botIndex 0 then
          (* Center - defend goal area *)
          vec2 (Math_max (centerX + num 110) (x ballPos - num 100)) centerY
        else if Z.eqb botIndex 1 then
          (* Left defender - wide left *)
          vec2 (Math_max (centerX + num 90) (x ballPos - num 130))
               (maxmin (num 80) (ARENA_HEIGHT - num 80) (centerY - num 100))
        else if Z.eqb botIndex 2 then
          (* Right defender - wide right *)
          vec2 (Math_max (centerX + num 90) (x ballPos - num 130))
               (maxmin (num 80) (ARENA_HEIGHT - num 80) (centerY + num 100))
        else fallback
      else fallback.

Section BotWithMath.
Variable M : MathLib F.

(** The first part of [getDesiredDirection], up to the value it assigns
    to [target], for the Player [b] that [bot] holds.  [random] is the
    value [Math.random()] returns if it is called. *)
Definition getDesiredDirection_target (random : F) (ps : list Player) (bot : nat)
    (b : Player) (ball : Ball) (humanPlayer : nat) (humanTeam botTeam : list nat)
    (isTeammate : bool) (gameMode : option GameMode) : Vec2 :=
  let bpos := position (player_entity b) in
  let ballPos := position (ball_entity ball) in
  let ballVel := velocity (ball_entity ball) in
  let centerX := ARENA_WIDTH / num 2 in
  let centerY := ARENA_HEIGHT / num 2 in
  let botGoalCenter := vec2 ARENA_WIDTH centerY in
  let humanGoalCenter := vec2 (num 0) centerY in
  let ballOnBotSide := x ballPos >? centerX in
  let botHasBallControl := vec2Distance bpos ballPos <? KICK_RADIUS + num 20 in
  let ballDistToBotGoal := vec2Distance ballPos botGoalCenter in
  let ballDistToHumanGoal := vec2Distance ballPos humanGoalCenter in
  (* Predict ball future position (with safety checks) *)
  let ballSpeed := Math_sqrt (x ballVel * x ballVel + y ballVel * y ballVel) in
  let timeToIntercept :=
    if ballSpeed >? num 10 then
      let distToBall := vec2Distance bpos ballPos in
      let denominator := ballSpeed * num 0.8 in
      if (denominator >? num 0.1) && isFinite distToBall && isFinite denominator then
        let t := Math_min (distToBall / denominator) (num 2.0) in
        Math_max (num 0) (Math_min t (num 2.0)) (* Clamp between 0 and 2 *)
      else num 0
    else num 0 in
  let predictedBallPos :=
    vec2 (x ballPos + (if isFinite (x ballVel) then x ballVel * timeToIntercept else num 0))
         (y ballPos + (if isFinite (y ballVel) then y ballVel * timeToIntercept else num 0)) in
  (* Clamp predicted position *)
  let predictedBallPos :=
    vec2 (maxmin (- num 100) (ARENA_WIDTH + num 100) (x predictedBallPos))
         (maxmin (- num 100) (ARENA_HEIGHT + num 100) (y predictedBallPos)) in
  (* Ensure predicted position is finite *)
  let predictedBallPos :=
    if negb (isFinite (x predictedBallPos)) || negb (isFinite (y predictedBallPos))
    then vec2 (x ballPos) (y ballPos) else predictedBallPos in
  let human := ps !! humanPlayer in
    if isTeammate then
      if is3v3 gameMode then
        (* In 3v3, teammates should actively chase ball and look for passes *)
        let distToBall := vec2Distance bpos ballPos in
        let humanHasBall :=
          match human with
          | Some hp => vec2Distance (position (player_entity hp)) ballPos <? num 40
          | None => false
          end in
        (* [distToBall < distToHuman || distToHuman > 200], with
           [distToHuman = Infinity] when there is no human player *)
        let closerOrHumanFar :=
          match human with
          | Some hp =>
              let distToHuman := vec2Distance bpos (position (player_entity hp)) in
              (distToBall <? distToHuman) || (distToHuman >? num 200)
          | None => true
          end in
        let support (control : bool) :=
          get3v3TeammatePosition ps bot b ball humanPlayer humanTeam ballOnBotSide
                                 centerX centerY humanGoalCenter control in
        (* Priority 1: If human has ball, position for passes/runs *)
        if humanHasBall then support false
        (* Priority 2: If ball is close and human doesn't have it, chase it *)
        else if negb botHasBallControl && (distToBall <? num 300) then
          if closerOrHumanFar then vec2 (x predictedBallPos) (y predictedBallPos)
          else support false
        (* Priority 3: If we have ball, use winger logic to pass/find human *)
        else if botHasBallControl then support true
        (* Priority 4: Support positioning *)
        else support false
      else
        (* TEAMMATE AI: Support human player with better spacing (1v1, 2v2) *)
        if botHasBallControl then
          (* Fallback to goal *)
          let toGoal := vec2 (x humanGoalCenter) (y humanGoalCenter) in
          match human with
          | None => toGoal
          | Some hp =>
            let hpos := position (player_entity hp) in
            if isFinite (x hpos) && isFinite (y hpos) then
              let distToHuman := vec2Distance bpos hpos in
              let humanAhead := x hpos >? x bpos in
              let humanInGoodPosition := x hpos >? centerX - num 100 in
              (* Priority 1: Human is ahead and in good position - lead the pass *)
              if humanAhead && humanInGoodPosition
                 && (distToHuman <? num 400) && (distToHuman >? num 40) then
                match leadTarget hp humanGoalCenter (num 0.35) (num 70) with
                | Some t => t
                | None => vec2 (x hpos) (y hpos)
                end
              (* Priority 2: Human is in range - pass to them *)
              else if (distToHuman <? num 350) && (distToHuman >? num 40)
                      && isFinite distToHuman then
                vec2 (x hpos) (y hpos)
              (* Priority 3: Human is too close - move forward to create space *)
              else if distToHuman <? num 50 then
                vec2 (Math_min (x bpos + num 80) (x humanGoalCenter - num 60)) (y bpos)
              (* Priority 4: Move toward goal but keep human in mind *)
              else toGoal
            else toGoal
          end
        else
          (* Support positioning with spacing from other teammates *)
          let teammateIndex := indexOf humanTeam bot in
          let spacingOffset := fromZ teammateIndex * num 120 - num 60 in
          if ballOnBotSide then
            (* On offensive side - support attack with spacing *)
            vec2 (maxmin (num 0) ARENA_WIDTH (x ballPos - num 100))
                 (maxmin (num 60) (ARENA_HEIGHT - num 60) (y ballPos + spacingOffset))
          else
            (* On defensive side - help defend with spacing *)
            vec2 (maxmin (num 0) ARENA_WIDTH (centerX + num 120))
                 (maxmin (num 60) (ARENA_HEIGHT - num 60) (y ballPos + spacingOffset))
    else
      (* OPPONENT AI: Coordinated play with passing and spacing (2v2, 3v3) *)
      let isMultiplayer := is2v2 gameMode || is3v3 gameMode in
      if isMultiplayer then
        getOpponentCoordinatedPosition ps bot b ball botTeam ballOnBotSide
          centerX centerY humanGoalCenter botHasBallControl predictedBallPos gameMode
      else
        (* 1v1: Simple attack/defend *)
        let shouldAttack :=
          ballOnBotSide
          && (botHasBallControl
              || (ballDistToHumanGoal <? ballDistToBotGoal + num 100)) in
        if shouldAttack then
          (* OFFENSIVE MODE *)
          if botHasBallControl then
            (* [target = humanGoalCenter; target.y += goalOffset]: the
               write goes into [humanGoalCenter], which this branch
               (an opponent) does not read again *)
            let goalOffset := (random - num 0.5) * num 60 in
            vec2 (x humanGoalCenter) (y humanGoalCenter + goalOffset)
          else
            let ballToGoal := vec2Sub humanGoalCenter ballPos in
            let approachAngle := Math_atan2 M (y ballToGoal) (x ballToGoal) in
            let approachDistance := num 40 in
            vec2 (x ballPos - Math_cos M approachAngle * approachDistance)
                 (y ballPos - Math_sin M approachAngle * approachDistance)
        else
          (* Normal defensive mode for 1v1, 2v2 *)
          let ballToBotGoal := vec2Sub botGoalCenter ballPos in
          let ballToGoalDist := vec2Distance ballPos botGoalCenter in
          let standoff (defendDistance : F) : option Vec2 :=
            let t := Math_min (num 1) (Math_max (num 0) (defendDistance / ballToGoalDist)) in
            if isFinite t then Some (vec2Add ballPos (vec2Scale ballToBotGoal t))
            else None in
          let target :=
            (* Safety check for division *)
            if ballToGoalDist <? num 0.1 then vec2 (x botGoalCenter) (y botGoalCenter)
            else if (ballSpeed >? num 20) && isFinite ballSpeed then
              let ballSpeedVec := vec2Normalize ballVel in
              let ballToBotGoalNorm := vec2Normalize ballToBotGoal in
              let dotProduct := vec2Dot ballSpeedVec ballToBotGoalNorm in
              if isFinite dotProduct && (dotProduct >? - num 0.3) then
                let target := vec2 (x predictedBallPos) (y predictedBallPos) in
                let interceptDistToGoal := vec2Distance target botGoalCenter in
                if (interceptDistToGoal <? num 120) && isFinite interceptDistToGoal then
                  match standoff (num 100) with
                  | Some t => t
                  | None => target
                  end
                else target
              else
                match standoff (num 120) with
                | Some t => t
                | None => vec2 (x ballPos) (y ballPos)
                end
            else
              match standoff (num 120) with
              | Some t => if ballToGoalDist >? num 0.1 then t
                          else vec2 (x ballPos) (y ballPos)
              | None => vec2 (x ballPos) (y ballPos)
              end in
          (* Clamp target position *)
          let target :=
            vec2 (maxmin (centerX + num 50) ARENA_WIDTH (x target))
                 (maxmin (num 0) ARENA_HEIGHT (y target)) in
          (* Final safety check *)
          if negb (isFinite (x target)) || negb (isFinite (y target))
          then vec2 (x ballPos) (y ballPos) else target.

(** The second part of [getDesiredDirection]: from [target] to the value
    of [direction] that is handed to [vec2Normalize], for the Player [b]
    that [bot] holds. *)
Definition getDesiredDirection_direction (random : F) (ps : list Player) (bot : nat)
    (b : Player) (ball : Ball) (humanPlayer : nat) (humanTeam botTeam : list nat)
    (isTeammate : bool) (gameMode : option GameMode) : Vec2 :=
  let bpos := position (player_entity b) in
  let centerY := ARENA_HEIGHT / num 2 in
  let humanGoalCenter := vec2 (num 0) centerY in
  (* Calculate separation from nearby players (avoid clumping) *)
  let separationForce := calculateSeparation ps bot b humanTeam botTeam isTeammate in
  let target :=
    getDesiredDirection_target random ps bot b ball humanPlayer humanTeam
                               botTeam isTeammate gameMode in
  (* Calculate direction to target *)
  let direction := vec2Sub target bpos in
  let distToTarget := vec2Distance bpos target in
  (* Safety check *)
  let direction :=
    if negb (isFinite distToTarget) || (distToTarget <? num 0.1)
    then vec2 (num 1) (num 0) else direction in
  (* Ensure direction is finite before further processing *)
  let direction :=
    if negb (isFinite (x direction)) || negb (isFinite (y direction))
    then vec2 (num 1) (num 0) else direction in
  (* Apply separation to avoid clumping (stronger in 3v3) *)
  let direction :=
    if negb (x separationForce =? num 0) || negb (y separationForce =? num 0) then
      let separationWeight := if is3v3 gameMode then num 0.5 else num 0.4 in
      vec2Add (vec2Scale direction (num 1 - separationWeight))
              (vec2Scale separationForce separationWeight)
    else direction in
  (* Fine-tune for teammates *)
  if isTeammate && (distToTarget <? num 80) && (distToTarget >? num 0.1) then
    let goalDirection := vec2Sub humanGoalCenter bpos in
    let goalDist := vec2Distance bpos humanGoalCenter in
    if goalDist >? num 0.1 then
      let blendFactor := num 0.2 in
      vec2Add (vec2Scale direction (num 1 - blendFactor))
              (vec2Scale goalDirection blendFactor)
    else direction
  else direction.

(** [Bot.getDesiredDirection(bot, ball, humanPlayer, humanTeam, botTeam,
    isTeammate, gameMode)]: [target] and [direction] as above, then the
    normalisation.  The result is [None] when [bot] holds no Player (the
    call throws); with [bot] a Player nothing in the [try] block throws,
    so the [catch] block is not modelled. *)
Definition getDesiredDirection (random : F) (ps : list Player) (bot : nat)
    (ball : Ball) (humanPlayer : nat) (humanTeam botTeam : list nat)
    (isTeammate : bool) (gameMode : option GameMode) : option Vec2 :=
  match ps !! bot with
  | None => None
  | Some b =>
    let direction :=
      getDesiredDirection_direction random ps bot b ball humanPlayer humanTeam
                                    botTeam isTeammate gameMode in
    let normalized := vec2Normalize direction in
    (* Safety check *)
    if negb (isFinite (x normalized)) || negb (isFinite (y normalized))
    then Some (vec2 (num 1) (num 0))
    else Some normalized
  end.

End BotWithMath.

(** [class Bot]: the history of ball positions and its capacity. *)
Record Bot := mkBot {
  ballHistory : list Vec2;
  historySize : nat
}.

(** [new Bot()] *)
Definition Bot_new : Bot := mkBot [] 20 (* Store last 20 positions *).

(** [Bot.updateBallPosition(ballPos)]: [push] a copy, then [shift] when the
    history is over its capacity. *)
Definition updateBallPosition (ballPos : Vec2) (b : Bot) : Bot :=
  let history := ballHistory b ++ [vec2 (x ballPos) (y ballPos)] in
  if Nat.ltb (historySize b) (length history)
  then mkBot (tail history) (historySize b)
  else mkBot history (historySize b).

(** [Bot.shouldKick(bot, ball, difficulty, isTeammate, humanPlayer,
    gameMode)].  [random] is the value [Math.random()] returns if it is
    called (every path calls it at most once); [humanPlayer] and
    [gameMode] are optional.  The result is [None] when [bot] holds no
    Player (the call throws). *)
Definition shouldKick (random : F) (ps : list Player) (bot : nat) (ball : Ball)
    (difficulty : F) (isTeammate : bool) (humanPlayer : option nat)
    (gameMode : option GameMode) : option bool :=
  match ps !! bot with
  | None => None
  | Some b =>
    let bpos := position (player_entity b) in
    let ballPos := position (ball_entity ball) in
    let ballVel := velocity (ball_entity ball) in
    let dist := vec2Distance bpos ballPos in
    let kickRadius := KICK_RADIUS in
    if (dist >? kickRadius) || isFrozen ball then Some false
    else
      let centerX := ARENA_WIDTH / num 2 in
      let ballOnBotSide := x ballPos >? centerX in
      let botOnOffensiveSide := x bpos >? centerX - num 100 in
      let ballSpeed := Math_sqrt (x ballVel * x ballVel + y ballVel * y ballVel) in
      (* Teammates: Aggressive passing to human player (2v2 and 3v3) *)
      let passToHuman : option bool :=
        match humanPlayer ≫= (fun h => ps !! h) with
        | Some hp =>
          if isTeammate && (is2v2 gameMode || is3v3 gameMode) then
            let hpos := position (player_entity hp) in
            let distToHuman := vec2Distance bpos hpos in
            let humanAhead := x hpos >? x bpos in
            let humanInGoodPosition := x hpos >? centerX - num 100 in
            let humanOpen := (distToHuman >? num 40) && (distToHuman <? num 450) in
            (* Very high priority: Human is ahead, in good position, and open *)
            if humanAhead && humanInGoodPosition && humanOpen && (ballSpeed <? num 280)
            then Some (random <? num 0.95)
            (* High priority: Human is ahead and in range *)
            else if humanAhead && humanOpen && (ballSpeed <? num 260)
            then Some (random <? num 0.9)
            (* Medium-high priority: Human is in good position and open *)
            else if humanInGoodPosition && humanOpen && (ballSpeed <? num 240)
            then Some (random <? num 0.85)
            (* Medium priority: Human nearby and open *)
            else if humanOpen && (ballSpeed <? num 220)
            then Some (random <? num 0.8)
            (* Low-medium priority: Human anywhere in range *)
            else if (distToHuman <? num 500) && (distToHuman >? num 30)
                    && (ballSpeed <? num 200)
            then Some (random <? num 0.65)
            (* Human is very close and ahead *)
            else if humanAhead && (distToHuman <? num 200) && (distToHuman >? num 40)
                    && (ballSpeed <? num 300)
            then Some (random <? num 0.7)
            else None
          else None
        | None => None
        end in
      match passToHuman with
      | Some decision => Some decision
      | None =>
        let shouldKickForOffense :=
          ballOnBotSide && botOnOffensiveSide && (ballSpeed <? num 200) in
        (* In 2v2 and 3v3, opponents should pass more often *)
        let coordinated : option bool :=
          if negb isTeammate && (is2v2 gameMode || is3v3 gameMode) then
            if ballOnBotSide && botOnOffensiveSide && (ballSpeed <? num 220)
            then Some (random <? num 0.75)
            else if ballSpeed <? num 180 then Some (random <? num 0.6)
            else None
          else None in
        match coordinated with
        | Some decision => Some decision
        | None =>
          let kickProbability := difficulty * num 0.7 + num 0.3 in
          Some (shouldKickForOffense && (random <? kickProbability))
        end
      end
  end.

(** ** Input.ts *)

(** [class Input]: the keys held down, the pause flag, and the keys that
    went down since the last [clearJustPressed]. *)
Record Input := mkInput {
  keys : gset string;
  paused : bool;
  justPressedKeys : gset string
}.

(** [new Input()] *)
Definition Input_new : Input := mkInput ∅ false ∅.

Section InputHandlers.
(** [String.prototype.toLowerCase] *)
Variable toLowerCase : string -> string.

(** The [keydown] listener, for an event whose [key] is [ekey]. *)
Definition Input_keydown (ekey : string) (i : Input) : Input :=
  let key := toLowerCase ekey in
  let justPressed :=
    if negb (bool_decide (key ∈ keys i)) then {[ key ]} ∪ justPressedKeys i
    else justPressedKeys i in
  let held := {[ key ]} ∪ keys i in
  let p := if bool_decide (key = "p"%string) then negb (paused i) else paused i in
  mkInput held p justPressed.

(** The [keyup] listener. *)
Definition Input_keyup (ekey : string) (i : Input) : Input :=
  let key := toLowerCase ekey in
  mkInput (keys i ∖ {[ key ]}) (paused i) (justPressedKeys i).

(** [Input.clearJustPressed()] *)
Definition clearJustPressed (i : Input) : Input :=
  mkInput (keys i) (paused i) ∅.

(** [Input.isKeyPressed(key)] *)
Definition isKeyPressed (key : string) (i : Input) : bool :=
  bool_decide (toLowerCase key ∈ keys i).

(** [Input.isPaused()] *)
Definition Input_isPaused (i : Input) : bool := paused i.

(** [Input.getPlayerInput()] *)
Definition getPlayerInput (i : Input) : Vec2 :=
  let input := vec2Zero in
  (* WASD or Arrow keys *)
  let input :=
    if isKeyPressed "w" i || isKeyPressed "arrowup" i
    then vec2 (x input) (y input - num 1) else input in
  let input :=
    if isKeyPressed "s" i || isKeyPressed "arrowdown" i
    then vec2 (x input) (y input + num 1) else input in
  let input :=
    if isKeyPressed "a" i || isKeyPressed "arrowleft" i
    then vec2 (x input - num 1) (y input) else input in
  let input :=
    if isKeyPressed "d" i || isKeyPressed "arrowright" i
    then vec2 (x input + num 1) (y input) else input in
  (* Normalize diagonal input so diagonals aren't faster *)
  vec2Normalize input.

(** [Input.isKickJustPressed()] *)
Definition isKickJustPressed (i : Input) : bool :=
  bool_decide (" "%string ∈ justPressedKeys i).

End InputHandlers.

(** ** Game.ts *)

(** [class Game], without its canvas, its renderer and its score
    callback. *)
Record Game := mkGame {
  Game_world : World;
  Game_input : Input;
  Game_bot : Bot;
  Game_lastTime : F;
  Game_accumulator : F
}.

(** [Game.setGameMode(gameMode)]; [now] is the value of
    [performance.now()]. *)
Definition Game_setGameMode (now : F) (mode : GameMode) (g : Game) : Game :=
  (* Don't recreate if it's the same mode *)
  if GameMode_eqb (gameMode (Game_world g)) mode then g
  else
    let currentScore := score (Game_world g) in
    let wasPaused := isPaused (Game_world g) in
    (* Create new world with the selected game mode *)
    let newWorld := World_new mode in
    let newWorld := set_score newWorld currentScore in (* Preserve score *)
    let newWorld := set_isPaused newWorld wasPaused in (* Preserve pause state *)
    (* Reset bot state; reset accumulator to prevent timing issues *)
    mkGame newWorld (Game_input g) Bot_new now (num 0).

(** [Game.reset()] *)
Definition Game_reset (g : Game) : Game :=
  mkGame (World_reset (Game_world g)) (Game_input g) (Game_bot g)
         (Game_lastTime g) (Game_accumulator g).

End Program.

Arguments Vec2 : clear implicits.
Arguments Entity : clear implicits.
Arguments Player : clear implicits.
Arguments Ball : clear implicits.
Arguments Collision : clear implicits.
Arguments WallCollision : clear implicits.
Arguments World : clear implicits.
Arguments Bot : clear implicits.
Arguments Game : clear implicits.

(** ** Vocabulary of the properties *)

Section Vocabulary.
Context {F : Type} {NF : Number F}.
Local Open Scope num_scope.

(** No method of [World] assigns [humanPlayer], [humanTeam] or [botTeam],
    or adds a Player: a World has the references its constructor gave it. *)
Definition World_wf (w : World F) : Prop :=
  humanPlayer w = humanPlayer (World_new (F:=F) (gameMode w))
  /\ humanTeam w = humanTeam (World_new (F:=F) (gameMode w))
  /\ botTeam w = botTeam (World_new (F:=F) (gameMode w))
  /\ length (players w) = length (players (World_new (F:=F) (gameMode w))).

(** [w'] has the references and the mode of [w], and as many Players. *)
Definition same_refs (w w' : World F) : Prop :=
  humanPlayer w' = humanPlayer w /\ humanTeam w' = humanTeam w
  /\ botTeam w' = botTeam w /\ gameMode w' = gameMode w
  /\ length (players w') = length (players w).

(** Where a player is and how it moves. *)
Definition placement (p : Player F) : Vec2 F * Vec2 F :=
  (position (player_entity p), velocity (player_entity p)).

(** What [tryPass] promises about the receiver [r] it returns to the
    passer [player]. *)
Definition receiver_ok (w : World F) (player r : nat) : Prop :=
  r <> player
  /\ exists p t,
       players w !! player = Some p /\ players w !! r = Some t
       /\ ltb (num 500) (vec2Distance (position (player_entity p))
                                      (position (player_entity t))) = false.

(** The spec's words for a goal, "the Ball fully past a goal line": the
    whole disc lies beyond the left line [x = 0] or beyond the right line
    [x = ARENA_WIDTH]. *)
Definition fullyPastGoalLine (ball : Ball F) : bool :=
  let b := ball_entity ball in
  (x (position b) + radius b <? num 0)
  || (x (position b) - radius b >? ARENA_WIDTH).

(** The overlap of two entities of a World: the penetration
    [detectCircleCollision] reports for them, 0 when it reports none. *)
Definition overlap (w : World F) (a b : EntityRef) : F :=
  match getEntity w a, getEntity w b with
  | Some ea, Some eb =>
      match detectCircleCollision ea eb with
      | Some c => penetration c
      | None => num 0
      end
  | _, _ => num 0
  end.

Fixpoint totalOverlap_pairs (w : World F) (entities : list EntityRef) : F :=
  match entities with
  | [] => num 0
  | a :: rest =>
      fold_left (fun acc b => acc + overlap w a b) rest (num 0)
      + totalOverlap_pairs w rest
  end.

(** The total overlap of a World: the sum over the pairs that
    [resolveCollisions] visits. *)
Definition totalOverlap (w : World F) : F :=
  totalOverlap_pairs w (map PlayerRef (getAllPlayers w) ++ [BallRef]).

(** What no method changes in an entity, in a player and in a World. *)
Definition entity_consts (e : Entity F) :=
  (type e, radius e, mass e, restitution e, maxSpeed e, damping e).
Definition player_consts (p : Player F) :=
  (entity_consts (player_entity p), isHuman p, inputAcceleration p).
Definition world_static (w : World F) :=
  (map player_consts (players w), humanPlayer w, humanTeam w, botTeam w,
   entity_consts (ball_entity (ball w)), isPaused w, gameMode w).

(** What collisions leave alone: all of the above, the freeze state of
    the Ball, the score and the kickoff timer. *)
Definition world_consts (w : World F) :=
  (world_static w, isFrozen (ball w), freezeTime (ball w), score w,
   kickoffFreezeTime w).

(** What a pass leaves alone in [w'], the World after: all of the above,
    the position of the Ball and the players' velocities. *)
Definition pass_frame (w w' : World F) : Prop :=
  world_consts w' = world_consts w
  /\ position (ball_entity (ball w')) = position (ball_entity (ball w))
  /\ map (fun p => velocity (player_entity p)) (players w')
     = map (fun p => velocity (player_entity p)) (players w).

End Vocabulary.

(** The centre distance that [detectCircleCollision] computes, in exact
    arithmetic. *)
Definition centreDistance (a b : Entity R) : R :=
  R_sqrt.sqrt
    ((x (position b) - x (position a)) * (x (position b) - x (position a))
     + (y (position b) - y (position a)) * (y (position b) - y (position a)))%R.

(** ** Scenarios *)

Section Scenarios.
Context {F : Type} {NF : Number F}.

(** [new Player(vec2(px, py), human)] and [new Ball(vec2(px, py))]. *)
Definition playerAt (px py : Q) (human : bool) : Player F :=
  Player_new (vec2 (num px) (num py)) human.
Definition ballAt (px py : Q) : Ball F := Ball_new (vec2 (num px) (num py)).

(** The Ball of [w] put at [pos]. *)
Definition World_withBallAt (w : World F) (pos : Vec2 F) : World F :=
  set_ball w (mkBall (set_position (ball_entity (ball w)) pos)
                     (isFrozen (ball w)) (freezeTime (ball w))).

(** The time step and the bot multiplier of the game loop. *)
Definition FIXED_DT : F := div (num 1) (num 60).
Definition botAccelMultiplier : F := num 1.2.

(** A fresh 1v1 World with the Ball moved to (-5,270), inside the left
    goal mouth. *)
Definition goal_world : World F :=
  World_withBallAt (World_new OneVsOne) (vec2 (num (-5)) (num 270)).

(** A fresh 1v1 World with the Ball 20 to the right of the human player. *)
Definition kick_world : World F :=
  World_withBallAt (World_new OneVsOne) (vec2 (num 270) (num 270)).

(** [kick_world] with the Ball frozen for a second where it lies. *)
Definition frozen_kick_world : World F :=
  set_ball kick_world (Ball_freeze (num 1.0) (ball kick_world)).

(** [kick_world] with the Ball's [x] at [1 / 0]. *)
Definition lost_ball_world : World F :=
  World_withBallAt (World_new OneVsOne) (vec2 (div (num 1) (num 0)) (num 270)).

(** A 2v2 World: the human player at (400,270), its teammate at (300,270)
    with the Ball at its feet, the bots where they spawn. *)
Definition pass_world : World F :=
  World_withBallAt
    (set_players (World_new TwoVsTwo)
       [playerAt 400 270 true; playerAt 300 270 true;
        playerAt 650 270 false; playerAt 600 190 false])
    (vec2 (num 320) (num 270)).

(** A 2v2 World: the Ball at (450,270) wedged between the two players of
    the human team (each overlapping it by about 0.013, less than the
    slop), and the second bot pressing into it from the left with
    penetration 5.  No entity is near a wall. *)
Definition wedge_world : World F :=
  World_withBallAt
    (set_players (World_new TwoVsTwo)
       [playerAt 471 288.5 true; playerAt 471 251.5 true;
        playerAt 700 400 false; playerAt 427 270 false])
    (vec2 (num 450) (num 270)).

(** A player and the Ball with the same centre. *)
Definition coincident_a : Entity F := player_entity (playerAt 100 100 true).
Definition coincident_b : Entity F := ball_entity (ballAt 100 100).

(** A player at (250,270) and the Ball at (270,270): centres 20 apart,
    penetration 8. *)
Definition overlapping_a : Entity F := player_entity (playerAt 250 270 true).
Definition overlapping_b : Entity F := ball_entity (ballAt 270 270).

(** Two pucks of radius 10, mass 1 and restitution 1, 15 apart on a
    horizontal line and moving towards each other at speed 10. *)
Definition puck (px : Q) (vx : Q) : Entity F :=
  mkEntity EntityType_Ball (vec2 (num px) (num 270)) (vec2 (num vx) (num 0))
           (num 10) (num 1) (num 1) (num 350) (num 1).
Definition puck_a : Entity F := puck 250 10.
Definition puck_b : Entity F := puck 265 (-10).

(** A 2v2 moment: the human player at (600,270), its teammate at
    (300,270), the two bots at (650,270) and (700,270), the Ball at rest
    at (475,210). *)
Definition support_players : list (Player F) :=
  [playerAt 600 270 true; playerAt 300 270 true;
   playerAt 650 270 false; playerAt 700 270 false].
Definition support_ball : Ball F := ballAt 475 210.

(** The Ball at (450,25), 5 into the top wall and moving up at 100. *)
Definition wall_ball : Entity F :=
  set_velocity (ball_entity (ballAt 450 25)) (vec2 (num 0) (num (-100))).

(** The human player and the bot of a fresh 1v1 World, as constructed. *)
Definition spawn_human : Player F :=
  Player_new (vec2 (num 250) (div ARENA_HEIGHT (num 2))) true.
Definition spawn_bot : Player F :=
  Player_new (vec2 (num 650) (div ARENA_HEIGHT (num 2))) false.

(** A fresh 1v1 World with the Ball at (640,270), 10 in front of the bot. *)
Definition attack_world : World F :=
  World_withBallAt (World_new OneVsOne) (vec2 (num 640) (num 270)).

(** A human player running at (44,174), speed 179.48, with the input
    (1,0); and the Ball at velocity (340,122). *)
Definition running_player : Player F :=
  mkPlayer (set_velocity (player_entity (playerAt 450 270 true))
                         (vec2 (num 44) (num 174)))
           true (vec2 (num 1) (num 0)).
Definition fast_ball : Entity F :=
  set_velocity (ball_entity (ballAt 450 270)) (vec2 (num 340) (num 122)).

(** A player at (100,100) and the Ball 0.00005 to its left: the centres
    are within the 0.0001 of [detectCircleCollision]. *)
Definition stacked_a : Entity F := player_entity (playerAt 100 100 true).
Definition stacked_b : Entity F := ball_entity (ballAt 99.99995 100).

End Scenarios.

(** The collisions that [detectCircleCollision] reports for the two pairs
    above, in exact arithmetic. *)
Definition overlapping_collision : Collision R :=
  mkCollision overlapping_a overlapping_b (vec2 1%R 0%R) 8%R.
Definition puck_collision : Collision R :=
  mkCollision puck_a puck_b (vec2 1%R 0%R) 5%R.

(** * Properties *)

(** ** The order on the two number types *)

Lemma SFcompare_Lt_swap (a b : SpecFloat.spec_float) :
  SpecFloat.SFcompare a b = Some Lt -> SpecFloat.SFcompare b a = Some Gt.
Proof.
  destruct a as [sa|sa| |sa ma ea], b as [sb|sb| |sb mb eb]; simpl.
  all: try (intros; discriminate).
  all: try (destruct sa, sb; intros; (discriminate || reflexivity)).
  all: try (destruct sa; intros; (discriminate || reflexivity)).
  all: try (destruct sb; intros; (discriminate || reflexivity)).
  change (PosDef.Pos.compare_cont Eq ma mb) with (Pos.compare ma mb).
  change (PosDef.Pos.compare_cont Eq mb ma) with (Pos.compare mb ma).
  rewrite (Z.compare_antisym ea eb), (Pos.compare_antisym ma mb).
  intros E. injection E as E. f_equal.
  destruct sa, sb, (ea ?= eb)%Z, (ma ?= mb)%positive; simpl in *;
    (discriminate || reflexivity).
Qed.

#[export] Instance float_NumberOrder : NumberOrder float.
Proof.
  split; intros a b; simpl.
  - rewrite ltb_spec, leb_spec. unfold SpecFloat.SFltb, SpecFloat.SFleb.
    destruct (SpecFloat.SFcompare (Prim2SF a) (Prim2SF b)) as [[]|] eqn:E;
      try discriminate.
    rewrite (SFcompare_Lt_swap _ _ E). reflexivity.
  - rewrite !ltb_spec. unfold SpecFloat.SFltb.
    destruct (SpecFloat.SFcompare (Prim2SF a) (Prim2SF b)) as [[]|] eqn:E;
      try discriminate.
    rewrite (SFcompare_Lt_swap _ _ E). reflexivity.
Qed.

Lemma Rltb_true (a b : R) : (a < b)%R -> Rltb a b = true.
Proof. intros H. unfold Rltb. destruct (Rlt_dec a b); [reflexivity | lra]. Qed.

Lemma Rltb_false (a b : R) : (b <= a)%R -> Rltb a b = false.
Proof. intros H. unfold Rltb. destruct (Rlt_dec a b); [lra | reflexivity]. Qed.

Lemma Rleb_true (a b : R) : (a <= b)%R -> Rleb a b = true.
Proof. intros H. unfold Rleb. destruct (Rle_dec a b); [reflexivity | lra]. Qed.

Lemma Rleb_false (a b : R) : (b < a)%R -> Rleb a b = false.
Proof. intros H. unfold Rleb. destruct (Rle_dec a b); [lra | reflexivity]. Qed.

Lemma Rltb_spec (a b : R) : Rltb a b = true <-> (a < b)%R.
Proof. unfold Rltb. destruct (Rlt_dec a b); split; intros; try discriminate; trivial; lra. Qed.

Lemma Rltb_false_inv (a b : R) : Rltb a b = false -> (b <= a)%R.
Proof.
  unfold Rltb. destruct (Rlt_dec a b); [discriminate | intros _; lra].
Qed.

Lemma Rleb_spec (a b : R) : Rleb a b = true <-> (a <= b)%R.
Proof. unfold Rleb. destruct (Rle_dec a b); split; intros; try discriminate; trivial; lra. Qed.

#[export] Instance R_NumberOrder : NumberOrder R.
Proof.
  split; intros a b; simpl; rewrite Rltb_spec; intros H.
  - apply Rleb_false, H.
  - apply Rltb_false. lra.
Qed.

(** ** Evaluation in exact arithmetic *)

(** Unfolds the operations of [R_Number] to those of [R]. *)
Ltac Rops :=
  cbn [num fromQ fromZ add sub mul div opp ltb leb eqb Math_sqrt Math_min
       Math_max isFinite R_Number] in *;
  cbv [Q2R Qnum Qden] in *.

Lemma sqrt_eval (a v : R) : (0 <= v)%R -> (v * v)%R = a -> R_sqrt.sqrt a = v.
Proof. intros Hv <-. apply sqrt_square, Hv. Qed.

Lemma Reqb_true (a b : R) : a = b -> Reqb a b = true.
Proof.
  intros ->. unfold Reqb. destruct (Req_dec_T b b); [reflexivity | contradiction].
Qed.

(** Decides the comparisons of the goal whose operands [lra] can compare. *)
Ltac Rdecide :=
  repeat first
    [ rewrite Rltb_true by lra | rewrite Rltb_false by lra
    | rewrite Rleb_true by lra | rewrite Rleb_false by lra ].

Ltac Rminmax :=
  repeat first
    [ rewrite Rmin_left by lra | rewrite Rmin_right by lra
    | rewrite Rmax_left by lra | rewrite Rmax_right by lra ].

(** Replaces a square root of the goal by its value [v]. *)
Ltac Rsqrt v :=
  match goal with
  | |- context [R_sqrt.sqrt ?e] => rewrite (sqrt_eval e v) by lra
  end.

(** Exposes the coordinates of the entities of a scenario. *)
Ltac Rscene :=
  cbn [playerAt ballAt puck Player_new Ball_new Entity_new player_entity ball_entity
       position velocity radius mass restitution maxSpeed damping
       x y vec2Zero isFrozen freezeTime];
  unfold vec2Distance, vec2Length, vec2Sub; cbn [x y]; Rops.

(** ** World.tryKick *)

Section TryKick.
Context {F : Type} {NF : Number F}.

(** When [tryKick] does not kick, it returns the world it was given. *)
Lemma tryKick_false_unchanged (player : nat) (w : World F) :
  snd (World_tryKick player w) = false -> fst (World_tryKick player w) = w.
Proof.
  unfold World_tryKick.
  destruct (players w !! player) as [p|]; [|reflexivity].
  repeat match goal with
         | |- context [if ?c then _ else _] => destruct c; try reflexivity
         end; simpl; discriminate.
Qed.

(** C4.  [tryKick(player)] returns [false], and leaves every field of the
    World as it was, whenever the Ball is frozen (at any distance), or the
    player-to-ball distance exceeds the kick radius, or a coordinate of the
    player's or the Ball's position is not finite. *)
Theorem tryKick_refuses {NO : NumberOrder F} (player : nat) (w : World F) (p : Player F) :
  players w !! player = Some p ->
  isFrozen (ball w) = true
  \/ ltb KICK_RADIUS (vec2Distance (position (player_entity p))
                                   (position (ball_entity (ball w)))) = true
  \/ isFinite (x (position (player_entity p))) = false
  \/ isFinite (y (position (player_entity p))) = false
  \/ isFinite (x (position (ball_entity (ball w)))) = false
  \/ isFinite (y (position (ball_entity (ball w)))) = false ->
  World_tryKick player w = (w, false).
Proof.
  intros Hp Hcase. unfold World_tryKick. rewrite Hp.
  destruct (isFinite (x (position (player_entity p)))) eqn:F1; simpl; [|reflexivity].
  destruct (isFinite (y (position (player_entity p)))) eqn:F2; simpl; [|reflexivity].
  destruct (isFinite (x (position (ball_entity (ball w))))) eqn:F3; simpl; [|reflexivity].
  destruct (isFinite (y (position (ball_entity (ball w))))) eqn:F4; simpl; [|reflexivity].
  destruct Hcase as [Hfrozen | [Hfar | Hbad]].
  - rewrite Hfrozen, !andb_false_r. reflexivity.
  - rewrite (ltb_leb_false _ _ Hfar), andb_false_r. reflexivity.
  - destruct Hbad as [H | [H | [H | H]]]; discriminate.
Qed.

(** C10.  A successful [tryKick] writes the Ball's velocity and nothing
    else: the store of players (every player's position, velocity and
    inputAcceleration), the rosters, both score counters, the pause flag,
    the kickoff timer, and the Ball's position, frozen flag and freeze
    timer are the ones before the call. *)
Theorem tryKick_frame (player : nat) (w : World F) :
  snd (World_tryKick player w) = true ->
  let w' := fst (World_tryKick player w) in
  players w' = players w
  /\ humanPlayer w' = humanPlayer w
  /\ humanTeam w' = humanTeam w
  /\ botTeam w' = botTeam w
  /\ score w' = score w
  /\ isPaused w' = isPaused w
  /\ kickoffFreezeTime w' = kickoffFreezeTime w
  /\ gameMode w' = gameMode w
  /\ set_velocity (ball_entity (ball w')) (velocity (ball_entity (ball w)))
     = ball_entity (ball w)
  /\ position (ball_entity (ball w')) = position (ball_entity (ball w))
  /\ isFrozen (ball w') = isFrozen (ball w)
  /\ freezeTime (ball w') = freezeTime (ball w).
Proof.
  unfold World_tryKick.
  destruct (players w !! player) as [p|]; [|discriminate].
  repeat match goal with
         | |- context [if ?c then _ else _] => destruct c; try discriminate
         end.
  all: intros _; simpl; repeat split; destruct (ball_entity (ball w)); reflexivity.
Qed.

End TryKick.

(** A fresh 1v1 World: the Ball is 200 away from the human player, beyond
    the kick radius of 35. *)
Lemma tryKick_refuses_witness :
  players (World_new (F:=float) OneVsOne) !! 0%nat = Some (playerAt 250 270 true)
  /\ ltb KICK_RADIUS
         (vec2Distance (position (player_entity (playerAt (F:=float) 250 270 true)))
                       (position (ball_entity (ball (World_new (F:=float) OneVsOne))))) = true
  /\ World_tryKick 0 (World_new (F:=float) OneVsOne) = (World_new OneVsOne, false).
Proof.
  assert (Hp : players (World_new (F:=float) OneVsOne) !! 0%nat
               = Some (playerAt 250 270 true)) by (vm_compute; reflexivity).
  assert (Hfar : ltb KICK_RADIUS
         (vec2Distance (position (player_entity (playerAt (F:=float) 250 270 true)))
                       (position (ball_entity (ball (World_new (F:=float) OneVsOne))))) = true)
    by (vm_compute; reflexivity).
  split; [exact Hp|]. split; [exact Hfar|].
  apply (tryKick_refuses 0 (World_new OneVsOne) _ Hp). right; left. exact Hfar.
Defined.

(** The human player of [kick_world] kicks: the Ball leaves at the kick
    force, straight ahead, and no player has changed. *)
Lemma tryKick_frame_witness :
  snd (World_tryKick 0 (kick_world (F:=float))) = true
  /\ players (fst (World_tryKick 0 (kick_world (F:=float)))) = players kick_world
  /\ velocity (ball_entity (ball (fst (World_tryKick 0 (kick_world (F:=float))))))
     = vec2 320%float 0%float.
Proof.
  assert (Hkick : snd (World_tryKick 0 (kick_world (F:=float))) = true)
    by (vm_compute; reflexivity).
  split; [exact Hkick|].
  split; [exact (proj1 (tryKick_frame 0 kick_world Hkick)) | vm_compute; reflexivity].
Defined.

(** A frozen Ball is not kicked, although it is 20 away; nor is a Ball
    whose [x] is infinite. *)
Example tryKick_frozen_or_lost :
  World_tryKick 0 (frozen_kick_world (F:=float)) = (frozen_kick_world, false)
  /\ World_tryKick 0 (lost_ball_world (F:=float)) = (lost_ball_world, false).
Proof. split; vm_compute; reflexivity. Qed.

(** ** World.update on a goal *)

Section Goal.
Context {F : Type} {NF : Number F}.

Lemma length_fold_alter {A} (f : nat -> A -> A) (g : nat -> bool) (hs : list nat) (ps : list A) :
  length (fold_left (fun ps h => if g h then alter (f h) h ps else ps) hs ps) = length ps.
Proof.
  revert ps. induction hs as [|h hs IH]; intros ps; simpl; [reflexivity|].
  rewrite IH. destruct (g h); [apply length_alter | reflexivity].
Qed.

Lemma updateEntities_shape (dt m : F) (w : World F) :
  let w' := World_updateEntities dt m w in
  humanPlayer w' = humanPlayer w /\ humanTeam w' = humanTeam w
  /\ botTeam w' = botTeam w /\ gameMode w' = gameMode w
  /\ score w' = score w /\ isPaused w' = isPaused w
  /\ length (players w') = length (players w).
Proof.
  unfold World_updateEntities.
  destruct (ltb (num 0) (kickoffFreezeTime w)); simpl; repeat split.
  - rewrite (length_fold_alter (fun _ => Player_update dt m) (fun _ => true)).
    rewrite (length_fold_alter (fun _ => Player_update dt (num 1.0))
               (fun h => negb (Nat.eqb h (humanPlayer w)))).
    apply length_alter.
  - rewrite (length_fold_alter (fun _ => Player_update dt m) (fun _ => true)).
    rewrite (length_fold_alter (fun _ => Player_update dt (num 1.0))
               (fun h => negb (Nat.eqb h (humanPlayer w)))).
    apply length_alter.
Qed.

Lemma updateEntities_wf (dt m : F) (w : World F) :
  World_wf w -> World_wf (World_updateEntities dt m w).
Proof.
  intros (H1 & H2 & H3 & H4).
  destruct (updateEntities_shape dt m w) as (E1 & E2 & E3 & E4 & _ & _ & E5).
  unfold World_wf. rewrite E1, E2, E3, E4, E5. auto.
Qed.

Lemma addGoal_wf (g : Side) (w : World F) : World_wf w -> World_wf (World_addGoal g w).
Proof. destruct g; exact (fun H => H). Qed.

(** [resetKickoff] puts every player of a well-formed World where the
    constructor puts it, at rest. *)
Lemma resetKickoff_layout (w : World F) :
  World_wf w ->
  map placement (players (World_resetKickoff w))
  = map placement (players (World_new (F:=F) (gameMode w))).
Proof.
  intros (H1 & H2 & H3 & H4). unfold World_resetKickoff.
  rewrite H1, H2, H3. destruct w as [ps hp ht bt b sc k pa mode]. simpl in *.
  destruct mode; simpl in *;
    repeat (destruct ps as [|? ps]; try discriminate); reflexivity.
Qed.

(** C1.  On a tick in which [update] runs and [checkGoal] returns a side
    for the Ball it has just moved: [update] returns that side; exactly
    the scoring side's counter went up by 1 (the human counter for
    ['left'], the bot counter for ['right']) and the other is unchanged;
    every player stands where the constructor of the World's mode puts it,
    with velocity (0,0); so does the Ball, which is frozen with a freeze
    timer of 1; and the new state is [resetKickoff] of the state reached
    by the entity updates, with no [resolveCollisions] in between or
    after. *)
Theorem update_goal (dt m : F) (w : World F) (side : Side) :
  World_wf w ->
  isPaused w = false ->
  checkGoal (ball (World_updateEntities dt m w)) = Some side ->
  let w' := fst (World_update dt m w) in
  let fresh := World_new (F:=F) (gameMode w) in
  snd (World_update dt m w) = Some side
  /\ score w' = match side with
                | SideLeft => mkScore (human (score w) + 1) (bot (score w))
                | SideRight => mkScore (human (score w)) (bot (score w) + 1)
                end
  /\ map placement (players w') = map placement (players fresh)
  /\ position (ball_entity (ball w')) = position (ball_entity (ball fresh))
  /\ velocity (ball_entity (ball w')) = vec2 (num 0) (num 0)
  /\ isFrozen (ball w') = true
  /\ freezeTime (ball w') = num 1.0
  /\ kickoffFreezeTime w' = num 1.0
  /\ w' = World_resetKickoff (World_addGoal side (World_updateEntities dt m w)).
Proof.
  intros Hwf Hrun Hg. unfold World_update. rewrite Hrun, Hg. cbn [fst snd].
  pose proof (updateEntities_shape dt m w) as (_ & _ & _ & Emode & Escore & _ & _).
  assert (Hwf' : World_wf (World_addGoal side (World_updateEntities dt m w)))
    by (apply addGoal_wf, updateEntities_wf, Hwf).
  assert (Emode' : gameMode (World_addGoal side (World_updateEntities dt m w)) = gameMode w)
    by (destruct side; exact Emode).
  repeat split.
  - destruct side; unfold World_addGoal, set_score; cbn [score];
      rewrite Escore; reflexivity.
  - rewrite (resetKickoff_layout _ Hwf'), Emode'. reflexivity.
  - destruct (gameMode w); reflexivity.
Qed.

End Goal.

(** The end-to-end scenario of the spec: one [update] of [goal_world]
    is a goal for the right team; the bot counter is 1, the human counter
    0, and both players are back where they spawn. *)
Lemma update_goal_witness :
  World_wf (F:=float) goal_world
  /\ isPaused (goal_world (F:=float)) = false
  /\ checkGoal (ball (World_updateEntities FIXED_DT botAccelMultiplier
                                           (goal_world (F:=float)))) = Some SideRight
  /\ snd (World_update FIXED_DT botAccelMultiplier (goal_world (F:=float))) = Some SideRight
  /\ score (fst (World_update FIXED_DT botAccelMultiplier (goal_world (F:=float))))
     = mkScore 0 1
  /\ map placement (players (fst (World_update FIXED_DT botAccelMultiplier
                                                (goal_world (F:=float)))))
     = map placement (players (World_new (F:=float) OneVsOne)).
Proof.
  assert (Hwf : World_wf (F:=float) goal_world) by (repeat split).
  assert (Hrun : isPaused (goal_world (F:=float)) = false) by reflexivity.
  assert (Hgoal : checkGoal (ball (World_updateEntities FIXED_DT botAccelMultiplier
                                                        (goal_world (F:=float))))
                  = Some SideRight) by (vm_compute; reflexivity).
  split; [exact Hwf|]. split; [exact Hrun|]. split; [exact Hgoal|].
  destruct (update_goal FIXED_DT botAccelMultiplier goal_world SideRight Hwf Hrun Hgoal)
    as (Hret & Hscore & Hplace & _).
  split; [exact Hret|]. split; [exact Hscore | exact Hplace].
Defined.

Example kickoff_coordinates_1v1 :
  map placement (players (World_new (F:=float) OneVsOne))
  = [(vec2 250 270, vec2 0 0); (vec2 650 270, vec2 0 0)]%float
  /\ position (ball_entity (ball (World_new (F:=float) OneVsOne))) = vec2 450%float 270%float.
Proof. split; vm_compute; reflexivity. Qed.

(** ** The references of a World *)

Section Refs.
Context {F : Type} {NF : Number F}.

Lemma same_refs_refl (w : World F) : same_refs w w.
Proof. repeat split. Qed.

Lemma same_refs_trans (w1 w2 w3 : World F) :
  same_refs w1 w2 -> same_refs w2 w3 -> same_refs w1 w3.
Proof.
  intros (A1 & A2 & A3 & A4 & A5) (B1 & B2 & B3 & B4 & B5).
  repeat split; congruence.
Qed.

Lemma same_refs_wf (w w' : World F) : same_refs w w' -> World_wf w -> World_wf w'.
Proof.
  intros (A1 & A2 & A3 & A4 & A5) (H1 & H2 & H3 & H4).
  unfold World_wf. rewrite A1, A2, A3, A4, A5. auto.
Qed.

Lemma setEntity_refs (w : World F) (r : EntityRef) (e : Entity F) :
  same_refs w (setEntity w r e).
Proof.
  destruct r as [h|]; repeat split. simpl. apply length_alter.
Qed.

Lemma resolvePair_refs (dt : F) (a b : EntityRef) (w : World F) :
  same_refs w (resolvePair dt a b w).
Proof.
  unfold resolvePair.
  destruct (getEntity w a) as [ea|]; [|apply same_refs_refl].
  destruct (getEntity w b) as [eb|]; [|apply same_refs_refl].
  destruct (detectCircleCollision ea eb) as [c|]; [|apply same_refs_refl].
  destruct (resolveCircleCollision c dt) as [ea' eb'].
  eapply same_refs_trans; apply setEntity_refs.
Qed.

Lemma fold_left_refs {A} (step : World F -> A -> World F) (l : list A) (w : World F) :
  (forall w a, same_refs w (step w a)) -> same_refs w (fold_left step l w).
Proof.
  intros Hstep. revert w. induction l as [|a l IH]; intros w; simpl.
  - apply same_refs_refl.
  - eapply same_refs_trans; [apply Hstep | apply IH].
Qed.

Lemma resolvePairs_refs (dt : F) (entities : list EntityRef) (w : World F) :
  same_refs w (resolvePairs dt entities w).
Proof.
  revert w. induction entities as [|a rest IH]; intros w; simpl.
  - apply same_refs_refl.
  - eapply same_refs_trans; [|apply IH].
    apply fold_left_refs. intros w' b. apply resolvePair_refs.
Qed.

Lemma resolveWall_refs (dt : F) (w : World F) (r : EntityRef) :
  same_refs w (resolveWall dt w r).
Proof.
  unfold resolveWall.
  destruct (getEntity w r) as [e|]; [|apply same_refs_refl].
  destruct (detectWallCollision e); [apply setEntity_refs | apply same_refs_refl].
Qed.

Lemma resolveCollisions_refs (dt : F) (w : World F) :
  same_refs w (World_resolveCollisions dt w).
Proof.
  unfold World_resolveCollisions.
  eapply same_refs_trans; [apply resolvePairs_refs|].
  apply fold_left_refs. intros w' r. apply resolveWall_refs.
Qed.

Lemma resetPlayer_length (slot : option nat) (pos : Vec2 F) (ps : list (Player F)) :
  length (resetPlayer slot pos ps) = length ps.
Proof. destruct slot; [apply length_alter | reflexivity]. Qed.

Lemma resetKickoff_refs (w : World F) : same_refs w (World_resetKickoff w).
Proof.
  unfold World_resetKickoff. repeat split. cbn [players].
  destruct (gameMode w); rewrite ?resetPlayer_length; reflexivity.
Qed.

Lemma World_new_wf (gameMode : GameMode) : World_wf (World_new (F:=F) gameMode).
Proof. destruct gameMode; repeat split. Qed.

Lemma updateEntities_refs (dt m : F) (w : World F) :
  same_refs w (World_updateEntities dt m w).
Proof.
  destruct (updateEntities_shape dt m w) as (E1 & E2 & E3 & E4 & _ & _ & E5).
  repeat split; assumption.
Qed.

Lemma update_refs (dt m : F) (w : World F) :
  same_refs w (fst (World_update dt m w)).
Proof.
  unfold World_update. destruct (isPaused w); [apply same_refs_refl|].
  destruct (checkGoal _) as [g|]; cbn [fst].
  - eapply same_refs_trans; [apply updateEntities_refs|].
    eapply same_refs_trans; [|apply resetKickoff_refs].
    destruct g; repeat split.
  - eapply same_refs_trans; [apply updateEntities_refs | apply resolveCollisions_refs].
Qed.

Lemma tryKick_refs (player : nat) (w : World F) :
  same_refs w (fst (World_tryKick player w)).
Proof.
  unfold World_tryKick. destruct (players w !! player); [|apply same_refs_refl].
  repeat match goal with
         | |- context [if ?c then _ else _] => destruct c
         end; repeat split.
Qed.

Lemma set_ball_velocity_refs (w : World F) (v : Vec2 F) :
  same_refs w (set_ball_velocity w v).
Proof. repeat split. Qed.

Lemma tryPass_refs (M : MathLib F) (player : nat) (w : World F) :
  same_refs w (fst (World_tryPass M player w)).
Proof.
  unfold World_tryPass. destruct (players w !! player) as [p|]; [|apply same_refs_refl].
  match goal with
  | |- context [if ?c then (w, None) else _] => destruct c; [apply same_refs_refl|]
  end.
  match goal with
  | |- context [if ?c then (w, None) else _] => destruct c; [apply same_refs_refl|]
  end.
  match goal with
  | |- context [if ?c then (w, None) else _] => destruct c; [apply same_refs_refl|]
  end.
  match goal with
  | |- same_refs w (fst (match ?th with Some result => result | None => ?sc end)) =>
      set (toHuman := th); set (scan := sc)
  end.
  assert (HtoHuman : forall res, toHuman = Some res -> same_refs w (fst res)).
  { subst toHuman. intros res.
    destruct (humanTeam w !! 0%nat) as [h|]; [|discriminate].
    destruct (players w !! h) as [hp|]; [|discriminate].
    repeat match goal with
           | |- context [if ?c then _ else None] => destruct c; [|discriminate]
           end.
    intros [= <-]. apply set_ball_velocity_refs. }
  assert (Hscan : same_refs w (fst scan)).
  { subst scan.
    destruct (fold_left _ _ None) as [[t s]|]; [|apply same_refs_refl].
    destruct (players w !! t) as [T|]; [|apply same_refs_refl].
    repeat match goal with
           | |- context [if ?c then _ else _] => destruct c
           end; cbn [fst]; repeat split; cbn [players set_players set_ball_velocity set_ball];
      rewrite ?length_alter; reflexivity. }
  destruct toHuman as [res|]; [apply (HtoHuman res eq_refl) | exact Hscan].
Qed.

(** X12.  No method of [World] changes the rosters: a World that has the
    human player, the two rosters and the number of players its
    constructor gave it still has them after [update], [tryKick],
    [tryPass], [resetKickoff] and [reset]. *)
Lemma World_wf_invariant (M : MathLib F) (dt m : F) (player : nat) (w : World F) :
  World_wf w ->
  World_wf (fst (World_update dt m w))
  /\ World_wf (fst (World_tryKick player w))
  /\ World_wf (fst (World_tryPass M player w))
  /\ World_wf (World_resetKickoff w)
  /\ World_wf (World_reset w).
Proof.
  intros Hwf. split; [|split; [|split; [|split]]].
  - exact (same_refs_wf _ _ (update_refs dt m w) Hwf).
  - exact (same_refs_wf _ _ (tryKick_refs player w) Hwf).
  - exact (same_refs_wf _ _ (tryPass_refs M player w) Hwf).
  - exact (same_refs_wf _ _ (resetKickoff_refs w) Hwf).
  - unfold World_reset. apply (same_refs_wf _ _ (resetKickoff_refs _)). exact Hwf.
Qed.

End Refs.

(** ** World.tryPass *)

Section TryPass.
Context {F : Type} {NF : Number F} {NO : NumberOrder F}.
Variable M : MathLib F.

Lemma tryPass_scan_step (ps : list (Player F)) (p : Player F) (bpos : Vec2 F)
    (best : option (nat * F)) (t : nat) :
  tryPass_scan M ps p bpos best t = best
  \/ exists T s,
       ps !! t = Some T
       /\ ltb (num 500) (vec2Distance (position (player_entity p))
                                      (position (player_entity T))) = false
       /\ tryPass_scan M ps p bpos best t = Some (t, s).
Proof.
  unfold tryPass_scan. destruct (ps !! t) as [T|]; [|left; reflexivity].
  match goal with
  | |- context [if ?a || ?b || ?c then _ else _] =>
      destruct a; simpl; [left; reflexivity|];
      destruct b; simpl; [left; reflexivity|];
      destruct c eqn:Hfar; simpl; [left; reflexivity|]
  end.
  repeat match goal with
         | |- context [if ?c then best else _] => destruct c; [left; reflexivity|]
         end.
  match goal with
  | |- context [if ?c then Some (t, ?s) else best] =>
      destruct c; [right; exists T, s; auto | left; reflexivity]
  end.
Qed.

Lemma tryPass_scan_fold (ps : list (Player F)) (p : Player F) (bpos : Vec2 F)
    (l : list nat) (best : option (nat * F)) (t : nat) (s : F) :
  fold_left (tryPass_scan M ps p bpos) l best = Some (t, s) ->
  best = Some (t, s)
  \/ (In t l
      /\ exists T, ps !! t = Some T
         /\ ltb (num 500) (vec2Distance (position (player_entity p))
                                        (position (player_entity T))) = false).
Proof.
  revert best. induction l as [|h l IH]; intros best H; simpl in H; [left; exact H|].
  destruct (IH _ H) as [Hbest | [Hin Hex]].
  - destruct (tryPass_scan_step ps p bpos best h) as [E | (T & s' & HT & Hd & E)].
    + left. congruence.
    + rewrite E in Hbest. injection Hbest as <- <-.
      right. split; [left; reflexivity | exists T; auto].
  - right. split; [right; exact Hin | exact Hex].
Qed.

(** C5.  [tryPass(player)] never returns the passer itself, never returns
    a receiver whose distance from the passer exceeds 500, and returns no
    receiver whenever the Ball is frozen. *)
Theorem tryPass_receiver (player : nat) (w : World F) :
  (forall r, snd (World_tryPass M player w) = Some r -> receiver_ok w player r)
  /\ (isFrozen (ball w) = true -> snd (World_tryPass M player w) = None).
Proof.
  split.
  - intros r. unfold World_tryPass.
    destruct (players w !! player) as [p|] eqn:Hp; [|discriminate].
    match goal with
    | |- context [if ?c then (w, None) else _] => destruct c; [discriminate|]
    end.
    match goal with
    | |- context [if ?c then (w, None) else _] => destruct c; [discriminate|]
    end.
    match goal with
    | |- context [Nat.eqb (length ?tm) 0] => set (teammates := tm)
    end.
    destruct (Nat.eqb (length teammates) 0); [discriminate|].
    match goal with
    | |- snd (match ?th with Some result => result | None => ?sc end) = _ -> _ =>
        set (toHuman := th); set (scan := sc)
    end.
    assert (Hscan : snd scan = Some r -> receiver_ok w player r).
    { subst scan.
      destruct (fold_left _ teammates None) as [[t s]|] eqn:Hfold; [|discriminate].
      destruct (tryPass_scan_fold _ _ _ _ _ _ _ Hfold) as [? | [Hin (T & HT & Hd)]];
        [discriminate|].
      rewrite HT.
      assert (Hne : t <> player).
      { assert (Hkeep : In t (List.filter
                  (fun h => match players w !! h with
                            | Some q => negb (Nat.eqb h player)
                                        && isFinite (x (position (player_entity q)))
                                        && isFinite (y (position (player_entity q)))
                            | None => false
                            end) (if existsb (Nat.eqb player) (humanTeam w)
                                  then humanTeam w else botTeam w))).
        { subst teammates.
          destruct (existsb (Nat.eqb player) (humanTeam w)); exact Hin. }
        apply filter_In in Hkeep. destruct Hkeep as [_ Hk]. rewrite HT in Hk.
        apply andb_prop in Hk. destruct Hk as [Hk _].
        apply andb_prop in Hk. destruct Hk as [Hk _].
        intros ->. rewrite Nat.eqb_refl in Hk. discriminate. }
      repeat match goal with
             | |- context [if ?c then _ else _] => destruct c
             end; cbn [snd]; intros [= <-]; (discriminate || idtac);
        (split; [exact Hne | exists p, T; auto]). }
    assert (HtoHuman : forall res, toHuman = Some res -> snd res = Some r ->
                                     receiver_ok w player r).
    { subst toHuman. intros res.
      destruct (humanTeam w !! 0%nat) as [h|]; [|discriminate].
      destruct (players w !! h) as [hp|] eqn:Hhp; [|discriminate].
      destruct (existsb (Nat.eqb player) (humanTeam w) && negb (Nat.eqb h player))
        eqn:Hc1; [|discriminate].
      match goal with
      | |- context [if (?a && ?b) && ?c then _ else None] =>
          destruct a; [|discriminate]; destruct b eqn:Hnear; [|discriminate];
          destruct c; [|discriminate]
      end.
      repeat match goal with
             | |- context [if ?c then _ else None] => destruct c; [|discriminate]
             end.
      intros [= <-]. cbn [snd]. intros [= <-].
      apply andb_prop in Hc1. destruct Hc1 as [_ Hc1].
      split.
      - intros ->. rewrite Nat.eqb_refl in Hc1. discriminate.
      - exists p, hp. repeat split; auto. apply ltb_asym, Hnear. }
    destruct toHuman as [res|]; [apply (HtoHuman res eq_refl) | exact Hscan].
  - intros Hfrozen. unfold World_tryPass.
    destruct (players w !! player) as [p|]; [|reflexivity].
    match goal with
    | |- context [if ?c then (w, None) else _] => destruct c; [reflexivity|]
    end.
    rewrite Hfrozen, orb_true_r. reflexivity.
Qed.

End TryPass.

(** ** checkGoal *)

(** C3 (counterexample).  A Ball centred at (5,270), inside the field with
    only its leading edge over the left goal line, is a right-team goal:
    the Ball is not "fully past" the line, and its centre is not past it
    either. *)
Lemma checkGoal_not_fully_past :
  checkGoal (ballAt (F:=float) 5 270) = Some SideRight
  /\ fullyPastGoalLine (ballAt (F:=float) 5 270) = false
  /\ ltb (x (position (ball_entity (ballAt (F:=float) 5 270)))) (num 0) = false.
Proof. repeat split; vm_compute; reflexivity. Qed.

(** On IEEE doubles: the Ball at x = -1 and at x = 905 in the goal mouth,
    at the centre spot, and at x = -1 above the goal mouth. *)
Example checkGoal_samples :
  checkGoal (ballAt (F:=float) (-1) 270) = Some SideRight
  /\ checkGoal (ballAt (F:=float) 905 270) = Some SideLeft
  /\ checkGoal (ballAt (F:=float) 450 270) = None
  /\ checkGoal (ballAt (F:=float) (-1) 100) = None.
Proof. repeat split; vm_compute; reflexivity. Qed.

(** ** Collisions in a World *)

(** C8 (counterexample).  For a player and the Ball with the same centre,
    both orders of [detectCircleCollision] report the normal (1,0): equal,
    not opposite. *)
Lemma detect_coincident_same_normal :
  normal <$> detectCircleCollision (F:=float) coincident_a coincident_b
  = Some (vec2 1%float 0%float)
  /\ normal <$> detectCircleCollision (F:=float) coincident_b coincident_a
     = Some (vec2 1%float 0%float).
Proof. split; vm_compute; reflexivity. Qed.

(** C6 (counterexample).  In [wedge_world] one [resolveCollisions] pass
    resolves the bot-Ball pair last and pushes the Ball into the two
    players it is wedged between: the overlap of the first player and the
    Ball goes from under 0.02 to over 2, and the total overlap of the
    World goes up. *)
Lemma resolveCollisions_increases_overlap :
  ltb (num 0) (overlap (F:=float) wedge_world (PlayerRef 0) BallRef) = true
  /\ ltb (overlap (F:=float) wedge_world (PlayerRef 0) BallRef) (num 0.02) = true
  /\ ltb (num 2)
         (overlap (World_resolveCollisions (F:=float) FIXED_DT wedge_world)
                  (PlayerRef 0) BallRef) = true
  /\ ltb (totalOverlap (F:=float) wedge_world)
         (totalOverlap (World_resolveCollisions (F:=float) FIXED_DT wedge_world))
     = true.
Proof. repeat split; vm_compute; reflexivity. Qed.

(** On IEEE doubles the teammate of [support_players] gets the zero vector
    as its direction, and the teammate of [pass_world] passes to the human
    player, whatever the Math library. *)
Example support_and_pass_on_doubles (M : MathLib float) (random : float) :
  getDesiredDirection M random support_players 1 support_ball 0
                      [0; 1]%nat [2; 3]%nat true (Some TwoVsTwo)
  = Some (vec2 0%float 0%float)
  /\ snd (World_tryPass M 1 (pass_world (F:=float))) = Some 0%nat.
Proof. split; vm_compute; reflexivity. Qed.

(** C2 (counterexample).  On IEEE doubles, with the time step of the
    game loop: a player running at (44,174), below its [maxSpeed] of 180,
    with the input (1,0) ends [Player.update] at speed
    180.00000000000003; the Ball at velocity (340,122) ends
    [Entity.update] at speed 350.00000000000006, above its [maxSpeed] of
    350.  The clamp rescales the velocity by [maxSpeed / speed], and the
    length recomputed from the rescaled velocity is rounded up. *)
Lemma update_speed_above_cap :
  ltb (num 0) (FIXED_DT (F:=float)) = true
  /\ vec2Length (velocity (player_entity
                             (Player_update FIXED_DT (num 1) (running_player (F:=float)))))
     = 180.00000000000003%float
  /\ leb (vec2Length (velocity (player_entity
                                  (Player_update FIXED_DT (num 1)
                                                 (running_player (F:=float))))))
         (maxSpeed (player_entity (running_player (F:=float)))) = false
  /\ vec2Length (velocity (Entity_update FIXED_DT (fast_ball (F:=float))))
     = 350.00000000000006%float
  /\ leb (vec2Length (velocity (Entity_update FIXED_DT (fast_ball (F:=float)))))
         (maxSpeed (fast_ball (F:=float))) = false.
Proof. repeat split; vm_compute; reflexivity. Qed.

(** On any number type, doubles included: where the clamp of
    [Entity.update] does not fire, the velocity is the damped one, and the
    speed after the update is the speed the clamp tested, which is not
    above [maxSpeed]. *)
Lemma Entity_update_unclamped {F : Type} {NF : Number F} (dt : F) (e : Entity F) :
  ltb (maxSpeed e) (vec2Length (vec2Scale (velocity e) (damping e))) = false ->
  velocity (Entity_update dt e) = vec2Scale (velocity e) (damping e)
  /\ ltb (maxSpeed e) (vec2Length (velocity (Entity_update dt e))) = false.
Proof.
  intros H.
  assert (E : velocity (Entity_update dt e) = vec2Scale (velocity e) (damping e)).
  { unfold Entity_update. cbv zeta. cbn [velocity].
    unfold vec2Length, vec2Scale in H. cbn [x y] in H. rewrite H. reflexivity. }
  split; [exact E|]. rewrite E. exact H.
Qed.

(** ** Exact arithmetic: motion and collisions *)

Section Exact.
Local Open Scope R_scope.
Local Abbreviation sqrt := R_sqrt.sqrt.

(** C3 (amended).  In exact arithmetic [checkGoal] returns ['right']
    exactly when the Ball's left edge is past the left line ([x - r < 0])
    with [y] in the goal mouth [190, 350]; ['left'] exactly when that
    test fails and the Ball's right edge is past the right line
    ([x + r > 900]) with [y] in the goal mouth; nothing when neither edge
    is past its line; in particular a Ball at [x = -1] with [y] in the
    goal mouth is a right-team goal. *)
Theorem checkGoal_exact (ball : Ball R) :
  let px := x (position (ball_entity ball)) in
  let py := y (position (ball_entity ball)) in
  let r := radius (ball_entity ball) in
  (checkGoal ball = Some SideRight <-> px - r < 0 /\ 190 <= py <= 350)
  /\ (checkGoal ball = Some SideLeft
      <-> ~ px - r < 0 /\ 900 < px + r /\ 190 <= py <= 350)
  /\ (0 <= px - r -> px + r <= 900 -> checkGoal ball = None)
  /\ (px = -1 -> 0 <= r -> 190 <= py <= 350 -> checkGoal ball = Some SideRight).
Proof.
  intros px py r. unfold checkGoal, ARENA_WIDTH, ARENA_HEIGHT, GOAL_HEIGHT. Rops.
  fold px py r.
  assert (Hlt : forall a b, Rltb a b = true <-> a < b) by apply Rltb_spec.
  assert (Hle : forall a b, Rleb a b = true <-> a <= b) by apply Rleb_spec.
  destruct (Rltb (px - r) (0 * / 1)) eqn:E1;
    destruct (Rleb (540 * / 1 / (2 * / 1) - 160 * / 1 / (2 * / 1)) py) eqn:E2;
    destruct (Rleb py (540 * / 1 / (2 * / 1) + 160 * / 1 / (2 * / 1))) eqn:E3;
    destruct (Rltb (900 * / 1) (px + r)) eqn:E4;
    cbn [andb];
    repeat match goal with
           | H : Rltb _ _ = true |- _ => apply Rltb_spec in H
           | H : Rleb _ _ = true |- _ => apply Rleb_spec in H
           | H : Rltb ?a ?b = false |- _ =>
               assert (b <= a) by (unfold Rltb in H; destruct (Rlt_dec a b); [discriminate | lra]);
               clear H
           | H : Rleb ?a ?b = false |- _ =>
               assert (b < a) by (unfold Rleb in H; destruct (Rle_dec a b); [discriminate | lra]);
               clear H
           end;
    repeat split; intros; try discriminate; try reflexivity; try lra.
Qed.

Lemma sqrt_sum_squares_nonneg (a b : R) : 0 <= a * a + b * b.
Proof. nra. Qed.

Lemma sqrt_scaled (a b k : R) :
  0 <= k -> sqrt (a * k * (a * k) + b * k * (b * k)) = k * sqrt (a * a + b * b).
Proof.
  intros Hk.
  replace (a * k * (a * k) + b * k * (b * k)) with (k * k * (a * a + b * b)) by ring.
  rewrite sqrt_mult by nra. rewrite sqrt_square by exact Hk. reflexivity.
Qed.

Lemma Entity_update_speed (dt : R) (e : Entity R) :
  0 <= maxSpeed e ->
  vec2Length (velocity (Entity_update dt e)) <= maxSpeed e.
Proof.
  intros Hmax. unfold Entity_update, vec2Length. Rops.
  set (vx := x (velocity e) * damping e).
  set (vy := y (velocity e) * damping e).
  set (speed := sqrt (vx * vx + vy * vy)).
  destruct (Rltb (maxSpeed e) speed) eqn:Hcmp; cbn [velocity x y].
  - apply Rltb_spec in Hcmp.
    assert (Hpos : 0 < speed) by lra.
    assert (Hk : 0 <= maxSpeed e / speed)
      by (apply Rmult_le_pos; [lra | left; apply Rinv_0_lt_compat, Hpos]).
    rewrite (sqrt_scaled vx vy _ Hk). fold speed.
    right. field. lra.
  - unfold Rltb in Hcmp. destruct (Rlt_dec (maxSpeed e) speed); [discriminate|].
    fold speed. lra.
Qed.

(** Where the damped speed is above [maxSpeed], the clamp brings the speed
    to [maxSpeed] exactly. *)
Lemma Entity_update_clamped (dt : R) (e : Entity R) :
  0 <= maxSpeed e ->
  maxSpeed e < vec2Length (vec2Scale (velocity e) (damping e)) ->
  vec2Length (velocity (Entity_update dt e)) = maxSpeed e.
Proof.
  intros Hmax Hover. unfold Entity_update, vec2Length, vec2Scale in *. Rops.
  cbn [x y] in Hover.
  set (vx := x (velocity e) * damping e) in *.
  set (vy := y (velocity e) * damping e) in *.
  set (speed := sqrt (vx * vx + vy * vy)) in *.
  rewrite Rltb_true by exact Hover. cbn [velocity x y].
  assert (Hk : 0 <= maxSpeed e / speed)
    by (apply Rmult_le_pos; [lra | left; apply Rinv_0_lt_compat; lra]).
  rewrite (sqrt_scaled vx vy _ Hk). fold speed. field. lra.
Qed.

(** C2 (amended).  In exact arithmetic: after [Entity.update] (the
    integration step the Ball runs) and after [Player.update] with any
    acceleration multiplier and any inputAcceleration, whatever the time
    step and the speed before, the speed is at most [maxSpeed]. *)
Theorem update_speed_capped (dt : R) (e : Entity R) :
  0 <= maxSpeed e ->
  vec2Length (velocity (Entity_update dt e)) <= maxSpeed e
  /\ forall (accelerationMultiplier : R) (human : bool) (input : Vec2 R),
       vec2Length
         (velocity (player_entity
                      (Player_update dt accelerationMultiplier
                                     (mkPlayer e human input))))
       <= maxSpeed e.
Proof.
  intros Hmax. split.
  - apply Entity_update_speed, Hmax.
  - intros k human input. unfold Player_update, Player_with_entity.
    cbn [player_entity inputAcceleration].
    match goal with
    | |- vec2Length (velocity (Entity_update dt ?e')) <= _ =>
        apply (Entity_update_speed dt e'); exact Hmax
    end.
Qed.

Lemma running_player_maxSpeed :
  maxSpeed (player_entity (running_player (F:=R))) = 180.
Proof.
  unfold running_player. cbn [player_entity set_velocity maxSpeed]. Rscene.
  unfold PLAYER_MAX_SPEED. Rops. lra.
Qed.

(** In exact arithmetic the running player of the counterexample, whose
    damped speed after the acceleration is above 180, ends the update at
    180 exactly. *)
Lemma running_player_at_cap :
  vec2Length (velocity (player_entity
                          (Player_update (1 / 60) 1 (running_player (F:=R)))))
  = 180.
Proof.
  rewrite <- running_player_maxSpeed.
  unfold Player_update, Player_with_entity. cbn [player_entity inputAcceleration].
  match goal with
  | |- vec2Length (velocity (Entity_update _ ?e')) = _ =>
      apply (Entity_update_clamped (1 / 60) e')
  end.
  - change (0 <= maxSpeed (player_entity (running_player (F:=R)))).
    rewrite running_player_maxSpeed. lra.
  - match goal with
    | |- _ < ?r => change (maxSpeed (player_entity (running_player (F:=R))) < r)
    end.
    rewrite running_player_maxSpeed.
    unfold running_player, vec2Scale, PLAYER_ACCELERATION.
    cbn [player_entity set_velocity velocity damping inputAcceleration]. Rscene.
    unfold PLAYER_DAMPING. Rops.
    rewrite <- (sqrt_square 180) by lra.
    apply sqrt_lt_1; lra.
Qed.

(** For the running player of the counterexample, at the time step 1/60
    and the multiplier 1: in exact arithmetic the clamp fires and the
    speed stays within the cap. *)
Lemma update_speed_capped_witness :
  0 <= maxSpeed (player_entity (running_player (F:=R)))
  /\ vec2Length (velocity (player_entity
                             (Player_update (1 / 60) 1 (running_player (F:=R)))))
     <= maxSpeed (player_entity (running_player (F:=R))).
Proof.
  assert (H : 0 <= maxSpeed (player_entity (running_player (F:=R))))
    by (rewrite running_player_maxSpeed; lra).
  split; [exact H|].
  exact (proj2 (update_speed_capped (1 / 60) _ H) 1 true (vec2 (num 1) (num 0))).
Defined.

(** *** detectCircleCollision *)

Lemma centreDistance_sym (a b : Entity R) : centreDistance a b = centreDistance b a.
Proof. unfold centreDistance. f_equal. ring. Qed.

Lemma centreDistance_nonneg (a b : Entity R) : 0 <= centreDistance a b.
Proof. apply sqrt_pos. Qed.

Lemma centreDistance_sqr (a b : Entity R) :
  centreDistance a b * centreDistance a b
  = (x (position b) - x (position a)) * (x (position b) - x (position a))
    + (y (position b) - y (position a)) * (y (position b) - y (position a)).
Proof. unfold centreDistance. apply sqrt_sqrt, sqrt_sum_squares_nonneg. Qed.

(** What the detection returns, in terms of the centre distance [d]: a
    collision exactly when [d^2 < (ra + rb)^2], with penetration
    [ra + rb - d] and the normal [(b - a) / d], or (1,0) when [d <= 0.0001]. *)
Lemma detect_exact (a b : Entity R) :
  detectCircleCollision a b =
  if Rleb ((radius a + radius b) * (radius a + radius b))
          (centreDistance a b * centreDistance a b)
  then None
  else Some (mkCollision a b
               (if Rltb (1 / 10000) (centreDistance a b)
                then vec2 ((x (position b) - x (position a)) * (1 / centreDistance a b))
                          ((y (position b) - y (position a)) * (1 / centreDistance a b))
                else vec2 1 0)
               (radius a + radius b - centreDistance a b)).
Proof.
  rewrite centreDistance_sqr.
  unfold detectCircleCollision, vec2Normalize, vec2Length, vec2Scale, centreDistance.
  Rops. cbn [x y].
  set (dx := x (position b) - x (position a)).
  set (dy := y (position b) - y (position a)).
  destruct (Rleb _ (dx * dx + dy * dy)); [reflexivity|].
  replace (1 * / 10000) with (1 / 10000) by lra.
  replace (1 * / 1) with 1 by lra. replace (0 * / 1) with 0 by lra.
  destruct (Rltb (1 / 10000) (sqrt (dx * dx + dy * dy))) eqn:Hd; [|reflexivity].
  apply Rltb_spec in Hd. rewrite Rltb_false by lra. reflexivity.
Qed.

(** C8 (amended).  When [detect(a,b)] and [detect(b,a)] both report a
    collision, the penetrations are equal, and either the centres are
    more than 0.0001 apart and the normals are opposite, or they are not
    and both normals are (1,0). *)
Theorem detect_symmetry (a b : Entity R) (c1 c2 : Collision R) :
  detectCircleCollision a b = Some c1 ->
  detectCircleCollision b a = Some c2 ->
  penetration c1 = penetration c2
  /\ ((1 / 10000 < centreDistance a b
       /\ normal c2 = vec2 (- x (normal c1)) (- y (normal c1)))
      \/ (centreDistance a b <= 1 / 10000
          /\ normal c1 = vec2 1 0 /\ normal c2 = vec2 1 0)).
Proof.
  rewrite !detect_exact, <- (centreDistance_sym a b).
  destruct (Rleb _ _); [discriminate|]. intros [= <-].
  destruct (Rleb _ _); [discriminate|]. intros [= <-].
  cbn [penetration normal]. split; [ring|].
  destruct (Rltb (1 / 10000) (centreDistance a b)) eqn:Hd.
  - left. apply Rltb_spec in Hd. split; [exact Hd|].
    cbn [x y]. f_equal; ring.
  - right. unfold Rltb in Hd.
    destruct (Rlt_dec (1 / 10000) (centreDistance a b)); [discriminate|].
    split; [lra | split; reflexivity].
Qed.

Lemma overlapping_detect :
  detectCircleCollision (F:=R) overlapping_a overlapping_b = Some overlapping_collision.
Proof.
  rewrite detect_exact.
  assert (Hd : centreDistance overlapping_a overlapping_b = 20)
    by (unfold centreDistance, overlapping_a, overlapping_b; Rscene;
        apply sqrt_eval; lra).
  assert (Hr : radius (F:=R) overlapping_a + radius overlapping_b = 28)
    by (unfold overlapping_a, overlapping_b; Rscene;
        unfold PLAYER_RADIUS, BALL_RADIUS; Rops; lra).
  assert (Hx : x (position (F:=R) overlapping_b) - x (position overlapping_a) = 20)
    by (unfold overlapping_a, overlapping_b; Rscene; lra).
  assert (Hy : y (position (F:=R) overlapping_b) - y (position overlapping_a) = 0)
    by (unfold overlapping_a, overlapping_b; Rscene; lra).
  rewrite Hd, Hr, Hx, Hy. Rdecide.
  unfold overlapping_collision. f_equal. f_equal; [f_equal; lra | lra].
Qed.

Lemma overlapping_detect_rev :
  detectCircleCollision (F:=R) overlapping_b overlapping_a
  = Some (mkCollision overlapping_b overlapping_a (vec2 (-1) 0) 8).
Proof.
  rewrite detect_exact.
  assert (Hd : centreDistance overlapping_b overlapping_a = 20)
    by (unfold centreDistance, overlapping_a, overlapping_b; Rscene;
        apply sqrt_eval; lra).
  assert (Hr : radius (F:=R) overlapping_b + radius overlapping_a = 28)
    by (unfold overlapping_a, overlapping_b; Rscene;
        unfold PLAYER_RADIUS, BALL_RADIUS; Rops; lra).
  assert (Hx : x (position (F:=R) overlapping_a) - x (position overlapping_b) = -20)
    by (unfold overlapping_a, overlapping_b; Rscene; lra).
  assert (Hy : y (position (F:=R) overlapping_a) - y (position overlapping_b) = 0)
    by (unfold overlapping_a, overlapping_b; Rscene; lra).
  rewrite Hd, Hr, Hx, Hy. Rdecide.
  f_equal. f_equal; [f_equal; lra | lra].
Qed.

(** For [overlapping_a] and [overlapping_b]: 20 apart, penetration 8,
    normals (1,0) and (-1,0). *)
Lemma detect_symmetry_witness :
  detectCircleCollision (F:=R) overlapping_a overlapping_b = Some overlapping_collision
  /\ detectCircleCollision (F:=R) overlapping_b overlapping_a
     = Some (mkCollision overlapping_b overlapping_a (vec2 (-1) 0) 8)
  /\ penetration overlapping_collision = 8.
Proof.
  split; [exact overlapping_detect|]. split; [exact overlapping_detect_rev|].
  exact (proj1 (detect_symmetry _ _ _ _ overlapping_detect overlapping_detect_rev)).
Defined.

(** *** resolveCircleCollision *)

Lemma detect_normal_unit (a b : Entity R) (c : Collision R) :
  detectCircleCollision a b = Some c ->
  x (normal c) * x (normal c) + y (normal c) * y (normal c) = 1.
Proof.
  rewrite detect_exact. destruct (Rleb _ _); [discriminate|]. intros [= <-].
  cbn [normal].
  destruct (Rltb (1 / 10000) (centreDistance a b)) eqn:Hd; cbn [x y]; [|ring].
  apply Rltb_spec in Hd. pose proof (centreDistance_sqr a b) as Hsq.
  set (d := centreDistance a b) in *.
  set (dx := x (position b) - x (position a)) in *.
  set (dy := y (position b) - y (position a)) in *.
  replace (dx * (1 / d) * (dx * (1 / d)) + dy * (1 / d) * (dy * (1 / d)))
    with ((dx * dx + dy * dy) / (d * d)) by (field; lra).
  rewrite <- Hsq. field. lra.
Qed.

(** The positions after the resolution: the centres have moved apart by
    [k] along the normal, where [k] is 0.8 of the penetration when the
    correction applies and 0 when it does not; the radii are unchanged. *)
Lemma resolve_geometry (c : Collision R) (dt : R) :
  exists k,
    (k = 0 \/ (1 / 10 < penetration c /\ k = 8 / 10 * penetration c))
    /\ radius (fst (resolveCircleCollision c dt)) = radius (entityA c)
    /\ radius (snd (resolveCircleCollision c dt)) = radius (entityB c)
    /\ x (position (snd (resolveCircleCollision c dt)))
       - x (position (fst (resolveCircleCollision c dt)))
       = x (position (entityB c)) - x (position (entityA c)) + x (normal c) * k
    /\ y (position (snd (resolveCircleCollision c dt)))
       - y (position (fst (resolveCircleCollision c dt)))
       = y (position (entityB c)) - y (position (entityA c)) + y (normal c) * k.
Proof.
  unfold resolveCircleCollision, COLLISION_SLOP, POSITION_CORRECTION_PERCENT.
  Rops.
  destruct (Rltb (1 * / 10) (penetration c)) eqn:Hslop.
  - apply Rltb_spec in Hslop.
    destruct (Rltb (0 * / 1) (invMass (entityA c) + invMass (entityB c))) eqn:Htot.
    + apply Rltb_spec in Htot.
      exists (8 / 10 * penetration c). split; [right; split; lra|].
      repeat match goal with
             | |- context [if ?g then _ else _] => destruct g
             end; cbn [fst snd radius position x y set_position set_velocity applyImpulse];
        (split; [reflexivity|]); (split; [reflexivity|]); split; field; lra.
    + exists 0. split; [left; reflexivity|].
      repeat match goal with
             | |- context [if ?g then _ else _] => destruct g
             end; cbn [fst snd radius position x y set_position set_velocity applyImpulse];
        (split; [reflexivity|]); (split; [reflexivity|]); split; ring.
  - exists 0. split; [left; reflexivity|].
    repeat match goal with
           | |- context [if ?g then _ else _] => destruct g
           end; cbn [fst snd radius position x y set_position set_velocity applyImpulse];
      (split; [reflexivity|]); (split; [reflexivity|]); split; ring.
Qed.

(** The resolution of a detected collision does not bring the centres
    closer. *)
Lemma resolve_distance (a b : Entity R) (c : Collision R) (dt : R) :
  detectCircleCollision a b = Some c ->
  centreDistance a b
  <= centreDistance (fst (resolveCircleCollision c dt))
                    (snd (resolveCircleCollision c dt)).
Proof.
  intros Hdet.
  destruct (resolve_geometry c dt) as (k & Hk & _ & _ & Hx & Hy).
  revert Hdet Hk Hx Hy. rewrite detect_exact.
  destruct (Rleb _ _); [discriminate|]. intros [= <-].
  cbn [penetration normal entityA entityB].
  set (r := resolveCircleCollision _ dt). intros Hk Hx Hy.
  unfold centreDistance at 2. rewrite Hx, Hy.
  pose proof (centreDistance_sqr a b) as Hsq.
  pose proof (centreDistance_nonneg a b) as Hd0.
  set (d := centreDistance a b) in *.
  set (dx := x (position b) - x (position a)) in *.
  set (dy := y (position b) - y (position a)) in *.
  assert (Hk0 : 0 <= k) by (destruct Hk as [-> | [H1 ->]]; lra).
  destruct (Rltb (1 / 10000) d) eqn:Hd; cbn [x y].
  - apply Rltb_spec in Hd.
    replace ((dx + dx * (1 / d) * k) * (dx + dx * (1 / d) * k)
             + (dy + dy * (1 / d) * k) * (dy + dy * (1 / d) * k))
      with (dx * (1 + k / d) * (dx * (1 + k / d))
            + dy * (1 + k / d) * (dy * (1 + k / d))) by (field; lra).
    assert (Hq : 0 <= k / d)
      by (apply Rmult_le_pos; [lra | left; apply Rinv_0_lt_compat; lra]).
    rewrite sqrt_scaled by lra. rewrite <- Hsq, sqrt_square by lra.
    nra.
  - unfold Rltb in Hd. destruct (Rlt_dec (1 / 10000) d) as [|Hsmall]; [discriminate|].
    assert (Hdx : - d <= dx) by nra.
    rewrite <- (sqrt_square d) at 1 by lra. rewrite Hsq.
    apply sqrt_le_1.
    + apply sqrt_sum_squares_nonneg.
    + apply sqrt_sum_squares_nonneg.
    + destruct Hk as [-> | [H1 ->]]; [lra | nra].
Qed.

(** The same, with the shift [k] named: 0.8 of the penetration when the
    penetration is above the slop and one of the two has an inverse mass,
    0 otherwise. *)
Lemma resolve_shift (c : Collision R) (dt k : R) :
  (1 / 10 < penetration c
   /\ 0 < invMass (entityA c) + invMass (entityB c)
   /\ k = 8 / 10 * penetration c)
  \/ ((penetration c <= 1 / 10 \/ invMass (entityA c) + invMass (entityB c) <= 0)
      /\ k = 0) ->
  radius (fst (resolveCircleCollision c dt)) = radius (entityA c)
  /\ radius (snd (resolveCircleCollision c dt)) = radius (entityB c)
  /\ x (position (snd (resolveCircleCollision c dt)))
     - x (position (fst (resolveCircleCollision c dt)))
     = x (position (entityB c)) - x (position (entityA c)) + x (normal c) * k
  /\ y (position (snd (resolveCircleCollision c dt)))
     - y (position (fst (resolveCircleCollision c dt)))
     = y (position (entityB c)) - y (position (entityA c)) + y (normal c) * k.
Proof.
  intros Hk.
  unfold resolveCircleCollision, COLLISION_SLOP, POSITION_CORRECTION_PERCENT.
  Rops.
  destruct (Rltb (1 * / 10) (penetration c)) eqn:Hslop;
    [destruct (Rltb (0 * / 1) (invMass (entityA c) + invMass (entityB c))) eqn:Htot|];
    repeat match goal with
           | |- context [if ?g then _ else _] => destruct g
           end;
    cbn [fst snd radius position x y set_position set_velocity applyImpulse];
    (split; [reflexivity|]); (split; [reflexivity|]);
    repeat match goal with
           | H : Rltb _ _ = true |- _ => apply Rltb_spec in H
           | H : Rltb _ _ = false |- _ => apply Rltb_false_inv in H
           end;
    destruct Hk as [(H1 & H2 & ->) | ([H1 | H1] & ->)];
    split; try lra; field; lra.
Qed.

(** The inverse masses add up to a positive number exactly when one of
    the two entities has a positive mass. *)
Lemma invMass_sum (a b : Entity R) :
  (0 < mass a \/ 0 < mass b -> 0 < invMass a + invMass b)
  /\ (mass a <= 0 /\ mass b <= 0 -> invMass a + invMass b <= 0).
Proof.
  assert (Hinv : forall e : Entity R,
            (0 < mass e -> 0 < invMass e) /\ (mass e <= 0 -> invMass e = 0)
            /\ 0 <= invMass e).
  { intros e. unfold invMass. Rops.
    destruct (Rltb (0 * / 1) (mass e)) eqn:Hm.
    - apply Rltb_spec in Hm.
      assert (0 < 1 * / 1 / mass e)
        by (apply Rmult_lt_0_compat; [lra | apply Rinv_0_lt_compat; lra]).
      repeat split; intros; lra.
    - apply Rltb_false_inv in Hm. repeat split; intros; lra. }
  destruct (Hinv a) as (Ha1 & Ha2 & Ha3). destruct (Hinv b) as (Hb1 & Hb2 & Hb3).
  split.
  - intros [H | H]; [specialize (Ha1 H) | specialize (Hb1 H)]; lra.
  - intros [H1 H2]. rewrite (Ha2 H1), (Hb2 H2). lra.
Qed.

(** The invariant parts of a reported collision. *)
Lemma detect_parts (a b : Entity R) (c : Collision R) :
  detectCircleCollision a b = Some c ->
  entityA c = a /\ entityB c = b
  /\ penetration c = radius a + radius b - centreDistance a b
  /\ normal c = if Rltb (1 / 10000) (centreDistance a b)
                then vec2 ((x (position b) - x (position a)) * (1 / centreDistance a b))
                          ((y (position b) - y (position a)) * (1 / centreDistance a b))
                else vec2 1 0.
Proof.
  rewrite detect_exact. destruct (Rleb _ _); [discriminate|].
  intros [= <-]. repeat split.
Qed.

(** C6 (amended).  In exact arithmetic, one [resolveCircleCollision] of a
    detected collision never increases the overlap of the pair it
    resolves: the penetration [p'] recomputed from the new positions, and
    any penetration a second detection reports, is at most the
    penetration [p] before.  [p' = p] when [p] is not above the slop 0.1
    or neither entity has a positive mass; otherwise [p' = p - 0.8 p]
    when the centres are more than 0.0001 apart, and [p'] lies between
    [p - 0.8 p] and [p - 0.8 p] plus twice the centre distance when they
    are not (the normal is then the default (1,0)). *)
Theorem resolve_penetration (a b : Entity R) (c : Collision R) (dt : R) :
  detectCircleCollision a b = Some c ->
  let a' := fst (resolveCircleCollision c dt) in
  let b' := snd (resolveCircleCollision c dt) in
  let p := penetration c in
  let p' := radius a' + radius b' - centreDistance a' b' in
  p' <= p
  /\ (forall c', detectCircleCollision a' b' = Some c' -> penetration c' <= p)
  /\ (p <= 1 / 10 \/ (mass a <= 0 /\ mass b <= 0) -> p' = p)
  /\ (1 / 10 < p -> 0 < mass a \/ 0 < mass b ->
      (1 / 10000 < centreDistance a b -> p' = p - 8 / 10 * p)
      /\ (centreDistance a b <= 1 / 10000 ->
          p - 8 / 10 * p <= p' <= p - 8 / 10 * p + 2 * centreDistance a b)).
Proof.
  intros Hdet a' b' p p'.
  pose proof (resolve_distance a b c dt Hdet) as Hdist. fold a' b' in Hdist.
  destruct (detect_parts a b c Hdet) as (EA & EB & Hpen & Hn).
  pose proof (centreDistance_sqr a b) as Hsq.
  pose proof (centreDistance_nonneg a b) as Hd0.
  assert (Hshift : forall k,
            (1 / 10 < p /\ 0 < invMass a + invMass b /\ k = 8 / 10 * p)
            \/ ((p <= 1 / 10 \/ invMass a + invMass b <= 0) /\ k = 0) ->
            radius a' + radius b' = radius a + radius b
            /\ centreDistance a' b'
               = sqrt ((x (position b) - x (position a) + x (normal c) * k)
                       * (x (position b) - x (position a) + x (normal c) * k)
                       + (y (position b) - y (position a) + y (normal c) * k)
                         * (y (position b) - y (position a) + y (normal c) * k))).
  { intros k Hk. unfold p in Hk. rewrite <- EA, <- EB in Hk.
    destruct (resolve_shift c dt k Hk) as (Ha & Hb & Hx & Hy).
    fold a' b' in Ha, Hb, Hx, Hy. rewrite EA in Ha, Hx, Hy. rewrite EB in Hb, Hx, Hy.
    split; [rewrite Ha, Hb; reflexivity|].
    unfold centreDistance at 1. rewrite Hx, Hy. reflexivity. }
  assert (Hfirst : p' <= p).
  { destruct (resolve_geometry c dt) as (k & _ & Ha & Hb & _).
    fold a' b' in Ha, Hb. rewrite EA in Ha. rewrite EB in Hb.
    unfold p', p. rewrite Ha, Hb, Hpen. lra. }
  split; [exact Hfirst|]. split.
  { intros c'. rewrite detect_exact. destruct (Rleb _ _); [discriminate|].
    intros [= <-]. exact Hfirst. }
  set (d := centreDistance a b) in *.
  set (dx := x (position b) - x (position a)) in *.
  set (dy := y (position b) - y (position a)) in *.
  split.
  - intros Hnone.
    assert (Hnone' : p <= 1 / 10 \/ invMass a + invMass b <= 0)
      by (destruct Hnone as [H | H];
          [left; exact H | right; apply (proj2 (invMass_sum a b) H)]).
    destruct (Hshift 0 (or_intror (conj Hnone' eq_refl))) as [Hr Hd].
    unfold p', p. rewrite Hr, Hd, Hpen.
    replace ((dx + x (normal c) * 0) * (dx + x (normal c) * 0)
             + (dy + y (normal c) * 0) * (dy + y (normal c) * 0))
      with (dx * dx + dy * dy) by ring.
    rewrite <- Hsq, sqrt_square by exact Hd0. reflexivity.
  - intros Hp Hm. apply (proj1 (invMass_sum a b)) in Hm.
    destruct (Hshift (8 / 10 * p) (or_introl (conj Hp (conj Hm eq_refl)))) as [Hr Hd].
    unfold p'. rewrite Hr, Hd, Hn. fold p in Hpen.
    set (k := 8 / 10 * p) in *.
    assert (Hk0 : 8 / 100 < k) by (unfold k; lra).
    split.
    + intros Hfar. rewrite Rltb_true by exact Hfar. cbn [x y].
      replace ((dx + dx * (1 / d) * k) * (dx + dx * (1 / d) * k)
               + (dy + dy * (1 / d) * k) * (dy + dy * (1 / d) * k))
        with (dx * (1 + k / d) * (dx * (1 + k / d))
              + dy * (1 + k / d) * (dy * (1 + k / d))) by (field; lra).
      assert (Hq : 0 <= k / d)
        by (apply Rmult_le_pos; [lra | left; apply Rinv_0_lt_compat; lra]).
      rewrite sqrt_scaled by lra. rewrite <- Hsq, sqrt_square by lra.
      replace ((1 + k / d) * d) with (d + k) by (field; lra). lra.
    + intros Hnear. rewrite Rltb_false by exact Hnear. cbn [x y].
      assert (Hdx : - d <= dx <= d) by nra.
      assert (Hlo : k - d
                    <= sqrt ((dx + 1 * k) * (dx + 1 * k) + (dy + 0 * k) * (dy + 0 * k))).
      { apply Rle_trans with (sqrt ((k - d) * (k - d)));
          [rewrite sqrt_square by lra; lra | apply sqrt_le_1; nra]. }
      assert (Hhi : sqrt ((dx + 1 * k) * (dx + 1 * k) + (dy + 0 * k) * (dy + 0 * k))
                    <= k + d).
      { apply Rle_trans with (sqrt ((k + d) * (k + d)));
          [apply sqrt_le_1; nra | rewrite sqrt_square by lra; lra]. }
      lra.
Qed.

(** C7.  For a detected collision between two entities of equal positive
    mass and restitution 1 whose relative velocity lies along the contact
    normal and is closing, [resolveCircleCollision] exchanges the two
    velocities. *)
Theorem resolve_head_on_exchange (a b : Entity R) (c : Collision R) (dt k : R) :
  detectCircleCollision a b = Some c ->
  mass a = mass b -> 0 < mass a ->
  restitution a = 1 -> restitution b = 1 ->
  k < 0 ->
  vec2Sub (velocity b) (velocity a) = vec2Scale (normal c) k ->
  velocity (fst (resolveCircleCollision c dt)) = velocity b
  /\ velocity (snd (resolveCircleCollision c dt)) = velocity a.
Proof.
  intros Hdet Hm Hm0 Hea Heb Hk Hrel.
  pose proof (detect_normal_unit a b c Hdet) as Hunit.
  assert (HAB : entityA c = a /\ entityB c = b).
  { revert Hdet. rewrite detect_exact. destruct (Rleb _ _); [discriminate|].
    intros [= <-]. auto. }
  destruct HAB as [EA EB].
  unfold vec2Sub, vec2Scale in Hrel. Rops. injection Hrel as Hrx Hry.
  assert (HiA : invMass a = / mass a).
  { unfold invMass. Rops. rewrite Rltb_true by lra. field. lra. }
  assert (HiB : invMass b = / mass a).
  { unfold invMass. Rops. rewrite <- Hm, Rltb_true by lra. field. lra. }
  assert (Hinv : 0 < / mass a) by (apply Rinv_0_lt_compat, Hm0).
  unfold resolveCircleCollision, vec2Sub, vec2Dot, vec2Scale, applyImpulse,
    COLLISION_SLOP, POSITION_CORRECTION_PERCENT.
  Rops. rewrite EA, EB.
  assert (Hvn : (x (velocity b) - x (velocity a)) * x (normal c)
                + (y (velocity b) - y (velocity a)) * y (normal c) = k)
    by (rewrite Hrx, Hry; nra).
  destruct (velocity a) as [vax vay] eqn:Hva.
  destruct (velocity b) as [vbx vby] eqn:Hvb.
  cbn [x y] in *.
  assert (Hsum : Reqb (/ mass a + / mass a) (0 * / 1) = false).
  { unfold Reqb. destruct (Req_dec_T _ _); [lra | reflexivity]. }
  assert (Hmin : Rmin 1 1 = 1) by (unfold Rmin; destruct (Rle_dec 1 1); reflexivity).
  repeat match goal with
         | |- context [if Rltb (1 * / 10) ?p then _ else _] =>
             destruct (Rltb (1 * / 10) p)
         | |- context [if Rltb (0 * / 1) (invMass a + invMass b) then _ else _] =>
             destruct (Rltb (0 * / 1) (invMass a + invMass b))
         end;
    repeat match goal with
           | |- context [invMass (set_position ?e ?p)] =>
               change (invMass (set_position e p)) with (invMass e)
           end;
    cbn [velocity restitution set_position x y];
    rewrite Hva, Hvb; cbn [x y]; rewrite Hvn, HiA, HiB, Hea, Heb, Hmin, Hsum;
    (rewrite (Rltb_false (0 * / 1) k) by lra);
    cbn [fst snd velocity set_velocity x y];
    split; f_equal; field_simplify; try lra.
Qed.

Lemma overlapping_mass :
  0 < mass (F:=R) overlapping_a \/ 0 < mass (F:=R) overlapping_b.
Proof.
  left. unfold overlapping_a. Rscene. unfold PLAYER_MASS. Rops. lra.
Qed.

Lemma overlapping_distance : centreDistance overlapping_a overlapping_b = 20.
Proof.
  unfold centreDistance, overlapping_a, overlapping_b. Rscene.
  apply sqrt_eval; lra.
Qed.

(** For [overlapping_a] and [overlapping_b], 20 apart with penetration 8:
    the penetration after the resolution is 8 - 0.8 * 8. *)
Lemma resolve_penetration_witness :
  detectCircleCollision (F:=R) overlapping_a overlapping_b = Some overlapping_collision
  /\ radius (fst (resolveCircleCollision overlapping_collision (1 / 60)))
     + radius (snd (resolveCircleCollision overlapping_collision (1 / 60)))
     - centreDistance (fst (resolveCircleCollision overlapping_collision (1 / 60)))
                      (snd (resolveCircleCollision overlapping_collision (1 / 60)))
     = 8 - 8 / 10 * 8.
Proof.
  split; [exact overlapping_detect|].
  assert (Hp : 1 / 10 < penetration overlapping_collision)
    by (cbn [penetration overlapping_collision]; lra).
  assert (Hd : 1 / 10000 < centreDistance overlapping_a overlapping_b)
    by (rewrite overlapping_distance; lra).
  exact (proj1 (proj2 (proj2 (proj2
           (resolve_penetration overlapping_a overlapping_b overlapping_collision
                                (1 / 60) overlapping_detect)))
           Hp overlapping_mass) Hd).
Defined.

(** For the player at (100,100) and the Ball 0.00005 to its left, whose
    reported normal is the default (1,0) and points away from the Ball:
    the resolution moves the centres through each other, and the
    penetration afterwards is 0.0001 above [p - 0.8 p]. *)
Lemma resolve_stacked :
  exists c,
    detectCircleCollision (F:=R) stacked_a stacked_b = Some c
    /\ normal c = vec2 1 0
    /\ penetration c = 28 - 1 / 20000
    /\ radius (fst (resolveCircleCollision c (1 / 60)))
       + radius (snd (resolveCircleCollision c (1 / 60)))
       - centreDistance (fst (resolveCircleCollision c (1 / 60)))
                        (snd (resolveCircleCollision c (1 / 60)))
       = penetration c - 8 / 10 * penetration c + 1 / 10000.
Proof.
  assert (Hx : x (position (F:=R) stacked_b) - x (position stacked_a) = - (1 / 20000))
    by (unfold stacked_a, stacked_b; Rscene; lra).
  assert (Hy : y (position (F:=R) stacked_b) - y (position stacked_a) = 0)
    by (unfold stacked_a, stacked_b; Rscene; lra).
  assert (Hd : centreDistance stacked_a stacked_b = 1 / 20000)
    by (unfold centreDistance; rewrite Hx, Hy; apply sqrt_eval; lra).
  assert (Hr : radius (F:=R) stacked_a + radius stacked_b = 28)
    by (unfold stacked_a, stacked_b; Rscene;
        unfold PLAYER_RADIUS, BALL_RADIUS; Rops; lra).
  assert (Hm : 0 < invMass (F:=R) stacked_a + invMass (F:=R) stacked_b).
  { unfold invMass, stacked_a, stacked_b. Rscene.
    unfold PLAYER_MASS, BALL_MASS. Rops. Rdecide. lra. }
  exists (mkCollision stacked_a stacked_b (vec2 1 0) (28 - 1 / 20000)).
  split.
  { rewrite detect_exact, Hd, Hr, Hx, Hy. Rdecide. reflexivity. }
  split; [reflexivity|]. split; [reflexivity|].
  set (c := mkCollision stacked_a stacked_b (vec2 1 0) (28 - 1 / 20000)).
  destruct (resolve_shift c (1 / 60) (8 / 10 * (28 - 1 / 20000)))
    as (Ha & Hb & Hdx & Hdy).
  { left. cbn [c penetration entityA entityB]. split; [lra|]. split; [exact Hm | reflexivity]. }
  cbn [c penetration entityA entityB normal x y] in Ha, Hb, Hdx, Hdy.
  unfold centreDistance at 1. rewrite Ha, Hb, Hdx, Hdy, Hx, Hy, Hr.
  cbn [c penetration].
  rewrite (sqrt_eval _ (8 / 10 * (28 - 1 / 20000) - 1 / 20000)) by lra.
  lra.
Qed.

Lemma puck_detect : detectCircleCollision (F:=R) puck_a puck_b = Some puck_collision.
Proof.
  rewrite detect_exact.
  assert (Hd : centreDistance puck_a puck_b = 15)
    by (unfold centreDistance, puck_a, puck_b; Rscene; apply sqrt_eval; lra).
  assert (Hr : radius (F:=R) puck_a + radius puck_b = 20)
    by (unfold puck_a, puck_b; Rscene; lra).
  assert (Hx : x (position (F:=R) puck_b) - x (position puck_a) = 15)
    by (unfold puck_a, puck_b; Rscene; lra).
  assert (Hy : y (position (F:=R) puck_b) - y (position puck_a) = 0)
    by (unfold puck_a, puck_b; Rscene; lra).
  rewrite Hd, Hr, Hx, Hy. Rdecide.
  unfold puck_collision. f_equal. f_equal; [f_equal; lra | lra].
Qed.

(** For the two pucks, closing at relative velocity -20 along the normal
    (1,0). *)
Lemma resolve_head_on_exchange_witness :
  detectCircleCollision (F:=R) puck_a puck_b = Some puck_collision
  /\ mass (F:=R) puck_a = mass puck_b /\ 0 < mass (F:=R) puck_a
  /\ restitution (F:=R) puck_a = 1 /\ restitution (F:=R) puck_b = 1
  /\ -20 < 0
  /\ vec2Sub (velocity puck_b) (velocity puck_a) = vec2Scale (normal puck_collision) (-20)
  /\ velocity (fst (resolveCircleCollision puck_collision (1 / 60))) = velocity puck_b
  /\ velocity (snd (resolveCircleCollision puck_collision (1 / 60))) = velocity puck_a.
Proof.
  assert (Hm : mass (F:=R) puck_a = mass puck_b) by reflexivity.
  assert (Hm0 : 0 < mass (F:=R) puck_a) by (unfold puck_a; Rscene; lra).
  assert (Hea : restitution (F:=R) puck_a = 1) by (unfold puck_a; Rscene; lra).
  assert (Heb : restitution (F:=R) puck_b = 1) by (unfold puck_b; Rscene; lra).
  assert (Hk : -20 < 0) by lra.
  assert (Hrel : vec2Sub (velocity puck_b) (velocity puck_a)
                 = vec2Scale (normal puck_collision) (-20)).
  { unfold puck_a, puck_b, puck_collision, vec2Scale. cbn [normal]. Rscene.
    f_equal; lra. }
  repeat (split; [assumption || exact puck_detect|]).
  exact (resolve_head_on_exchange puck_a puck_b puck_collision (1 / 60) (-20)
           puck_detect Hm Hm0 Hea Heb Hk Hrel).
Defined.

(** *** Bot.getDesiredDirection *)

(** [vec2Normalize] returns the zero vector or a vector of length 1. *)
Lemma normalize_zero_or_unit (v : Vec2 R) :
  vec2Normalize v = vec2 0 0 \/ vec2Length (vec2Normalize v) = 1.
Proof.
  unfold vec2Normalize, vec2Zero, vec2Scale, vec2Length. Rops.
  set (len := sqrt (x v * x v + y v * y v)).
  destruct (Rltb len (1 * / 10000)) eqn:Hlen.
  - left. f_equal; lra.
  - right. unfold Rltb in Hlen.
    destruct (Rlt_dec len (1 * / 10000)) as [|Hbig]; [discriminate|].
    cbn [x y].
    assert (Hk : 0 <= 1 * / 1 / len)
      by (apply Rmult_le_pos; [lra | left; apply Rinv_0_lt_compat; lra]).
    rewrite sqrt_scaled by exact Hk. fold len. field. lra.
Qed.

(** [vec2Normalize] by the length of its argument: a vector of at least
    0.0001 is divided by its length, and the result has length 1; a
    shorter one gives the zero vector. *)
Lemma normalize_cases (v : Vec2 R) :
  (1 / 10000 <= vec2Length v ->
   vec2Normalize v = vec2Scale v (1 / vec2Length v)
   /\ vec2Length (vec2Normalize v) = 1)
  /\ (vec2Length v < 1 / 10000 -> vec2Normalize v = vec2 0 0).
Proof.
  split.
  - intros Hlong.
    assert (E : vec2Normalize v = vec2Scale v (1 / vec2Length v)).
    { unfold vec2Normalize. Rops. rewrite Rltb_false by lra.
      unfold vec2Scale. f_equal; f_equal; field; lra. }
    split; [exact E|].
    rewrite E. unfold vec2Scale, vec2Length in *. Rops. cbn [x y].
    set (len := sqrt (x v * x v + y v * y v)) in *.
    assert (Hk : 0 <= 1 / len)
      by (apply Rmult_le_pos; [lra | left; apply Rinv_0_lt_compat; lra]).
    rewrite sqrt_scaled by exact Hk. fold len. field. lra.
  - intros Hshort. unfold vec2Normalize, vec2Zero. Rops.
    rewrite Rltb_true by lra. f_equal; lra.
Qed.

(** With no separation force and no fine-tuning, the direction is (1,0)
    or the vector to the target, which is then at least 0.1 long. *)
Lemma direction_plain (M : MathLib R) (random : R)
    (ps : list (Player R)) (bot : nat) (b : Player R) (ball : Ball R)
    (humanPlayer : nat) (humanTeam botTeam : list nat) (isTeammate : bool)
    (gameMode : option GameMode) :
  calculateSeparation ps bot b humanTeam botTeam isTeammate = vec2 0 0 ->
  isTeammate = false
  \/ 80 <= vec2Distance (position (player_entity b))
                        (getDesiredDirection_target M random ps bot b ball humanPlayer
                           humanTeam botTeam isTeammate gameMode) ->
  1 / 10
  <= vec2Length (getDesiredDirection_direction M random ps bot b ball humanPlayer
                   humanTeam botTeam isTeammate gameMode).
Proof.
  intros Hsep Hplain. unfold getDesiredDirection_direction. cbv zeta.
  rewrite Hsep.
  set (target := getDesiredDirection_target M random ps bot b ball humanPlayer
                   humanTeam botTeam isTeammate gameMode) in *.
  set (dist := vec2Distance (position (player_entity b)) target) in *.
  Rops. cbn [x y].
  rewrite !(Reqb_true 0 (0 * / 1)) by lra.
  assert (Hfine : isTeammate && Rltb dist (80 * / 1) && Rltb (1 * / 10) dist = false).
  { destruct Hplain as [-> | Hfar]; [reflexivity|].
    rewrite (Rltb_false dist) by lra.
    destruct isTeammate; reflexivity. }
  rewrite Hfine. cbn [negb orb].
  destruct (Rltb dist (1 * / 10)) eqn:Hd; cbn [x y negb orb].
  - unfold vec2Length. cbn [x y]. Rops. rewrite (sqrt_eval _ 1) by lra. lra.
  - apply Rltb_false_inv in Hd.
    replace (vec2Length (vec2Sub target (position (player_entity b)))) with dist; [lra|].
    unfold dist, vec2Distance, vec2Length, vec2Sub. cbn [x y]. Rops. f_equal. ring.
Qed.

(** C9 (amended).  In exact arithmetic, whatever the agent, the ball, the
    rosters, the flag, the mode, the random draw and the values of the
    trigonometric functions, [getDesiredDirection] returns a vector for
    every agent that is a player: the direction it has blended, divided
    by its length, which is a vector of length 1, whenever that direction
    is at least 0.0001 long, and the zero vector when it is shorter.  The
    result has length 1 in particular whenever the separation force is
    zero and the fine-tuning towards the goal does not apply (the agent
    is an opponent, or its target is at least 80 away). *)
Theorem getDesiredDirection_unit_or_zero (M : MathLib R) (random : R)
    (ps : list (Player R)) (bot : nat) (b : Player R) (ball : Ball R)
    (humanPlayer : nat) (humanTeam botTeam : list nat) (isTeammate : bool)
    (gameMode : option GameMode) :
  ps !! bot = Some b ->
  let direction :=
    getDesiredDirection_direction M random ps bot b ball humanPlayer humanTeam
                                  botTeam isTeammate gameMode in
  let target :=
    getDesiredDirection_target M random ps bot b ball humanPlayer humanTeam
                               botTeam isTeammate gameMode in
  exists v,
    getDesiredDirection M random ps bot ball humanPlayer humanTeam botTeam
                        isTeammate gameMode = Some v
    /\ (1 / 10000 <= vec2Length direction ->
        vec2Length v = 1 /\ v = vec2Scale direction (1 / vec2Length direction))
    /\ (vec2Length direction < 1 / 10000 -> v = vec2 0 0)
    /\ (calculateSeparation ps bot b humanTeam botTeam isTeammate = vec2 0 0 ->
        isTeammate = false
        \/ 80 <= vec2Distance (position (player_entity b)) target ->
        vec2Length v = 1).
Proof.
  intros Hb direction target.
  exists (vec2Normalize direction).
  destruct (normalize_cases direction) as [Hlong Hshort].
  split.
  { unfold getDesiredDirection. rewrite Hb. reflexivity. }
  split; [intros H; destruct (Hlong H) as [E U]; split; [exact U | exact E]|].
  split; [exact Hshort|].
  intros Hsep Hplain.
  apply Hlong.
  pose proof (direction_plain M random ps bot b ball humanPlayer humanTeam botTeam
                isTeammate gameMode Hsep Hplain) as H.
  fold direction in H. lra.
Qed.

Lemma support_separation :
  calculateSeparation (F:=R) support_players 1 (playerAt 300 270 true)
                      [0; 1]%nat [2; 3]%nat true = vec2 0 0.
Proof.
  unfold calculateSeparation, support_players.
  cbn [app fold_left].
  unfold separation_step. cbn [lookup list_lookup Nat.eqb].
  Rscene.
  Rsqrt 300. Rsqrt 350. Rsqrt 400. Rdecide.
  cbn [negb orb andb fst snd Nat.ltb Nat.leb]. f_equal; lra.
Qed.

Lemma support_target (M : MathLib R) (random : R) :
  getDesiredDirection_target M random support_players 1 (playerAt 300 270 true)
    support_ball 0 [0; 1]%nat [2; 3]%nat true (Some TwoVsTwo) = vec2 375 270.
Proof.
  unfold getDesiredDirection_target, support_ball. cbv zeta.
  cbn [is3v3 is2v2 indexOf indexOf_from Nat.eqb Z.add].
  unfold maxmin, KICK_RADIUS, ARENA_WIDTH, ARENA_HEIGHT.
  Rscene. Rsqrt 185. Rdecide.
  cbn [negb orb andb]. change (IZR (0 + 1)) with 1. Rminmax.
  f_equal; lra.
Qed.

Lemma support_direction (M : MathLib R) (random : R) :
  getDesiredDirection M random support_players 1 support_ball 0
                      [0; 1]%nat [2; 3]%nat true (Some TwoVsTwo)
  = Some (vec2 0 0).
Proof.
  unfold getDesiredDirection, getDesiredDirection_direction.
  change (support_players !! 1%nat) with (Some (playerAt (F:=R) 300 270 true)).
  cbv beta iota.
  rewrite support_separation, support_target. cbv zeta.
  cbn [is3v3]. unfold ARENA_HEIGHT, vec2Add, vec2Scale.
  Rscene. Rsqrt 75. Rsqrt 300. Rdecide.
  rewrite !(Reqb_true 0 (0 * / 1)) by lra.
  cbn [negb orb andb x y].
  unfold vec2Normalize, vec2Length, vec2Zero. cbn [x y]. Rops.
  Rsqrt 0. Rdecide. f_equal. f_equal; lra.
Qed.

(** C9 (counterexample).  For the teammate of [support_players] in 2v2,
    75 from its support position and 300 from the goal it attacks, the
    blend of the two directions cancels and [getDesiredDirection] returns
    the zero vector. *)
Lemma getDesiredDirection_zero :
  getDesiredDirection R_Math (1 / 2) support_players 1 support_ball 0
                      [0; 1]%nat [2; 3]%nat true (Some TwoVsTwo)
  = Some (vec2 0 0)
  /\ vec2Length (F:=R) (vec2 0 0) = 0.
Proof.
  split; [apply support_direction|].
  unfold vec2Length. cbn [x y]. Rops. apply sqrt_eval; lra.
Qed.

Lemma kickoff_separation :
  calculateSeparation (F:=R) [spawn_human; spawn_bot] 1 spawn_bot
                      [0]%nat [1]%nat false = vec2 0 0.
Proof.
  unfold calculateSeparation, spawn_human, spawn_bot.
  cbn [app fold_left].
  unfold separation_step. cbn [lookup list_lookup Nat.eqb].
  unfold ARENA_HEIGHT. Rscene.
  Rsqrt 400. Rdecide.
  cbn [negb orb andb fst snd Nat.ltb Nat.leb]. f_equal; lra.
Qed.

(** For the bot of a fresh 1v1 World at the kick-off, the human player 400
    away: no separation force and no fine-tuning, and the direction
    returned has length 1. *)
Lemma getDesiredDirection_unit_or_zero_witness :
  [spawn_human; spawn_bot] !! 1%nat = Some (spawn_bot (F:=R))
  /\ exists v,
       getDesiredDirection R_Math (1 / 2) [spawn_human; spawn_bot] 1
                           (ballAt 450 270) 0 [0]%nat [1]%nat false (Some OneVsOne)
       = Some v
       /\ vec2Length v = 1.
Proof.
  split; [reflexivity|].
  destruct (getDesiredDirection_unit_or_zero R_Math (1 / 2) [spawn_human; spawn_bot] 1
              spawn_bot (ballAt 450 270) 0 [0]%nat [1]%nat false (Some OneVsOne)
              eq_refl) as (v & Hv & _ & _ & Hplain).
  exists v. split; [exact Hv|].
  apply Hplain; [exact kickoff_separation | left; reflexivity].
Defined.

(** A pass in [pass_world]: the teammate, with the Ball at its feet, passes
    to the human player 100 ahead of it. *)
Lemma pass_to_human :
  snd (World_tryPass R_Math 1 (pass_world (F:=R))) = Some 0%nat.
Proof.
  set (w := pass_world).
  assert (Hps : players w = [playerAt 400 270 true; playerAt 300 270 true;
                             playerAt 650 270 false; playerAt 600 190 false])
    by reflexivity.
  assert (Hht : humanTeam w = [0; 1]%nat) by reflexivity.
  assert (Hb : position (ball_entity (ball w)) = vec2 (num 320) (num 270))
    by reflexivity.
  assert (Hfr : isFrozen (ball w) = false) by reflexivity.
  clearbody w.
  unfold World_tryPass. rewrite Hps, Hht, Hb, Hfr.
  cbn [lookup list_lookup existsb Nat.eqb orb List.filter negb andb length].
  unfold KICK_RADIUS, ARENA_WIDTH, ARENA_HEIGHT, KICK_FORCE.
  Rscene.
  cbn [negb orb andb length List.filter Nat.eqb].
  Rsqrt 20. Rsqrt 100. Rdecide. cbn [negb orb andb snd]. reflexivity.
Qed.

(** For the pass above. *)
Lemma tryPass_receiver_witness :
  snd (World_tryPass R_Math 1 (pass_world (F:=R))) = Some 0%nat
  /\ receiver_ok (F:=R) pass_world 1 0.
Proof.
  split; [exact pass_to_human|].
  exact (proj1 (tryPass_receiver R_Math 1 pass_world) 0%nat pass_to_human).
Defined.

End Exact.

(** * Further properties of the code *)
Section ExactUtils.
Local Open Scope R_scope.
Local Abbreviation sqrt := R_sqrt.sqrt.

Lemma vec2Length_nonneg (v : Vec2 R) : 0 <= vec2Length v.
Proof. apply sqrt_pos. Qed.

Lemma vec2Length_sqr (v : Vec2 R) : vec2Length v * vec2Length v = x v * x v + y v * y v.
Proof. unfold vec2Length. Rops. apply sqrt_sqrt, sqrt_sum_squares_nonneg. Qed.

Lemma normalize_long (v : Vec2 R) :
  1 / 10000 <= vec2Length v ->
  vec2Normalize v = vec2 (x v * (1 / vec2Length v)) (y v * (1 / vec2Length v))
  /\ vec2Length (vec2Normalize v) = 1.
Proof.
  intros Hlen.
  assert (E : vec2Normalize v = vec2 (x v * (1 / vec2Length v)) (y v * (1 / vec2Length v))).
  { unfold vec2Normalize, vec2Scale, vec2Zero. Rops.
    rewrite Rltb_false by lra. f_equal; lra. }
  split; [exact E|]. rewrite E.
  unfold vec2Length at 1. Rops. cbn [x y].
  assert (Hk : 0 <= 1 / vec2Length v)
    by (apply Rmult_le_pos; [lra | left; apply Rinv_0_lt_compat; lra]).
  rewrite sqrt_scaled by exact Hk.
  change (sqrt (x v * x v + y v * y v)) with (vec2Length v). field. lra.
Qed.

Lemma normalize_short (v : Vec2 R) :
  vec2Length v < 1 / 10000 -> vec2Normalize v = vec2 0 0.
Proof.
  intros Hlen. unfold vec2Normalize, vec2Zero. Rops.
  rewrite Rltb_true by lra. f_equal; lra.
Qed.

(** X1.  [vec2Normalize] returns the zero vector for a vector shorter than
    0.0001, and otherwise a vector of length 1 with the same direction:
    scaled back by the original length it is the original vector. *)
Theorem vec2Normalize_exact (v : Vec2 R) :
  (vec2Length v < 1 / 10000 -> vec2Normalize v = vec2 0 0)
  /\ (1 / 10000 <= vec2Length v ->
      vec2Length (vec2Normalize v) = 1
      /\ vec2Scale (vec2Normalize v) (vec2Length v) = v).
Proof.
  split; [apply normalize_short|]. intros Hlen.
  destruct (normalize_long v Hlen) as [E Hunit]. split; [exact Hunit|].
  rewrite E. unfold vec2Scale. Rops. cbn [x y]. destruct v as [vx vy]. cbn [x y].
  f_equal; field; lra.
Qed.

(** X2.  [clamp(value, min, max)] lies in [min, max] whenever
    [min <= max], is [value] itself when that is in range, and is the
    nearer bound when it is not; with crossed bounds ([max <= min]) it is
    always [min]. *)
Theorem clamp_range (value min max : R) :
  (min <= max -> min <= clamp value min max <= max)
  /\ (min <= value <= max -> clamp value min max = value)
  /\ (value <= min -> clamp value min max = min)
  /\ (min <= max <= value -> clamp value min max = max)
  /\ (max <= min -> clamp value min max = min).
Proof.
  unfold clamp. Rops. unfold Rmax, Rmin.
  repeat split; intros; destruct (Rle_dec max value); destruct (Rle_dec min _); lra.
Qed.

(** X3.  [vec2Distance] is symmetric and not negative, its square is
    [vec2DistanceSq], and it is 0 exactly for equal points. *)
Theorem vec2Distance_metric (a b : Vec2 R) :
  vec2Distance a b = vec2Distance b a
  /\ 0 <= vec2Distance a b
  /\ vec2Distance a b * vec2Distance a b = vec2DistanceSq a b
  /\ (vec2Distance a b = 0 <-> a = b).
Proof.
  assert (Hsq : vec2Distance a b * vec2Distance a b = vec2DistanceSq a b).
  { unfold vec2Distance, vec2DistanceSq, vec2LengthSq. rewrite vec2Length_sqr. reflexivity. }
  split; [|split; [|split]].
  - unfold vec2Distance, vec2Length, vec2Sub. Rops. cbn [x y]. f_equal. ring.
  - apply vec2Length_nonneg.
  - exact Hsq.
  - unfold vec2DistanceSq, vec2LengthSq, vec2Sub in Hsq. Rops. cbn [x y] in Hsq.
    split.
    + intros H0. rewrite H0 in Hsq. destruct a as [ax ay], b as [bx by_]. cbn [x y] in *.
      pose proof (Rle_0_sqr (ax - bx)) as Hx. pose proof (Rle_0_sqr (ay - by_)) as Hy.
      unfold Rsqr in Hx, Hy.
      assert (Hx0 : (ax - bx) * (ax - bx) = 0) by lra.
      assert (Hy0 : (ay - by_) * (ay - by_) = 0) by lra.
      apply Rsqr_0_uniq in Hx0. apply Rsqr_0_uniq in Hy0. f_equal; lra.
    + intros ->. assert (H : vec2Distance b b * vec2Distance b b = 0) by (rewrite Hsq; ring).
      pose proof (vec2Length_nonneg (vec2Sub b b)). unfold vec2Distance in *. nra.
Qed.

End ExactUtils.

Section ExactEntities.
Local Open Scope R_scope.
Local Abbreviation sqrt := R_sqrt.sqrt.

(** X4.  For damping and [maxSpeed] not negative, the speed after
    [Entity.update] is the smaller of [damping * speed before] and
    [maxSpeed], whatever the time step. *)
Theorem Entity_update_speed_law (dt : R) (e : Entity R) :
  0 <= damping e -> 0 <= maxSpeed e ->
  vec2Length (velocity (Entity_update dt e))
  = Rmin (damping e * vec2Length (velocity e)) (maxSpeed e).
Proof.
  intros Hd Hmax. unfold Entity_update, vec2Length. Rops.
  rewrite (sqrt_scaled (x (velocity e)) (y (velocity e)) (damping e) Hd).
  set (len := sqrt (x (velocity e) * x (velocity e) + y (velocity e) * y (velocity e))).
  destruct (Rltb (maxSpeed e) (damping e * len)) eqn:Hcmp; cbn [velocity x y].
  - apply Rltb_spec in Hcmp.
    assert (Hk : 0 <= maxSpeed e / (damping e * len))
      by (apply Rmult_le_pos; [lra | left; apply Rinv_0_lt_compat; lra]).
    replace (x (velocity e) * damping e * (maxSpeed e / (damping e * len))
             * (x (velocity e) * damping e * (maxSpeed e / (damping e * len)))
             + y (velocity e) * damping e * (maxSpeed e / (damping e * len))
               * (y (velocity e) * damping e * (maxSpeed e / (damping e * len))))
      with (x (velocity e) * (damping e * (maxSpeed e / (damping e * len)))
            * (x (velocity e) * (damping e * (maxSpeed e / (damping e * len))))
            + y (velocity e) * (damping e * (maxSpeed e / (damping e * len)))
              * (y (velocity e) * (damping e * (maxSpeed e / (damping e * len))))) by ring.
    rewrite sqrt_scaled by (apply Rmult_le_pos; lra). fold len.
    rewrite Rmin_right by lra.
    assert (Hd0 : damping e <> 0) by (intros E; rewrite E in Hcmp; lra).
    assert (Hl0 : len <> 0) by (intros E; rewrite E in Hcmp; lra).
    field. split; assumption.
  - unfold Rltb in Hcmp. destruct (Rlt_dec _ _); [discriminate|].
    rewrite sqrt_scaled by exact Hd. fold len. rewrite Rmin_left by lra. reflexivity.
Qed.

Lemma Entity_update_speed_law_witness :
  0 <= damping (F:=R) overlapping_a /\ 0 <= maxSpeed (F:=R) overlapping_a
  /\ vec2Length (velocity (Entity_update (1 / 60) (overlapping_a (F:=R))))
     = Rmin (damping overlapping_a * vec2Length (velocity (overlapping_a (F:=R))))
            (maxSpeed overlapping_a).
Proof.
  assert (Hd : 0 <= damping (F:=R) overlapping_a)
    by (unfold overlapping_a; Rscene; unfold PLAYER_DAMPING; Rops; lra).
  assert (Hm : 0 <= maxSpeed (F:=R) overlapping_a)
    by (unfold overlapping_a; Rscene; unfold PLAYER_MAX_SPEED; Rops; lra).
  split; [exact Hd|]. split; [exact Hm|].
  exact (Entity_update_speed_law (1 / 60) overlapping_a Hd Hm).
Defined.

Lemma invMass_static (e : Entity R) : mass e <= 0 -> invMass e = 0.
Proof. intros H. unfold invMass. Rops. rewrite Rltb_false by lra. lra. Qed.

Lemma invMass_positive (e : Entity R) : 0 < mass e -> invMass e = / mass e /\ 0 < invMass e.
Proof.
  intros H. unfold invMass. Rops. rewrite Rltb_true by lra.
  split; [field; lra|]. replace (1 * / 1 / mass e) with (/ mass e) by (field; lra).
  apply Rinv_0_lt_compat, H.
Qed.

Lemma invMass_nonneg (e : Entity R) : 0 <= invMass e.
Proof.
  destruct (Rlt_dec 0 (mass e)).
  - left. apply invMass_positive. assumption.
  - right. symmetry. apply invMass_static. lra.
Qed.

End ExactEntities.

Section ExactPhysics.
Local Open Scope R_scope.
Local Abbreviation sqrt := R_sqrt.sqrt.

(** X5.  For radii whose sum is not negative, [detectCircleCollision]
    reports nothing exactly when the centres are at least the sum of the
    radii apart; a collision it reports holds the two entities in the
    order given, a penetration that is positive and equal to the sum of
    the radii minus the centre distance, and a normal of length 1. *)
Theorem detect_characterisation (a b : Entity R) :
  0 <= radius a + radius b ->
  (detectCircleCollision a b = None <-> radius a + radius b <= centreDistance a b)
  /\ forall c, detectCircleCollision a b = Some c ->
       entityA c = a /\ entityB c = b
       /\ penetration c = radius a + radius b - centreDistance a b
       /\ 0 < penetration c
       /\ vec2Length (normal c) = 1.
Proof.
  intros Hr. pose proof (centreDistance_nonneg a b) as Hd.
  split.
  - rewrite detect_exact.
    destruct (Rleb _ _) eqn:Hcmp.
    + apply Rleb_spec in Hcmp. split; [intros _; nra | reflexivity].
    + split; [discriminate|]. intros Hfar.
      rewrite Rleb_true in Hcmp by nra. discriminate.
  - intros c Hdet. pose proof (detect_normal_unit a b c Hdet) as Hunit.
    assert (Hlen : vec2Length (normal c) = 1)
      by (unfold vec2Length; Rops; rewrite Hunit; apply sqrt_1).
    clear Hunit. revert Hlen Hdet. rewrite detect_exact.
    destruct (Rleb _ _) eqn:Hcmp; [intros _; discriminate|]. intros Hlen [= <-].
    cbn [entityA entityB penetration].
    assert (Hlt : centreDistance a b < radius a + radius b).
    { unfold Rleb in Hcmp. destruct (Rle_dec _ _); [discriminate|]. nra. }
    repeat split; lra.
Qed.

Lemma detect_characterisation_witness :
  0 <= radius (F:=R) overlapping_a + radius overlapping_b
  /\ (detectCircleCollision (F:=R) overlapping_a overlapping_b = None
      <-> radius overlapping_a + radius overlapping_b
          <= centreDistance overlapping_a overlapping_b).
Proof.
  assert (Hr : 0 <= radius (F:=R) overlapping_a + radius overlapping_b)
    by (unfold overlapping_a, overlapping_b; Rscene;
        unfold PLAYER_RADIUS, BALL_RADIUS; Rops; lra).
  split; [exact Hr|].
  exact (proj1 (detect_characterisation overlapping_a overlapping_b Hr)).
Defined.

Ltac resolve_cases :=
  repeat match goal with
         | |- context [if Rltb ?u ?v then _ else _] => destruct (Rltb u v) eqn:?
         | |- context [if Reqb ?u ?v then _ else _] => destruct (Reqb u v) eqn:?
         end;
  repeat match goal with
         | |- context [invMass (set_position ?e ?p)] =>
             change (invMass (set_position e p)) with (invMass e)
         end;
  cbn [fst snd velocity position mass restitution radius set_position set_velocity x y].

(** X6.  [resolveCircleCollision] conserves momentum: for two entities of
    positive mass the masses are unchanged and the sum of mass times
    velocity is the same after as before, on both axes. *)
Theorem resolve_momentum (c : Collision R) (dt : R) :
  0 < mass (entityA c) -> 0 < mass (entityB c) ->
  let a' := fst (resolveCircleCollision c dt) in
  let b' := snd (resolveCircleCollision c dt) in
  mass a' = mass (entityA c) /\ mass b' = mass (entityB c)
  /\ mass a' * x (velocity a') + mass b' * x (velocity b')
     = mass (entityA c) * x (velocity (entityA c))
       + mass (entityB c) * x (velocity (entityB c))
  /\ mass a' * y (velocity a') + mass b' * y (velocity b')
     = mass (entityA c) * y (velocity (entityA c))
       + mass (entityB c) * y (velocity (entityB c)).
Proof.
  intros Ha Hb.
  destruct (invMass_positive _ Ha) as [HiA HpA].
  destruct (invMass_positive _ Hb) as [HiB HpB].
  unfold resolveCircleCollision, vec2Sub, vec2Dot, vec2Scale, applyImpulse,
    COLLISION_SLOP, POSITION_CORRECTION_PERCENT.
  Rops. cbv zeta.
  resolve_cases; rewrite ?HiA, ?HiB; repeat split; try reflexivity; field; lra.
Qed.

End ExactPhysics.

Section ExactPhysics2.
Local Open Scope R_scope.
Local Abbreviation sqrt := R_sqrt.sqrt.

Lemma resolve_momentum_witness :
  0 < mass (entityA (F:=R) puck_collision) /\ 0 < mass (entityB (F:=R) puck_collision)
  /\ mass (fst (resolveCircleCollision puck_collision (1 / 60)))
     * x (velocity (fst (resolveCircleCollision puck_collision (1 / 60))))
     + mass (snd (resolveCircleCollision puck_collision (1 / 60)))
       * x (velocity (snd (resolveCircleCollision puck_collision (1 / 60))))
     = mass (entityA puck_collision) * x (velocity (entityA puck_collision))
       + mass (entityB puck_collision) * x (velocity (entityB puck_collision)).
Proof.
  assert (Ha : 0 < mass (entityA (F:=R) puck_collision))
    by (unfold puck_collision, puck_a; cbn [entityA]; Rscene; lra).
  assert (Hb : 0 < mass (entityB (F:=R) puck_collision))
    by (unfold puck_collision, puck_b; cbn [entityB]; Rscene; lra).
  split; [exact Ha|]. split; [exact Hb|].
  exact (proj1 (proj2 (proj2 (resolve_momentum puck_collision (1 / 60) Ha Hb)))).
Defined.

Lemma Reqb_false (a b : R) : a <> b -> Reqb a b = false.
Proof. intros H. unfold Reqb. destruct (Req_dec_T a b); [contradiction | reflexivity]. Qed.

(** X7.  For a detected collision in which at least one entity has
    positive mass: when the entities are closing (relative velocity along
    the normal not positive), [resolveCircleCollision] leaves them with
    relative normal velocity [-e] times the one before, [e] the smaller
    of the two restitutions; when they are separating it leaves the
    relative normal velocity alone. *)
Theorem resolve_restitution (a b : Entity R) (c : Collision R) (dt : R) :
  detectCircleCollision a b = Some c ->
  0 < mass a \/ 0 < mass b ->
  let a' := fst (resolveCircleCollision c dt) in
  let b' := snd (resolveCircleCollision c dt) in
  let vn := vec2Dot (vec2Sub (velocity b) (velocity a)) (normal c) in
  let vn' := vec2Dot (vec2Sub (velocity b') (velocity a')) (normal c) in
  (vn <= 0 -> vn' = - Rmin (restitution a) (restitution b) * vn)
  /\ (0 < vn -> vn' = vn).
Proof.
  intros Hdet Hmass.
  pose proof (detect_normal_unit a b c Hdet) as Hunit.
  assert (HAB : entityA c = a /\ entityB c = b).
  { revert Hdet. rewrite detect_exact. destruct (Rleb _ _); [discriminate|].
    intros [= <-]. auto. }
  destruct HAB as [EA EB].
  pose proof (invMass_nonneg a) as HA0. pose proof (invMass_nonneg b) as HB0.
  assert (Hsum : 0 < invMass a + invMass b).
  { destruct Hmass as [H | H]; apply invMass_positive in H; lra. }
  unfold resolveCircleCollision, vec2Sub, vec2Dot, vec2Scale, applyImpulse,
    COLLISION_SLOP, POSITION_CORRECTION_PERCENT.
  Rops. cbv zeta. rewrite EA, EB.
  assert (Hcorr : Rltb (0 * / 1) (invMass a + invMass b) = true)
    by (apply Rltb_true; lra).
  assert (Hnz : Reqb (invMass a + invMass b) (0 * / 1) = false)
    by (apply Reqb_false; intros E; lra).
  rewrite Hcorr.
  set (e := Rmin (restitution a) (restitution b)).
  split; intros Hvn; cbn [x y] in Hvn.
  - destruct (Rltb (1 * / 10) (penetration c));
      repeat match goal with
             | |- context [invMass (set_position ?u ?p)] =>
                 change (invMass (set_position u p)) with (invMass u)
             end;
      cbn [velocity restitution set_position x y]; fold e;
      (rewrite Rltb_false by lra); rewrite Hnz;
      cbn [fst snd velocity set_velocity x y];
      set (ia := invMass a) in *; set (ib := invMass b) in *;
      set (nx := x (normal c)) in *; set (ny := y (normal c)) in *;
      set (dvx := x (velocity b) - x (velocity a)) in *;
      set (dvy := y (velocity b) - y (velocity a)) in *;
      match goal with
      | |- ?lhs = _ =>
          replace lhs with ((dvx * nx + dvy * ny)
                            + - (1 + e) * (dvx * nx + dvy * ny) * (nx * nx + ny * ny))
            by (unfold dvx, dvy; field; lra)
      end;
      rewrite Hunit; ring.
  - destruct (Rltb (1 * / 10) (penetration c));
      cbn [velocity restitution set_position x y];
      (rewrite Rltb_true by lra);
      cbn [fst snd velocity set_position x y]; reflexivity.
Qed.

End ExactPhysics2.

Section ExactPhysics3.
Local Open Scope R_scope.
Local Abbreviation sqrt := R_sqrt.sqrt.

(** X8.  An entity whose mass is not positive is static:
    [resolveCircleCollision] returns it exactly as it was (position and
    velocity included), on either side of the collision. *)
Theorem resolve_static (c : Collision R) (dt : R) :
  (mass (entityA c) <= 0 -> fst (resolveCircleCollision c dt) = entityA c)
  /\ (mass (entityB c) <= 0 -> snd (resolveCircleCollision c dt) = entityB c).
Proof.
  split; intros Hm; apply invMass_static in Hm;
    unfold resolveCircleCollision, vec2Sub, vec2Dot, vec2Scale, applyImpulse,
      COLLISION_SLOP, POSITION_CORRECTION_PERCENT;
    Rops; cbv zeta;
    repeat match goal with
           | |- context [if Rltb ?u ?v then _ else _] => destruct (Rltb u v)
           | |- context [if Reqb ?u ?v then _ else _] => destruct (Reqb u v)
           end;
    repeat match goal with
           | |- context [invMass (set_position ?e ?p)] =>
               change (invMass (set_position e p)) with (invMass e)
           end;
    cbn [fst snd velocity position set_position set_velocity x y];
    rewrite ?Hm;
    match goal with
    | |- _ = ?e => destruct e as [t [px py] [vx vy] r m re ms d]
    end;
    cbn [velocity position type radius mass restitution maxSpeed damping x y];
    unfold set_position, set_velocity;
    cbn [velocity position type radius mass restitution maxSpeed damping x y];
    repeat f_equal; unfold Rdiv; ring.
Qed.

Lemma wall_detected (e : Entity R) (c : WallCollision R) :
  detectWallCollision e = Some c ->
  wall_entity c = e /\ 0 < wall_penetration c
  /\ (wall_normal c = vec2 1 0 \/ wall_normal c = vec2 (-1) 0
      \/ wall_normal c = vec2 0 1 \/ wall_normal c = vec2 0 (-1)).
Proof.
  unfold detectWallCollision, ARENA_WIDTH, ARENA_HEIGHT, GOAL_HEIGHT, WALL_THICKNESS.
  Rops. cbv zeta.
  repeat match goal with
         | |- context [if ?g then _ else _] => destruct g eqn:?
         end;
    try discriminate; intros [= <-]; cbn [wall_entity wall_penetration wall_normal];
    (split; [reflexivity|]);
    (split; [match goal with H : Rltb _ _ = true |- _ => apply Rltb_spec in H; lra end|]).
  all: try (left; f_equal; lra).
  all: try (right; left; f_equal; lra).
  all: try (right; right; left; f_equal; lra).
  all: try (right; right; right; f_equal; lra).
Qed.

End ExactPhysics3.

Section ExactWalls.
Local Open Scope R_scope.
Local Abbreviation sqrt := R_sqrt.sqrt.


Ltac Rcases :=
  repeat match goal with
         | |- context [Rltb ?a ?b] =>
             let H := fresh "Hc" in
             destruct (Rltb a b) eqn:H;
             [apply Rltb_spec in H | apply Rltb_false_inv in H]
         end.

Lemma vec2_eq (a a' b b' : R) : a = a' -> b = b' -> vec2 a b = vec2 a' b'.
Proof. intros -> ->. reflexivity. Qed.

Lemma wall_collision_eq (e : Entity R) (n n' : Vec2 R) (p p' : R) :
  n = n' -> p = p' ->
  Some (mkWallCollision e n p) = Some (mkWallCollision e n' p').
Proof. intros -> ->. reflexivity. Qed.

(** X9.  For an entity clear of the top and bottom walls: the Ball with
    [y] in the goal mouth [190, 350] never collides with a side wall,
    wherever it is; a player, or the Ball outside the mouth, collides with
    the right wall when its right edge is past 880 (normal (-1,0)),
    otherwise with the left wall when its left edge is before 20 (normal
    (1,0)), and with nothing when neither is the case. *)
Theorem wall_goal_opening (e : Entity R) :
  let px := x (position e) in
  let py := y (position e) in
  let r := radius e in
  20 <= py - r -> py + r <= 520 ->
  (type e = EntityType_Ball -> 190 <= py <= 350 -> detectWallCollision e = None)
  /\ (type e = EntityType_Player \/ py < 190 \/ 350 < py ->
      (880 < px + r ->
       detectWallCollision e = Some (mkWallCollision e (vec2 (-1) 0) (px + r - 880)))
      /\ (px + r <= 880 -> px - r < 20 ->
          detectWallCollision e = Some (mkWallCollision e (vec2 1 0) (20 - (px - r))))
      /\ (px + r <= 880 -> 20 <= px - r -> detectWallCollision e = None)).
Proof.
  intros px py r Htop Hbottom.
  unfold detectWallCollision, ARENA_WIDTH, ARENA_HEIGHT, GOAL_HEIGHT, WALL_THICKNESS.
  Rops. cbv zeta. fold px py r.
  split.
  - intros -> Hmouth. repeat (Rcases; cbn [orb andb]); first [reflexivity | exfalso; lra].
  - intros Hwall. repeat split; intros; destruct (type e) eqn:Ht;
      repeat (Rcases; cbn [orb andb]);
      first [ reflexivity
            | exfalso; lra
            | exfalso; destruct Hwall as [Hw | [Hw | Hw]]; [congruence | lra | lra]
            | apply wall_collision_eq; [apply vec2_eq; lra | lra] ].
Qed.

Lemma wall_goal_opening_witness :
  20 <= y (position (F:=R) overlapping_b) - radius overlapping_b
  /\ y (position (F:=R) overlapping_b) + radius overlapping_b <= 520
  /\ detectWallCollision (F:=R) overlapping_b = None.
Proof.
  assert (H1 : 20 <= y (position (F:=R) overlapping_b) - radius overlapping_b)
    by (unfold overlapping_b; Rscene; unfold BALL_RADIUS; Rops; lra).
  assert (H2 : y (position (F:=R) overlapping_b) + radius overlapping_b <= 520)
    by (unfold overlapping_b; Rscene; unfold BALL_RADIUS; Rops; lra).
  split; [exact H1|]. split; [exact H2|].
  apply (proj1 (wall_goal_opening overlapping_b H1 H2)); [reflexivity|].
  unfold overlapping_b; Rscene; lra.
Defined.

(** X10.  [resolveWallCollision] of a detected wall collision: an entity
    moving into the wall ends with normal velocity [(1 - 2 * restitution)]
    times the one before (so it still moves into the wall when its
    restitution is under 0.5); one not moving into it keeps its velocity;
    the component along the wall never changes; and the position moves
    along the normal by 0.8 of the penetration when that exceeds 0.1, and
    not at all otherwise. *)
Theorem wall_reflection (e : Entity R) (c : WallCollision R) (dt : R) :
  detectWallCollision e = Some c ->
  let e' := resolveWallCollision c dt in
  let n := wall_normal c in
  let vn := vec2Dot (velocity e) n in
  (vn < 0 -> vec2Dot (velocity e') n = (1 - 2 * restitution e) * vn)
  /\ (0 <= vn -> velocity e' = velocity e)
  /\ x (velocity e') * y n - y (velocity e') * x n
     = x (velocity e) * y n - y (velocity e) * x n
  /\ (1 / 10 < wall_penetration c ->
      position e' = vec2Add (position e) (vec2Scale n (8 / 10 * wall_penetration c)))
  /\ (wall_penetration c <= 1 / 10 -> position e' = position e).
Proof.
  intros Hdet. destruct (wall_detected e c Hdet) as (He & Hpen & Hn).
  destruct c as [ce cn cp]. cbn [wall_entity wall_normal wall_penetration] in *. subst ce.
  unfold resolveWallCollision, vec2Dot, vec2Add, vec2Scale,
    COLLISION_SLOP, POSITION_CORRECTION_PERCENT.
  cbn [wall_entity wall_normal wall_penetration]. Rops. cbv zeta.
  destruct Hn as [-> | [-> | [-> | ->]]]; cbn [x y];
    (repeat split; intros; Rcases;
     cbn [velocity position restitution set_position set_velocity x y] in *;
     try (exfalso; lra); try reflexivity;
     try (apply vec2_eq; field); try field;
     try (destruct (velocity e); apply vec2_eq; cbn [x y]; field)).
Qed.

End ExactWalls.


Section Frame.
Context {F : Type} {NF : Number F}.

Lemma map_alter_same {A B} (g : A -> B) (f : A -> A) (h : nat) (l : list A) :
  (forall a, l !! h = Some a -> g (f a) = g a) ->
  map g (alter f h l) = map g l.
Proof.
  revert h. induction l as [|a l IH]; intros h Hf; [reflexivity|].
  destruct h as [|h]; simpl.
  - f_equal. apply Hf. reflexivity.
  - f_equal. apply IH. intros a' Ha'. apply Hf. exact Ha'.
Qed.

Lemma lookup_map {A B} (g : A -> B) (l : list A) (h : nat) :
  map g l !! h = g <$> l !! h.
Proof.
  revert h. induction l as [|a l IH]; intros [|h]; simpl; try reflexivity. apply IH.
Qed.

Lemma getEntity_consts (w w' : World F) (r : EntityRef) :
  world_consts w' = world_consts w ->
  entity_consts <$> getEntity w' r = entity_consts <$> getEntity w r.
Proof.
  intros E. unfold world_consts, world_static in E.
  assert (Eps : map player_consts (players w') = map player_consts (players w))
    by congruence.
  assert (Eball : entity_consts (ball_entity (ball w'))
                  = entity_consts (ball_entity (ball w))) by congruence.
  clear E.
  destruct r as [h|]; simpl.
  - assert (Eh : map player_consts (players w') !! h = map player_consts (players w) !! h)
      by (rewrite Eps; reflexivity).
    rewrite !lookup_map in Eh.
    destruct (players w' !! h) as [p'|], (players w !! h) as [p|]; simpl in *;
      try discriminate; [|reflexivity].
    f_equal. unfold player_consts in Eh. congruence.
  - rewrite Eball. reflexivity.
Qed.

Lemma setEntity_consts (w : World F) (r : EntityRef) (e : Entity F) :
  (forall e0, getEntity w r = Some e0 -> entity_consts e = entity_consts e0) ->
  world_consts (setEntity w r e) = world_consts w.
Proof.
  intros He. destruct r as [h|]; unfold world_consts, world_static; simpl.
  - rewrite (map_alter_same player_consts); [reflexivity|].
    intros p Hp. unfold player_consts. simpl.
    rewrite (He (player_entity p)); [reflexivity|]. simpl. rewrite Hp. reflexivity.
  - rewrite (He (ball_entity (ball w))); reflexivity.
Qed.

Lemma resolveCircle_consts (c : Collision F) (dt : F) :
  entity_consts (fst (resolveCircleCollision c dt)) = entity_consts (entityA c)
  /\ entity_consts (snd (resolveCircleCollision c dt)) = entity_consts (entityB c).
Proof.
  unfold resolveCircleCollision.
  repeat match goal with
         | |- context [if ?g then _ else _] => destruct g
         end; split; reflexivity.
Qed.

Lemma detect_entities (a b : Entity F) (c : Collision F) :
  detectCircleCollision a b = Some c -> entityA c = a /\ entityB c = b.
Proof.
  unfold detectCircleCollision.
  destruct (leb _ _); [discriminate|]. intros [= <-]. split; reflexivity.
Qed.

Lemma resolveWall_consts (c : WallCollision F) (dt : F) :
  entity_consts (resolveWallCollision c dt) = entity_consts (wall_entity c).
Proof.
  unfold resolveWallCollision.
  repeat match goal with
         | |- context [if ?g then _ else _] => destruct g
         end; reflexivity.
Qed.

Lemma detectWall_entity (e : Entity F) (c : WallCollision F) :
  detectWallCollision e = Some c -> wall_entity c = e.
Proof.
  unfold detectWallCollision.
  repeat match goal with
         | |- context [if ?g then _ else _] => destruct g
         end; try discriminate; intros [= <-]; reflexivity.
Qed.

Lemma resolvePair_consts (dt : F) (a b : EntityRef) (w : World F) :
  world_consts (resolvePair dt a b w) = world_consts w.
Proof.
  unfold resolvePair.
  destruct (getEntity w a) as [ea|] eqn:Ha; [|reflexivity].
  destruct (getEntity w b) as [eb|] eqn:Hb; [|reflexivity].
  destruct (detectCircleCollision ea eb) as [c|] eqn:Hdet; [|reflexivity].
  destruct (detect_entities _ _ _ Hdet) as [EA EB].
  destruct (resolveCircle_consts c dt) as [CA CB]. rewrite EA in CA. rewrite EB in CB.
  destruct (resolveCircleCollision c dt) as [ea' eb']. cbn [fst snd] in CA, CB.
  assert (E1 : world_consts (setEntity w a ea') = world_consts w).
  { apply setEntity_consts. intros e0 He0. rewrite Ha in He0. injection He0 as <-. exact CA. }
  rewrite setEntity_consts; [exact E1|].
  intros e0 He0.
  pose proof (getEntity_consts _ _ b E1) as Eb. rewrite He0, Hb in Eb.
  simpl in Eb. congruence.
Qed.

Lemma fold_left_consts {A} (step : World F -> A -> World F) (l : list A) (w : World F) :
  (forall w a, world_consts (step w a) = world_consts w) ->
  world_consts (fold_left step l w) = world_consts w.
Proof.
  intros Hstep. revert w. induction l as [|a l IH]; intros w; simpl; [reflexivity|].
  rewrite IH. apply Hstep.
Qed.

Lemma resolvePairs_consts (dt : F) (entities : list EntityRef) (w : World F) :
  world_consts (resolvePairs dt entities w) = world_consts w.
Proof.
  revert w. induction entities as [|a rest IH]; intros w; simpl; [reflexivity|].
  rewrite IH. apply fold_left_consts. intros w' b. apply resolvePair_consts.
Qed.

Lemma resolveWall_world_consts (dt : F) (w : World F) (r : EntityRef) :
  world_consts (resolveWall dt w r) = world_consts w.
Proof.
  unfold resolveWall.
  destruct (getEntity w r) as [e|] eqn:He; [|reflexivity].
  destruct (detectWallCollision e) as [c|] eqn:Hdet; [|reflexivity].
  apply setEntity_consts. intros e0 He0. rewrite He in He0. injection He0 as <-.
  rewrite resolveWall_consts, (detectWall_entity _ _ Hdet). reflexivity.
Qed.

(** X13.  [World.resolveCollisions] only moves things: every player's and
    the Ball's type, radius, mass, restitution, maxSpeed and damping, the
    players' team flag and input, the rosters, the Ball's frozen flag and
    freeze timer, the score, the kickoff timer, the pause flag and the
    mode are what they were. *)
Theorem resolveCollisions_frame (dt : F) (w : World F) :
  world_consts (World_resolveCollisions dt w) = world_consts w.
Proof.
  unfold World_resolveCollisions.
  rewrite fold_left_consts by (intros; apply resolveWall_world_consts).
  apply resolvePairs_consts.
Qed.

End Frame.

Section UpdateFrame.
Context {F : Type} {NF : Number F}.

Lemma Entity_update_consts (dt : F) (e : Entity F) :
  entity_consts (Entity_update dt e) = entity_consts e.
Proof. reflexivity. Qed.

Lemma Player_update_consts (dt k : F) (p : Player F) :
  player_consts (Player_update dt k p) = player_consts p.
Proof. reflexivity. Qed.

Lemma fold_alter_consts (f : nat -> Player F -> Player F) (g : nat -> bool)
    (hs : list nat) (ps : list (Player F)) :
  (forall h p, player_consts (f h p) = player_consts p) ->
  map player_consts (fold_left (fun ps h => if g h then alter (f h) h ps else ps) hs ps)
  = map player_consts ps.
Proof.
  intros Hf. revert ps. induction hs as [|h hs IH]; intros ps; simpl; [reflexivity|].
  rewrite IH. destruct (g h); [|reflexivity].
  apply map_alter_same. intros p _. apply Hf.
Qed.

Lemma Ball_update_consts (dt : F) (b : Ball F) :
  entity_consts (ball_entity (Ball_update dt b)) = entity_consts (ball_entity b).
Proof.
  unfold Ball_update. destruct (isFrozen b); [destruct (leb _ _)|]; reflexivity.
Qed.

Lemma updateEntities_static (dt m : F) (w : World F) :
  world_static (World_updateEntities dt m w) = world_static w
  /\ score (World_updateEntities dt m w) = score w.
Proof.
  unfold World_updateEntities, world_static.
  destruct (ltb (num 0) (kickoffFreezeTime w)); cbn [players humanPlayer humanTeam
    botTeam ball isPaused gameMode score set_ball set_players set_kickoffFreezeTime].
  - rewrite Ball_update_consts.
    rewrite (fold_alter_consts (fun _ => Player_update dt m) (fun _ => true))
      by (intros; apply Player_update_consts).
    rewrite (fold_alter_consts (fun _ => Player_update dt (num 1.0))
               (fun h => negb (Nat.eqb h (humanPlayer w))))
      by (intros; apply Player_update_consts).
    rewrite map_alter_same by (intros; apply Player_update_consts).
    destruct (_ && _); split; reflexivity.
  - rewrite Ball_update_consts.
    rewrite (fold_alter_consts (fun _ => Player_update dt m) (fun _ => true))
      by (intros; apply Player_update_consts).
    rewrite (fold_alter_consts (fun _ => Player_update dt (num 1.0))
               (fun h => negb (Nat.eqb h (humanPlayer w))))
      by (intros; apply Player_update_consts).
    rewrite map_alter_same by (intros; apply Player_update_consts).
    split; reflexivity.
Qed.

Lemma resetPlayer_consts (slot : option nat) (pos : Vec2 F) (ps : list (Player F)) :
  map player_consts (resetPlayer slot pos ps) = map player_consts ps.
Proof.
  destruct slot as [h|]; [|reflexivity]. simpl.
  apply map_alter_same. intros p _. reflexivity.
Qed.

Lemma resetKickoff_static (w : World F) :
  world_static (World_resetKickoff w) = world_static w
  /\ score (World_resetKickoff w) = score w.
Proof.
  unfold World_resetKickoff, world_static.
  cbn [players humanPlayer humanTeam botTeam ball isPaused gameMode score].
  split; [|reflexivity].
  destruct (gameMode w); rewrite !resetPlayer_consts; reflexivity.
Qed.

(** X14.  [World.update] never changes a physical constant of a player or
    of the Ball, a player's team flag or input, the rosters, the pause flag
    or the mode; when it returns no side the score is unchanged; and on a
    paused World it changes nothing at all and returns no side. *)
Theorem update_frame (dt m : F) (w : World F) :
  world_static (fst (World_update dt m w)) = world_static w
  /\ (snd (World_update dt m w) = None -> score (fst (World_update dt m w)) = score w)
  /\ (isPaused w = true -> World_update dt m w = (w, None)).
Proof.
  unfold World_update.
  destruct (isPaused w) eqn:Hp; [repeat split|].
  destruct (updateEntities_static dt m w) as [Es Esc].
  destruct (checkGoal _) as [g|]; cbn [fst snd].
  - split; [|split; discriminate].
    rewrite (proj1 (resetKickoff_static _)).
    destruct g; exact Es.
  - pose proof (resolveCollisions_frame dt (World_updateEntities dt m w)) as Ec.
    unfold world_consts in Ec.
    split; [congruence|]. split; [|discriminate].
    intros _. congruence.
Qed.

End UpdateFrame.

Section ExactKick.
Local Open Scope R_scope.
Local Abbreviation sqrt := R_sqrt.sqrt.

Lemma Rleb_false_inv (a b : R) : Rleb a b = false -> b < a.
Proof. unfold Rleb. destruct (Rle_dec a b); [discriminate | lra]. Qed.

Lemma normalize_axis (fx : R) :
  fx = 1 \/ fx = -1 -> vec2Normalize (vec2 fx 0) = vec2 fx 0.
Proof.
  intros Hfx.
  assert (Hlen : vec2Length (vec2 fx 0) = 1).
  { unfold vec2Length. Rops. cbn [x y]. apply sqrt_eval; [lra|].
    destruct Hfx as [-> | ->]; ring. }
  destruct (normalize_long (vec2 fx 0)) as [E _]; [lra|].
  rewrite E, Hlen. cbn [x y]. apply vec2_eq; field.
Qed.

Lemma normalize_axis_gen (fx fz : R) :
  (fx = 1 \/ fx = -1) /\ fz = 0 -> vec2Normalize (vec2 fx fz) = vec2 fx 0.
Proof.
  intros [Hfx ->]. apply normalize_axis, Hfx.
Qed.

(** A player in reach of an unfrozen Ball kicks it, and it leaves at the
    kick force: the direction [tryKick] computes always has length 1. *)
Lemma tryKick_succeeds (player : nat) (w : World R) (p : Player R) :
  players w !! player = Some p ->
  vec2Distance (position (player_entity p)) (position (ball_entity (ball w))) <= 35 ->
  isFrozen (ball w) = false ->
  snd (World_tryKick player w) = true
  /\ vec2Length (velocity (ball_entity (ball (fst (World_tryKick player w))))) = 320.
Proof.
  intros Hp Hd Hf. unfold World_tryKick. rewrite Hp.
  cbv zeta. unfold KICK_RADIUS, KICK_FORCE. Rops. cbn [negb orb andb].
  rewrite Rleb_true by lra. rewrite Hf. cbn [negb andb].
  match goal with
  | |- context [Rltb (1 * / 10) (vec2Length ?d)] =>
      assert (Hunit : vec2Length d = 1)
  end.
  { destruct (Rltb (1 * / 1000) _) eqn:Hin.
    - apply Rltb_spec in Hin. apply normalize_long. unfold vec2Length. Rops. lra.
    - destruct (Rltb (1 * / 1) _) eqn:Hv.
      + apply Rltb_spec in Hv. apply normalize_long. unfold vec2Length. Rops. lra.
      + destruct (isHuman p); apply normalize_long; unfold vec2Length; Rops;
          cbn [x y]; rewrite (sqrt_eval _ 1) by lra; lra. }
  rewrite Hunit, Rltb_true by lra. cbn [fst snd].
  split; [reflexivity|].
  unfold set_ball_velocity.
  cbn [ball set_ball ball_entity velocity set_velocity].
  unfold vec2Length at 1. Rops. cbn [x y].
  rewrite sqrt_scaled by lra.
  unfold vec2Length in Hunit. Rops. rewrite Hunit. lra.
Qed.

(** X17.  In exact arithmetic [tryKick(player)] returns [true] exactly
    when [player] is a Player, the Ball is within the kick radius of 35
    and it is not frozen; and the Ball then leaves at speed 320, the kick
    force. *)
Theorem tryKick_exact (player : nat) (w : World R) :
  (snd (World_tryKick player w) = true <->
   exists p, players w !! player = Some p
     /\ vec2Distance (position (player_entity p)) (position (ball_entity (ball w))) <= 35
     /\ isFrozen (ball w) = false)
  /\ (snd (World_tryKick player w) = true ->
      vec2Length (velocity (ball_entity (ball (fst (World_tryKick player w))))) = 320).
Proof.
  assert (Hinv : snd (World_tryKick player w) = true ->
            exists p, players w !! player = Some p
              /\ vec2Distance (position (player_entity p))
                              (position (ball_entity (ball w))) <= 35
              /\ isFrozen (ball w) = false).
  { unfold World_tryKick.
    destruct (players w !! player) as [p|] eqn:Hp; [|discriminate].
    cbv zeta. unfold KICK_RADIUS. Rops. cbn [negb orb andb].
    destruct (Rleb _ (35 * / 1)) eqn:Hd; cbn [andb]; [|discriminate].
    destruct (isFrozen (ball w)) eqn:Hf; cbn [negb]; [discriminate|].
    intros _. apply Rleb_spec in Hd. exists p.
    split; [reflexivity|]. split; [lra | reflexivity]. }
  split; [split; [exact Hinv|]|].
  - intros (p & Hp & Hd & Hf). apply (tryKick_succeeds player w p Hp Hd Hf).
  - intros Hok. destruct (Hinv Hok) as (p & Hp & Hd & Hf).
    apply (tryKick_succeeds player w p Hp Hd Hf).
Qed.

End ExactKick.

Section ExactKick2.
Local Open Scope R_scope.
Local Abbreviation sqrt := R_sqrt.sqrt.

(** X18.  The direction of a kick, in exact arithmetic, for a player in
    reach of an unfrozen Ball: along the input direction when the input is
    longer than 0.001; otherwise along the player's velocity when its
    speed is over 1; otherwise straight ahead, (320,0) for a player of the
    human team and (-320,0) for a bot. *)
Theorem tryKick_direction (player : nat) (w : World R) (p : Player R) :
  players w !! player = Some p ->
  vec2Distance (position (player_entity p)) (position (ball_entity (ball w))) <= 35 ->
  isFrozen (ball w) = false ->
  let input := inputAcceleration p in
  let v := velocity (player_entity p) in
  let kicked (d : Vec2 R) := (set_ball_velocity w (vec2Scale d 320), true) in
  (1 / 1000 < vec2Length input ->
   World_tryKick player w = kicked (vec2Normalize input))
  /\ (vec2Length input <= 1 / 1000 -> 1 < vec2Length v ->
      World_tryKick player w = kicked (vec2Normalize v))
  /\ (vec2Length input <= 1 / 1000 -> vec2Length v <= 1 ->
      World_tryKick player w = kicked (vec2 (if isHuman p then 1 else -1) 0)).
Proof.
  intros Hp Hd Hf input v kicked.
  destruct (tryKick_succeeds player w p Hp Hd Hf) as [Hok _]. revert Hok.
  unfold World_tryKick. rewrite Hp.
  cbv zeta. unfold KICK_RADIUS, KICK_FORCE. Rops. cbn [negb orb andb].
  rewrite Rleb_true by lra. rewrite Hf. cbn [negb andb].
  unfold vec2Length in *. Rops. fold input v.
  intros Hok. unfold kicked, vec2Scale. Rops.
  repeat split; intros.
  - revert Hok. rewrite (Rltb_true (1 * / 1000)) by lra.
    destruct (Rltb (1 * / 10) _); [|discriminate]. intros _.
    f_equal. f_equal. apply vec2_eq; lra.
  - revert Hok. rewrite (Rltb_false (1 * / 1000)) by lra.
    rewrite (Rltb_true (1 * / 1)) by lra.
    destruct (Rltb (1 * / 10) _); [|discriminate]. intros _.
    f_equal. f_equal. apply vec2_eq; lra.
  - revert Hok. rewrite (Rltb_false (1 * / 1000)) by lra.
    rewrite (Rltb_false (1 * / 1)) by lra.
    destruct (Rltb (1 * / 10) _); [|discriminate]. intros _.
    f_equal. f_equal.
    destruct (isHuman p).
    + rewrite (normalize_axis_gen (1 * / 1) (0 * / 1)) by (split; [left; lra | lra]). apply vec2_eq; cbn [x y]; lra.
    + rewrite (normalize_axis_gen (- (1 * / 1)) (0 * / 1)) by (split; [right; lra | lra]).
      apply vec2_eq; cbn [x y]; lra.
Qed.

End ExactKick2.

Section TryPassFrame.
Context {F : Type} {NF : Number F}.
Variable M : MathLib F.

Lemma pass_frame_refl (w : World F) : pass_frame w w.
Proof. repeat split. Qed.

Lemma pass_frame_ball (w : World F) (v : Vec2 F) : pass_frame w (set_ball_velocity w v).
Proof. repeat split. Qed.

Lemma pass_frame_clamped (w : World F) (h : nat) (pos : Vec2 F) :
  pass_frame w (set_players w
                  (alter (fun q => Player_with_entity q (set_position (player_entity q) pos))
                         h (players w))).
Proof.
  unfold pass_frame, world_consts, world_static.
  cbn [players set_players humanPlayer humanTeam botTeam ball isPaused gameMode score
       kickoffFreezeTime].
  rewrite (map_alter_same player_consts) by (intros; reflexivity).
  rewrite (map_alter_same (fun p => velocity (player_entity p))) by (intros; reflexivity).
  repeat split.
Qed.

Lemma pass_frame_clamped_ball (w : World F) (h : nat) (pos v : Vec2 F) :
  pass_frame w (set_ball_velocity
                  (set_players w
                     (alter (fun q => Player_with_entity q
                                        (set_position (player_entity q) pos))
                            h (players w))) v).
Proof.
  destruct (pass_frame_clamped w h pos) as (H1 & H2 & H3). repeat split; assumption.
Qed.

(** X19.  [tryPass] changes, whatever it returns, none of: the constants,
    team flags, inputs and velocities of the players, the rosters, the
    Ball's position, frozen flag and freeze timer, the score, the kickoff
    timer, the pause flag and the mode; and when it returns no receiver
    the Ball is unchanged (velocity included). *)
Theorem tryPass_frame (player : nat) (w : World F) :
  let r := World_tryPass M player w in
  world_consts (fst r) = world_consts w
  /\ position (ball_entity (ball (fst r))) = position (ball_entity (ball w))
  /\ map (fun p => velocity (player_entity p)) (players (fst r))
     = map (fun p => velocity (player_entity p)) (players w)
  /\ (snd r = None -> ball (fst r) = ball w).
Proof.
  cbv zeta.
  assert (Hgoal : pass_frame w (fst (World_tryPass M player w))
                  /\ (snd (World_tryPass M player w) = None ->
                      ball (fst (World_tryPass M player w)) = ball w)).
  2: { destruct Hgoal as [(H1 & H2 & H3) H4]. auto. }
  unfold World_tryPass. destruct (players w !! player) as [p|];
    [|split; [apply pass_frame_refl | reflexivity]].
  match goal with
  | |- context [if ?c then (w, None) else _] =>
      destruct c; [split; [apply pass_frame_refl | reflexivity]|]
  end.
  match goal with
  | |- context [if ?c then (w, None) else _] =>
      destruct c; [split; [apply pass_frame_refl | reflexivity]|]
  end.
  match goal with
  | |- context [if ?c then (w, None) else _] =>
      destruct c; [split; [apply pass_frame_refl | reflexivity]|]
  end.
  match goal with
  | |- context [match ?th with Some result => result | None => ?sc end] =>
      set (toHuman := th); set (scan := sc)
  end.
  assert (HtoHuman : forall res, toHuman = Some res ->
            pass_frame w (fst res) /\ (snd res = None -> ball (fst res) = ball w)).
  { subst toHuman. intros res.
    destruct (humanTeam w !! 0%nat) as [h|]; [|discriminate].
    destruct (players w !! h) as [hp|]; [|discriminate].
    repeat match goal with
           | |- context [if ?c then _ else None] => destruct c; [|discriminate]
           end.
    intros [= <-]. split; [apply pass_frame_ball | discriminate]. }
  assert (Hscan : pass_frame w (fst scan) /\ (snd scan = None -> ball (fst scan) = ball w)).
  { subst scan.
    destruct (fold_left _ _ None) as [[t s]|]; [|split; [apply pass_frame_refl | reflexivity]].
    destruct (players w !! t) as [T|]; [|split; [apply pass_frame_refl | reflexivity]].
    repeat match goal with
           | |- context [if ?c then _ else _] => destruct c
           end; cbn [fst snd];
      first [ split; [apply pass_frame_refl | reflexivity]
            | split; [apply pass_frame_ball | discriminate]
            | split; [apply pass_frame_clamped_ball | discriminate]
            | split; [apply pass_frame_clamped | intros _; reflexivity] ]. }
  destruct toHuman as [res|]; [apply (HtoHuman res eq_refl) | exact Hscan].
Qed.

End TryPassFrame.

Section TryPassTeam.
Context {F : Type} {NF : Number F}.
Variable M : MathLib F.

Lemma tryPass_scan_keeps (ps : list (Player F)) (p : Player F) (bpos : Vec2 F)
    (l : list nat) (best : option (nat * F)) (t : nat) (s : F) :
  fold_left (tryPass_scan M ps p bpos) l best = Some (t, s) ->
  best = Some (t, s) \/ In t l.
Proof.
  revert best. induction l as [|h l IH]; intros best H; simpl in H; [left; exact H|].
  destruct (IH _ H) as [Hbest | Hin]; [|right; right; exact Hin].
  unfold tryPass_scan in Hbest.
  destruct (ps !! h) as [T|]; [|left; exact Hbest].
  repeat match type of Hbest with
         | context [if ?c then _ else _] => destruct c
         end; first [left; exact Hbest | right; left; congruence].
Qed.

(** X20.  The receiver [tryPass(player)] returns is on the passer's own
    team: a member of [humanTeam] when the passer is one, a member of
    [botTeam] otherwise. *)
Theorem tryPass_same_team (player : nat) (w : World F) (t : nat) :
  snd (World_tryPass M player w) = Some t ->
  if includes (humanTeam w) player then In t (humanTeam w) else In t (botTeam w).
Proof.
  unfold World_tryPass, includes.
  destruct (players w !! player) as [p|] eqn:Hp; [|discriminate].
  match goal with
  | |- context [if ?c then (w, None) else _] => destruct c; [discriminate|]
  end.
  match goal with
  | |- context [if ?c then (w, None) else _] => destruct c; [discriminate|]
  end.
  match goal with
  | |- context [Nat.eqb (length ?tm) 0] => set (teammates := tm)
  end.
  destruct (Nat.eqb (length teammates) 0); [discriminate|].
  match goal with
  | |- snd (match ?th with Some result => result | None => ?sc end) = _ -> _ =>
      set (toHuman := th); set (scan := sc)
  end.
  assert (Hteam : forall h, In h teammates ->
            if existsb (Nat.eqb player) (humanTeam w)
            then In h (humanTeam w) else In h (botTeam w)).
  { intros h. subst teammates.
    destruct (existsb (Nat.eqb player) (humanTeam w)); intros Hin;
      apply filter_In in Hin; apply Hin. }
  assert (Hscan : snd scan = Some t ->
            if existsb (Nat.eqb player) (humanTeam w)
            then In t (humanTeam w) else In t (botTeam w)).
  { subst scan.
    destruct (fold_left _ teammates None) as [[t' s]|] eqn:Hfold; [|discriminate].
    destruct (tryPass_scan_keeps _ _ _ _ _ _ _ Hfold) as [? | Hin]; [discriminate|].
    destruct (players w !! t') as [T|]; [|discriminate].
    repeat match goal with
           | |- context [if ?c then _ else _] => destruct c
           end; cbn [snd]; intros [= <-]; apply Hteam, Hin. }
  assert (HtoHuman : forall res, toHuman = Some res -> snd res = Some t ->
            if existsb (Nat.eqb player) (humanTeam w)
            then In t (humanTeam w) else In t (botTeam w)).
  { subst toHuman. intros res.
    destruct (humanTeam w) as [|h rest] eqn:Hteam0; [discriminate|].
    cbn [lookup list_lookup].
    destruct (players w !! h) as [hp|]; [|discriminate].
    destruct (existsb (Nat.eqb player) (h :: rest)); cbn [andb]; [|discriminate].
    repeat match goal with
           | |- context [if ?c then _ else None] => destruct c; [|discriminate]
           end.
    intros [= <-]. cbn [snd]. intros [= <-]. left. reflexivity. }
  destruct toHuman as [res|]; [apply (HtoHuman res eq_refl) | exact Hscan].
Qed.

(** X21.  In a 1v1 World nobody can be passed to: [tryPass] returns no
    receiver and leaves the World as it was, for every player. *)
Theorem tryPass_1v1 (player : nat) (w : World F) :
  World_wf w -> gameMode w = OneVsOne -> World_tryPass M player w = (w, None).
Proof.
  intros (H1 & H2 & H3 & H4) Hmode. rewrite Hmode in *.
  cbn [World_new players humanPlayer humanTeam botTeam length] in *.
  unfold World_tryPass.
  destruct (players w !! player) as [p|] eqn:Hp; [|reflexivity].
  match goal with
  | |- context [if ?c then (w, None) else _] => destruct c; [reflexivity|]
  end.
  match goal with
  | |- context [if ?c then (w, None) else _] => destruct c; [reflexivity|]
  end.
  rewrite H2, H3.
  apply lookup_lt_Some in Hp. rewrite H4 in Hp.
  destruct player as [|[|n]]; [| |lia].
  - cbn [existsb Nat.eqb orb List.filter].
    destruct (players w !! 0%nat); cbn [negb andb length Nat.eqb]; reflexivity.
  - cbn [existsb Nat.eqb orb List.filter].
    destruct (players w !! 1%nat); cbn [negb andb length Nat.eqb]; reflexivity.
Qed.

End TryPassTeam.

Section ExactPass.
Local Open Scope R_scope.
Local Abbreviation sqrt := R_sqrt.sqrt.
Variable M : MathLib R.

Lemma normalize_length_le (v : Vec2 R) : vec2Length (vec2Normalize v) <= 1.
Proof.
  destruct (normalize_zero_or_unit v) as [-> | ->]; [|lra].
  unfold vec2Length. Rops. cbn [x y]. rewrite (sqrt_eval _ 0) by lra. lra.
Qed.

Lemma pass_speed (w : World R) (d : Vec2 R) (k : R) :
  0 <= k -> k <= 320 * (92 / 100) ->
  vec2Length (velocity (ball_entity (ball
     (set_ball_velocity w (vec2 (x (vec2Normalize d) * k) (y (vec2Normalize d) * k))))))
  <= 320 * (92 / 100).
Proof.
  intros Hk0 Hk. unfold set_ball_velocity.
  cbn [ball set_ball ball_entity velocity set_velocity].
  unfold vec2Length at 1. Rops. cbn [x y]. rewrite sqrt_scaled by exact Hk0.
  pose proof (normalize_length_le d) as Hle. unfold vec2Length in Hle. Rops.
  pose proof (sqrt_pos (x (vec2Normalize d) * x (vec2Normalize d)
                        + y (vec2Normalize d) * y (vec2Normalize d))) as H0.
  nra.
Qed.

(** X22.  In exact arithmetic [tryPass] never changes a player; a call
    that returns no receiver leaves the whole World unchanged; and after a
    call that returns one the Ball's speed is at most 0.92 of the kick
    force (294.4). *)
Theorem tryPass_exact (player : nat) (w : World R) :
  players (fst (World_tryPass M player w)) = players w
  /\ (snd (World_tryPass M player w) = None -> fst (World_tryPass M player w) = w)
  /\ (forall t, snd (World_tryPass M player w) = Some t ->
      vec2Length (velocity (ball_entity (ball (fst (World_tryPass M player w)))))
      <= 320 * (92 / 100)).
Proof.
  assert (Hgoal : forall r : World R * option nat,
            r = World_tryPass M player w ->
            players (fst r) = players w
            /\ (snd r = None -> fst r = w)
            /\ (forall t, snd r = Some t ->
                vec2Length (velocity (ball_entity (ball (fst r)))) <= 320 * (92 / 100))).
  2: { apply (Hgoal _ eq_refl). }
  intros r ->.
  unfold World_tryPass. destruct (players w !! player) as [p|];
    [|repeat split; intros; discriminate].
  match goal with
  | |- context [if ?c then (w, None) else _] =>
      destruct c; [repeat split; intros; discriminate|]
  end.
  match goal with
  | |- context [if ?c then (w, None) else _] =>
      destruct c; [repeat split; intros; discriminate|]
  end.
  match goal with
  | |- context [if ?c then (w, None) else _] =>
      destruct c; [repeat split; intros; discriminate|]
  end.
  match goal with
  | |- context [match ?th with Some result => result | None => ?sc end] =>
      set (toHuman := th); set (scan := sc)
  end.
  assert (HtoHuman : forall res, toHuman = Some res ->
            players (fst res) = players w
            /\ (snd res = None -> fst res = w)
            /\ (forall t, snd res = Some t ->
                vec2Length (velocity (ball_entity (ball (fst res)))) <= 320 * (92 / 100))).
  { subst toHuman. intros res.
    destruct (humanTeam w !! 0%nat) as [h|]; [|discriminate].
    destruct (players w !! h) as [hp|]; [|discriminate].
    repeat match goal with
           | |- context [if ?c then _ else None] => destruct c; [|discriminate]
           end.
    intros [= <-]. cbn [fst snd]. split; [reflexivity|]. split; [discriminate|].
    intros t _. apply pass_speed; unfold KICK_FORCE; Rops; lra. }
  assert (Hscan : players (fst scan) = players w
            /\ (snd scan = None -> fst scan = w)
            /\ (forall t, snd scan = Some t ->
                vec2Length (velocity (ball_entity (ball (fst scan)))) <= 320 * (92 / 100))).
  { subst scan.
    destruct (fold_left _ _ None) as [[t s]|]; [|repeat split; intros; discriminate].
    destruct (players w !! t) as [T|]; [|repeat split; intros; discriminate].
    cbn [isFinite R_Number andb negb].
    cbv zeta. cbn [fst snd].
    split; [reflexivity|]. split; [discriminate|].
    intros t' _. apply pass_speed; unfold KICK_FORCE; Rops; lra. }
  destruct toHuman as [res|]; [apply (HtoHuman res eq_refl) | exact Hscan].
Qed.

End ExactPass.

Section BotHistory.
Context {F : Type} {NF : Number F}.

Lemma vec2_copy (p : Vec2 F) : vec2 (x p) (y p) = p.
Proof. destruct p. reflexivity. Qed.

Lemma updateBallPosition_step (p : Vec2 F) (h : list (Vec2 F)) (n : nat) :
  length h <= n ->
  ballHistory (updateBallPosition p (mkBot h n)) = drop (length (h ++ [p]) - n) (h ++ [p])
  /\ historySize (updateBallPosition p (mkBot h n)) = n
  /\ length (ballHistory (updateBallPosition p (mkBot h n))) <= n.
Proof.
  intros Hlen. unfold updateBallPosition. cbn [ballHistory historySize].
  rewrite vec2_copy. rewrite length_app. cbn [length].
  destruct (Nat.ltb n (length h + 1)) eqn:Hcmp; cbn [ballHistory historySize].
  - apply Nat.ltb_lt in Hcmp. assert (Hn : length h = n) by lia.
    replace (length h + 1 - n) with 1%nat by lia.
    split; [|split; [reflexivity|]].
    + destruct h; reflexivity.
    + destruct h as [|a h']; cbn [app tail length] in *; [lia|].
      rewrite length_app. cbn [length]. lia.
  - apply Nat.ltb_ge in Hcmp.
    replace (length h + 1 - n) with 0%nat by lia.
    split; [reflexivity|]. split; [reflexivity|].
    rewrite length_app. cbn [length]. lia.
Qed.

Lemma drop_last_app {A} (n : nat) (a b : list A) :
  drop (length (drop (length a - n) a ++ b) - n) (drop (length a - n) a ++ b)
  = drop (length (a ++ b) - n) (a ++ b).
Proof.
  rewrite !length_app, length_drop.
  destruct (Nat.le_gt_cases (length a) n) as [Hle | Hgt].
  - replace (length a - n) with 0%nat by lia. rewrite drop_0.
    replace (length a - 0) with (length a) by lia. reflexivity.
  - rewrite !skipn_app, skipn_skipn, length_drop.
    f_equal; f_equal; lia.
Qed.

Lemma ballHistory_run (ps : list (Vec2 F)) (h : list (Vec2 F)) (n : nat) :
  length h <= n ->
  ballHistory (fold_left (fun b p => updateBallPosition p b) ps (mkBot h n))
  = drop (length (h ++ ps) - n) (h ++ ps)
  /\ historySize (fold_left (fun b p => updateBallPosition p b) ps (mkBot h n)) = n.
Proof.
  revert h. induction ps as [|p ps IH]; intros h Hlen; cbn [fold_left].
  - rewrite app_nil_r. replace (length h - n) with 0%nat by lia. split; reflexivity.
  - destruct (updateBallPosition_step p h n Hlen) as (Eh & En & Hle).
    destruct (updateBallPosition p (mkBot h n)) as [h' n'].
    cbn [ballHistory historySize] in *. subst n'.
    destruct (IH h' Hle) as [E1 E2]. split; [|exact E2].
    rewrite E1, Eh.
    replace (h ++ p :: ps) with ((h ++ [p]) ++ ps) by (rewrite <- app_assoc; reflexivity).
    apply drop_last_app.
Qed.

(** X25.  After any sequence of [updateBallPosition] calls on a new Bot,
    the history holds the last 20 positions given, oldest first (all of
    them when there were at most 20), and the capacity is still 20. *)
Theorem ballHistory_last_20 (ps : list (Vec2 F)) :
  let b := fold_left (fun b p => updateBallPosition p b) ps Bot_new in
  ballHistory b = drop (length ps - 20) ps
  /\ length (ballHistory b) = Nat.min (length ps) 20
  /\ historySize b = 20%nat.
Proof.
  cbv zeta. unfold Bot_new.
  destruct (ballHistory_run ps [] 20) as [E1 E2]; [cbn; lia|].
  cbn [app] in E1. rewrite E1, E2. repeat split.
  rewrite length_drop. lia.
Qed.

End BotHistory.

Section ExactShouldKick.
Local Open Scope R_scope.
Local Abbreviation sqrt := R_sqrt.sqrt.

(** X23.  Whenever [shouldKick] decides to kick for a bot of a World and
    that World's Ball, [tryKick] for that bot succeeds (exact
    arithmetic): the decision is never made for a Ball out of reach or
    frozen. *)
Theorem shouldKick_then_tryKick (random difficulty : R) (w : World R) (bot : nat)
    (isTeammate : bool) (humanPlayer : option nat) (gameMode : option GameMode) :
  shouldKick random (players w) bot (ball w) difficulty isTeammate humanPlayer gameMode
  = Some true ->
  snd (World_tryKick bot w) = true.
Proof.
  unfold shouldKick. destruct (players w !! bot) as [b|] eqn:Hb; [|discriminate].
  cbv zeta. unfold KICK_RADIUS. Rops.
  destruct (Rltb (35 * / 1) _) eqn:Hd; cbn [orb]; [discriminate|].
  destruct (isFrozen (ball w)) eqn:Hf; [discriminate|]. intros _.
  apply Rltb_false_inv in Hd.
  apply (tryKick_succeeds bot w b Hb); [lra | exact Hf].
Qed.

(** An opponent outside 2v2 and 3v3, at difficulty 1, kicks on offense
    whatever the random draw. *)
Lemma shouldKick_attacks (random : R) (ps : list (Player R)) (bot : nat) (b : Player R)
    (ball : Ball R) (humanPlayer : option nat) (gameMode : option GameMode) :
  ps !! bot = Some b ->
  gameMode = None \/ gameMode = Some OneVsOne ->
  0 <= random < 1 ->
  vec2Distance (position (player_entity b)) (position (ball_entity ball)) <= 35 ->
  isFrozen ball = false ->
  450 < x (position (ball_entity ball)) ->
  350 < x (position (player_entity b)) ->
  vec2Length (velocity (ball_entity ball)) < 200 ->
  shouldKick random ps bot ball 1 false humanPlayer gameMode = Some true.
Proof.
  intros Hb Hmode Hrandom Hd Hf H1 H2 H3.
  unfold shouldKick. rewrite Hb. cbv zeta.
  unfold KICK_RADIUS, ARENA_WIDTH, vec2Length in *. Rops.
  assert (Hmulti : is2v2 gameMode || is3v3 gameMode = false)
    by (destruct Hmode as [-> | ->]; reflexivity).
  rewrite Hmulti, Hf. cbn [negb andb].
  assert (Hnone : forall o : option (Player R),
            match o with Some _ => None | None => None end = @None bool)
    by (intros [?|]; reflexivity).
  rewrite Hnone.
  rewrite (Rltb_false (35 * / 1)) by lra. cbn [orb].
  rewrite !Rltb_true by lra. reflexivity.
Qed.

(** X24.  At difficulty 1 (the value the game loop passes) an opponent in
    1v1 decides to kick, whatever [Math.random()] returns in [0, 1),
    exactly when the Ball is in reach and not frozen, the Ball is in the
    right half ([x > 450]), the bot is not deep in the left half
    ([x > 350]) and the Ball is slower than 200. *)
Theorem shouldKick_1v1 (random : R) (ps : list (Player R)) (bot : nat) (b : Player R)
    (ball : Ball R) (humanPlayer : option nat) (gameMode : option GameMode) :
  ps !! bot = Some b ->
  gameMode = None \/ gameMode = Some OneVsOne ->
  0 <= random < 1 ->
  let ballVel := velocity (ball_entity ball) in
  shouldKick random ps bot ball 1 false humanPlayer gameMode = Some true
  <-> vec2Distance (position (player_entity b)) (position (ball_entity ball)) <= 35
      /\ isFrozen ball = false
      /\ 450 < x (position (ball_entity ball))
      /\ 350 < x (position (player_entity b))
      /\ vec2Length ballVel < 200.
Proof.
  intros Hb Hmode Hrandom ballVel. split.
  - unfold shouldKick. rewrite Hb. cbv zeta.
    unfold KICK_RADIUS, ARENA_WIDTH, vec2Length. Rops. fold ballVel.
    assert (Hmulti : is2v2 gameMode || is3v3 gameMode = false)
      by (destruct Hmode as [-> | ->]; reflexivity).
    rewrite Hmulti. cbn [negb andb].
    assert (Hnone : forall o : option (Player R),
              match o with Some _ => None | None => None end = @None bool)
      by (intros [?|]; reflexivity).
    rewrite Hnone.
    destruct (Rltb (35 * / 1) _) eqn:Hd; cbn [orb]; [discriminate|].
    apply Rltb_false_inv in Hd.
    destruct (isFrozen ball) eqn:Hf; [discriminate|].
    intros [= H].
    apply andb_prop in H. destruct H as [H _].
    apply andb_prop in H. destruct H as [H H3].
    apply andb_prop in H. destruct H as [H1 H2].
    apply Rltb_spec in H1, H2, H3.
    split; [lra|]. split; [reflexivity|]. split; [lra|]. split; lra.
  - intros (Hd & Hf & H1 & H2 & H3).
    apply (shouldKick_attacks random ps bot b ball humanPlayer gameMode
             Hb Hmode Hrandom Hd Hf H1 H2 H3).
Qed.

End ExactShouldKick.

Section WorldShape.
Context {F : Type} {NF : Number F}.

(** X11.  [new World(mode)], for every mode: the two teams have the same
    size, no player is in a roster twice or in both, the rosters hold
    exactly the players of the World, the human player is first in
    [humanTeam], every player's [isHuman] flag says whether it is in
    [humanTeam], every player starts at rest with no input, the score is
    0-0, and the World is neither paused nor is its Ball frozen. *)
Theorem World_new_shape (mode : GameMode) :
  let w := World_new (F:=F) mode in
  NoDup (getAllPlayers w)
  /\ (forall h, In h (getAllPlayers w) <-> (h < length (players w))%nat)
  /\ length (humanTeam w) = length (botTeam w)
  /\ humanTeam w !! 0%nat = Some (humanPlayer w)
  /\ (forall h p, players w !! h = Some p ->
      isHuman p = includes (humanTeam w) h
      /\ velocity (player_entity p) = vec2 (num 0) (num 0)
      /\ inputAcceleration p = vec2 (num 0) (num 0))
  /\ score w = mkScore 0 0 /\ isPaused w = false /\ isFrozen (ball w) = false.
Proof.
  destruct mode; cbv zeta; unfold getAllPlayers;
    cbn [World_new humanTeam botTeam players humanPlayer app length score isPaused ball
         Ball_new isFrozen];
    (split; [repeat (apply NoDup_cons_2;
                     [intros Hin;
                      repeat (apply elem_of_cons in Hin; destruct Hin as [Hin|Hin];
                              [discriminate|]);
                      apply elem_of_nil in Hin; exact Hin|]);
             apply NoDup_nil_2|]);
    (split; [intros h; cbn [In]; lia|]);
    (split; [reflexivity|]); (split; [reflexivity|]);
    (split; [|repeat split]);
    intros h p Hp;
    repeat match type of Hp with
           | (_ :: _) !! _ = _ =>
               destruct h as [|h];
               [revert Hp; intros [= <-]; repeat split
               | cbn [lookup list_lookup] in Hp]
           end;
    discriminate.
Qed.

(** X16.  On a World with the rosters its constructor gave it,
    [resetKickoff] and [reset] are idempotent, and a [resetKickoff] after a
    [reset] changes nothing. *)
Theorem resetKickoff_idempotent (w : World F) :
  World_wf w ->
  World_resetKickoff (World_resetKickoff w) = World_resetKickoff w
  /\ World_reset (World_reset w) = World_reset w
  /\ World_resetKickoff (World_reset w) = World_reset w.
Proof.
  intros (H1 & H2 & H3 & H4).
  destruct w as [ps hp ht bt b sc k pa mode]. cbn [humanPlayer humanTeam botTeam players
    gameMode] in *. subst hp ht bt.
  destruct mode; cbn [World_new players length] in H4;
    repeat (destruct ps as [|? ps]; try discriminate);
    repeat split; reflexivity.
Qed.

End WorldShape.

Lemma resetKickoff_idempotent_witness :
  World_wf (World_new (F:=float) TwoVsTwo)
  /\ World_resetKickoff (World_resetKickoff (World_new (F:=float) TwoVsTwo))
     = World_resetKickoff (World_new TwoVsTwo).
Proof.
  split; [apply World_new_wf|].
  exact (proj1 (resetKickoff_idempotent (World_new TwoVsTwo) (World_new_wf TwoVsTwo))).
Defined.

Section ExactKickoff.
Local Open Scope R_scope.

(** X15.  The kickoff freeze, in exact arithmetic: for a World whose Ball is
    frozen and whose kickoff timer and Ball freeze timer both stand at
    [t > 0] (the state [resetKickoff] leaves, with [t = 1]), the entity
    updates of a tick shorter than [t] leave the Ball exactly where it is,
    still frozen, both timers at [t - dt]; the entity updates of a tick of
    [t] or more unfreeze the Ball and move it in the same tick. *)
Theorem kickoff_freeze (dt m t : R) (w : World R) :
  isFrozen (ball w) = true ->
  kickoffFreezeTime w = t -> freezeTime (ball w) = t -> 0 < t ->
  let w' := World_updateEntities dt m w in
  (dt < t ->
   ball w' = mkBall (ball_entity (ball w)) true (t - dt)
   /\ kickoffFreezeTime w' = t - dt)
  /\ (t <= dt ->
      isFrozen (ball w') = false
      /\ ball_entity (ball w') = Entity_update dt (ball_entity (ball w))
      /\ kickoffFreezeTime w' = t - dt).
Proof.
  intros Hfrozen Hk Hf Ht. cbv zeta.
  unfold World_updateEntities. Rops. rewrite Hk, Hfrozen.
  rewrite (Rltb_true (0 * / 1) t) by lra.
  split; intros Hdt.
  - rewrite (Rleb_false (t - dt)) by lra. cbn [andb].
    cbn [ball set_ball set_players set_kickoffFreezeTime kickoffFreezeTime].
    unfold Ball_update. rewrite Hfrozen, Hf. Rops.
    rewrite (Rleb_false (t - dt)) by lra. split; reflexivity.
  - rewrite (Rleb_true (t - dt)) by lra. cbn [andb].
    cbn [ball set_ball set_players set_kickoffFreezeTime kickoffFreezeTime].
    unfold Ball_update. cbn [isFrozen ball_entity freezeTime]. repeat split.
Qed.

Lemma kickoff_freeze_witness :
  let w := World_resetKickoff (World_new (F:=R) OneVsOne) in
  isFrozen (ball w) = true /\ kickoffFreezeTime w = 1 /\ freezeTime (ball w) = 1 /\ 0 < 1
  /\ ball (World_updateEntities (1 / 60) (12 / 10) w)
     = mkBall (ball_entity (ball w)) true (1 - 1 / 60)
  /\ kickoffFreezeTime (World_updateEntities (1 / 60) (12 / 10) w) = 1 - 1 / 60.
Proof.
  cbv zeta.
  assert (H1 : isFrozen (ball (World_resetKickoff (World_new (F:=R) OneVsOne))) = true)
    by reflexivity.
  assert (H2 : kickoffFreezeTime (World_resetKickoff (World_new (F:=R) OneVsOne)) = 1)
    by (cbn [World_resetKickoff kickoffFreezeTime]; Rops; lra).
  assert (H3 : freezeTime (ball (World_resetKickoff (World_new (F:=R) OneVsOne))) = 1)
    by (cbn [World_resetKickoff ball Ball_freeze freezeTime]; Rops; lra).
  assert (H4 : 0 < 1) by lra.
  split; [exact H1|]. split; [exact H2|]. split; [exact H3|]. split; [exact H4|].
  apply (proj1 (kickoff_freeze (1 / 60) (12 / 10) 1 _ H1 H2 H3 H4)). lra.
Defined.

End ExactKickoff.

Section InputProps.
Variable toLowerCase : string -> string.

Lemma GameMode_eqb_eq (a b : GameMode) : GameMode_eqb a b = true <-> a = b.
Proof. destruct a, b; simpl; split; intros; (reflexivity || discriminate). Qed.

(** X28.  The key state of [Input]: a key is pressed after its keydown and
    not pressed after its keyup; nothing is just-pressed after
    [clearJustPressed]; a repeated keydown of a key that is still held
    does not make it just-pressed again; a keydown of the space key that
    was not held makes [isKickJustPressed] true; and a keyup leaves the
    just-pressed keys alone. *)
Theorem Input_just_pressed (k : string) (i : Input) :
  isKeyPressed toLowerCase k (Input_keydown toLowerCase k i) = true
  /\ isKeyPressed toLowerCase k (Input_keyup toLowerCase k i) = false
  /\ isKickJustPressed (clearJustPressed i) = false
  /\ isKickJustPressed
       (Input_keydown toLowerCase k (clearJustPressed (Input_keydown toLowerCase k i)))
     = false
  /\ (toLowerCase k = " "%string ->
      isKeyPressed toLowerCase k i = false ->
      isKickJustPressed (Input_keydown toLowerCase k i) = true)
  /\ isKickJustPressed (Input_keyup toLowerCase k i) = isKickJustPressed i.
Proof.
  unfold isKeyPressed, isKickJustPressed, Input_keydown, Input_keyup, clearJustPressed.
  cbn [keys paused justPressedKeys].
  split; [|split; [|split; [|split; [|split]]]].
  - apply bool_decide_eq_true. apply elem_of_union. left. apply elem_of_singleton. reflexivity.
  - apply bool_decide_eq_false. intros Hin. apply elem_of_difference in Hin.
    destruct Hin as [_ Hin]. apply Hin. apply elem_of_singleton. reflexivity.
  - apply bool_decide_eq_false. apply not_elem_of_empty.
  - rewrite (bool_decide_eq_true_2 (toLowerCase k ∈ {[toLowerCase k]} ∪ keys i))
      by (apply elem_of_union; left; apply elem_of_singleton; reflexivity).
    cbn [negb]. apply bool_decide_eq_false. apply not_elem_of_empty.
  - intros Hk Hfree. rewrite Hfree. cbn [negb].
    apply bool_decide_eq_true. apply elem_of_union. left.
    apply elem_of_singleton. symmetry. exact Hk.
  - reflexivity.
Qed.

(** X29.  The pause flag of [Input] starts false, flips on every keydown of
    the key [p] (a repeated keydown of a held key included, so two
    keydowns restore it), and is changed by nothing else: no other
    keydown, no keyup, no [clearJustPressed]. *)
Theorem Input_pause_toggle (k : string) (i : Input) :
  Input_isPaused (Input_keydown toLowerCase k (Input_keydown toLowerCase k i))
  = Input_isPaused i
  /\ (toLowerCase k = "p"%string ->
      Input_isPaused (Input_keydown toLowerCase k i) = negb (Input_isPaused i))
  /\ (toLowerCase k <> "p"%string ->
      Input_isPaused (Input_keydown toLowerCase k i) = Input_isPaused i)
  /\ Input_isPaused (Input_keyup toLowerCase k i) = Input_isPaused i
  /\ Input_isPaused (clearJustPressed i) = Input_isPaused i
  /\ Input_isPaused Input_new = false.
Proof.
  unfold Input_isPaused, Input_keydown, Input_keyup, clearJustPressed.
  cbn [keys paused justPressedKeys].
  split; [|split; [|split; [|repeat split]]].
  - destruct (bool_decide (toLowerCase k = "p"%string)); [apply negb_involutive | reflexivity].
  - intros Hk. rewrite bool_decide_eq_true_2 by exact Hk. reflexivity.
  - intros Hk. rewrite bool_decide_eq_false_2 by exact Hk. reflexivity.
Qed.

End InputProps.

Section ExactInput.
Local Open Scope R_scope.
Local Abbreviation sqrt := R_sqrt.sqrt.
Variable toLowerCase : string -> string.

Lemma one_le_sqrt (s : R) : 1 <= s -> 1 <= sqrt s.
Proof. intros H. rewrite <- sqrt_1 at 1. apply sqrt_le_1_alt, H. Qed.

(** X27.  [getPlayerInput], in exact arithmetic: opposite keys cancel, so
    the result is the zero vector when up and down agree and left and
    right agree, and a vector of length 1 otherwise (a diagonal is no
    faster than a straight line); its [y] is 0 when up and down agree and
    its [x] is 0 when left and right agree. *)
Theorem getPlayerInput_unit (i : Input) :
  let up := isKeyPressed toLowerCase "w" i || isKeyPressed toLowerCase "arrowup" i in
  let down := isKeyPressed toLowerCase "s" i || isKeyPressed toLowerCase "arrowdown" i in
  let left := isKeyPressed toLowerCase "a" i || isKeyPressed toLowerCase "arrowleft" i in
  let right := isKeyPressed toLowerCase "d" i || isKeyPressed toLowerCase "arrowright" i in
  let v := getPlayerInput (F:=R) toLowerCase i in
  (Bool.eqb up down && Bool.eqb left right = true -> v = vec2 0 0)
  /\ (Bool.eqb up down && Bool.eqb left right = false -> vec2Length v = 1)
  /\ (Bool.eqb up down = true -> y v = 0)
  /\ (Bool.eqb left right = true -> x v = 0).
Proof.
  intros up down left right. unfold getPlayerInput. fold up down left right.
  destruct up, down, left, right; cbn [Bool.eqb andb]; cbv zeta; unfold vec2Zero;
    cbn [x y]; Rops;
    (split; [intros H; try discriminate H|
     split; [intros H; try discriminate H| split; intros H; try discriminate H]]).
  all: try (apply normalize_short; unfold vec2Length; Rops; cbn [x y];
            rewrite (sqrt_eval _ 0) by lra; lra).
  all: try (apply normalize_long; unfold vec2Length; Rops; cbn [x y];
            match goal with
            | |- _ <= sqrt ?s => pose proof (one_le_sqrt s); lra
            end).
  all: try (rewrite normalize_short by (unfold vec2Length; Rops; cbn [x y];
                                        rewrite (sqrt_eval _ 0) by lra; lra);
            reflexivity).
  all: match goal with
       | |- context [vec2Normalize ?u] =>
           assert (Hl : 1 / 10000 <= vec2Length u)
             by (unfold vec2Length; Rops; cbn [x y];
                 match goal with
                 | |- _ <= sqrt ?s => pose proof (one_le_sqrt s); lra
                 end);
           rewrite (proj1 (normalize_long u Hl)); cbn [x y]; lra
       end.
Qed.

End ExactInput.

Section GameProps.
Context {F : Type} {NF : Number F}.

(** X30.  [Game.setGameMode(mode)] leaves the game in [mode] with the score,
    the pause flag and the input state it had; it changes nothing when the
    game is already in [mode]; and otherwise the World is a new World of
    that mode (players and Ball as constructed, kickoff timer 0, rosters
    as constructed), the bot state is new, the accumulator is 0 and the
    last frame time is the current time. *)
Theorem setGameMode_preserves (now : F) (mode : GameMode) (g : Game F) :
  let g' := Game_setGameMode now mode g in
  gameMode (Game_world g') = mode
  /\ score (Game_world g') = score (Game_world g)
  /\ isPaused (Game_world g') = isPaused (Game_world g)
  /\ Game_input g' = Game_input g
  /\ (gameMode (Game_world g) = mode -> g' = g)
  /\ (gameMode (Game_world g) <> mode ->
      players (Game_world g') = players (World_new mode)
      /\ ball (Game_world g') = ball (World_new mode)
      /\ kickoffFreezeTime (Game_world g') = num 0
      /\ World_wf (Game_world g')
      /\ Game_bot g' = Bot_new
      /\ Game_accumulator g' = num 0 /\ Game_lastTime g' = now).
Proof.
  cbv zeta. unfold Game_setGameMode.
  destruct (GameMode_eqb (gameMode (Game_world g)) mode) eqn:E.
  - apply GameMode_eqb_eq in E.
    split; [exact E|]. do 4 (split; [reflexivity|]). intros Hne. contradiction.
  - assert (Hne : gameMode (Game_world g) <> mode)
      by (intros He; apply GameMode_eqb_eq in He; congruence).
    cbn [Game_world Game_input Game_bot Game_accumulator Game_lastTime].
    split; [destruct mode; reflexivity|]. do 3 (split; [reflexivity|]).
    split; [intros He; contradiction|]. intros _.
    split; [reflexivity|]. split; [reflexivity|].
    split; [destruct mode; reflexivity|].
    split; [destruct mode; repeat split|].
    repeat split.
Qed.

End GameProps.


Section WitnessesX.
Local Open Scope R_scope.
Local Abbreviation sqrt := R_sqrt.sqrt.

Lemma puck_closing :
  vec2Dot (vec2Sub (velocity (F:=R) puck_b) (velocity puck_a)) (normal puck_collision) = -20.
Proof.
  unfold vec2Dot, puck_collision, puck_a, puck_b. cbn [normal]. Rscene. lra.
Qed.

(** The two pucks close at -20 along the normal and part at +20. *)
Lemma resolve_restitution_witness :
  detectCircleCollision (F:=R) puck_a puck_b = Some puck_collision
  /\ (0 < mass (F:=R) puck_a \/ 0 < mass (F:=R) puck_b)
  /\ vec2Dot (vec2Sub (velocity (snd (resolveCircleCollision puck_collision (1 / 60))))
                      (velocity (fst (resolveCircleCollision puck_collision (1 / 60)))))
             (normal puck_collision)
     = - Rmin (restitution puck_a) (restitution puck_b)
       * vec2Dot (vec2Sub (velocity puck_b) (velocity puck_a)) (normal puck_collision).
Proof.
  assert (Hm : 0 < mass (F:=R) puck_a \/ 0 < mass (F:=R) puck_b)
    by (left; unfold puck_a; Rscene; lra).
  split; [exact puck_detect|]. split; [exact Hm|].
  apply (proj1 (resolve_restitution puck_a puck_b puck_collision (1 / 60) puck_detect Hm)).
  rewrite puck_closing. lra.
Defined.

Lemma wall_ball_detect :
  detectWallCollision (F:=R) wall_ball = Some (mkWallCollision wall_ball (vec2 0 1) 5).
Proof.
  unfold detectWallCollision, ARENA_WIDTH, ARENA_HEIGHT, GOAL_HEIGHT, WALL_THICKNESS.
  cbv zeta. unfold wall_ball, set_velocity. Rscene. unfold BALL_RADIUS. Rops.
  Rdecide. cbn [orb andb]. Rdecide.
  apply wall_collision_eq; [apply vec2_eq; lra | lra].
Qed.

Lemma wall_ball_closing : vec2Dot (velocity (F:=R) wall_ball) (vec2 0 1) = -100.
Proof. unfold vec2Dot, wall_ball, set_velocity. Rscene. lra. Qed.

(** The Ball of [wall_ball] hits the top wall at -100 and leaves it at
    (1 - 2 * 0.88) * -100 = 76. *)
Lemma wall_reflection_witness :
  detectWallCollision (F:=R) wall_ball = Some (mkWallCollision wall_ball (vec2 0 1) 5)
  /\ vec2Dot (velocity (resolveWallCollision (mkWallCollision wall_ball (vec2 0 1) 5)
                                             (1 / 60)))
             (vec2 0 1)
     = (1 - 2 * restitution wall_ball) * vec2Dot (velocity (F:=R) wall_ball) (vec2 0 1).
Proof.
  split; [exact wall_ball_detect|].
  apply (proj1 (wall_reflection wall_ball _ (1 / 60) wall_ball_detect)).
  cbn [wall_normal]. rewrite wall_ball_closing. lra.
Defined.

Lemma kick_world_reach :
  vec2Distance (position (player_entity (spawn_human (F:=R))))
               (position (ball_entity (ball (kick_world (F:=R))))) <= 35.
Proof.
  unfold kick_world, World_withBallAt, spawn_human, Player_new, ARENA_HEIGHT.
  cbn [ball set_ball ball_entity player_entity position set_position].
  Rscene. rewrite (sqrt_eval _ 20) by lra. lra.
Qed.

Lemma kick_world_at_rest :
  vec2Length (inputAcceleration (spawn_human (F:=R))) <= 1 / 1000
  /\ vec2Length (velocity (player_entity (spawn_human (F:=R)))) <= 1.
Proof.
  split; unfold spawn_human, Player_new; cbn [inputAcceleration player_entity]; Rscene;
    unfold vec2Zero; cbn [x y]; Rops; rewrite (sqrt_eval _ 0) by lra; lra.
Qed.

(** The human player of [kick_world], at rest and with no key down, kicks
    the Ball straight ahead. *)
Lemma tryKick_direction_witness :
  players (kick_world (F:=R)) !! 0%nat = Some spawn_human
  /\ vec2Distance (position (player_entity (spawn_human (F:=R))))
                  (position (ball_entity (ball (kick_world (F:=R))))) <= 35
  /\ isFrozen (ball (kick_world (F:=R))) = false
  /\ World_tryKick 0 (kick_world (F:=R))
     = (set_ball_velocity kick_world (vec2Scale (vec2 1 0) 320), true).
Proof.
  assert (Hp : players (kick_world (F:=R)) !! 0%nat = Some spawn_human)
    by reflexivity.
  assert (Hf : isFrozen (ball (kick_world (F:=R))) = false) by reflexivity.
  split; [exact Hp|]. split; [exact kick_world_reach|]. split; [exact Hf|].
  destruct kick_world_at_rest as [Hin Hv].
  exact (proj2 (proj2 (tryKick_direction 0 kick_world _ Hp kick_world_reach Hf)) Hin Hv).
Defined.

Lemma tryPass_same_team_witness :
  snd (World_tryPass R_Math 1 (pass_world (F:=R))) = Some 0%nat
  /\ In 0%nat (humanTeam (pass_world (F:=R))).
Proof.
  split; [exact pass_to_human|].
  exact (tryPass_same_team R_Math 1 pass_world 0 pass_to_human).
Defined.

Lemma tryPass_1v1_witness :
  World_wf (World_new (F:=R) OneVsOne)
  /\ gameMode (World_new (F:=R) OneVsOne) = OneVsOne
  /\ World_tryPass R_Math 0 (World_new OneVsOne) = (World_new OneVsOne, None).
Proof.
  split; [apply World_new_wf|]. split; [reflexivity|].
  exact (tryPass_1v1 R_Math 0 (World_new OneVsOne) (World_new_wf OneVsOne) eq_refl).
Defined.

Lemma attack_world_reach :
  vec2Distance (position (player_entity (spawn_bot (F:=R))))
               (position (ball_entity (ball (attack_world (F:=R))))) <= 35.
Proof.
  unfold attack_world, World_withBallAt, spawn_bot, Player_new, ARENA_HEIGHT.
  cbn [ball set_ball ball_entity player_entity position set_position].
  Rscene. rewrite (sqrt_eval _ 10) by lra. lra.
Qed.

Lemma attack_world_facts :
  players (attack_world (F:=R)) !! 1%nat = Some spawn_bot
  /\ isFrozen (ball (attack_world (F:=R))) = false
  /\ 450 < x (position (ball_entity (ball (attack_world (F:=R)))))
  /\ 350 < x (position (player_entity (spawn_bot (F:=R))))
  /\ vec2Length (velocity (ball_entity (ball (attack_world (F:=R))))) < 200.
Proof.
  split; [reflexivity|]. split; [reflexivity|].
  unfold attack_world, World_withBallAt, spawn_bot, Player_new, vec2Length.
  cbn [ball set_ball ball_entity player_entity position velocity set_position World_new].
  Rscene. unfold vec2Zero. cbn [x y]. Rops.
  split; [lra|]. split; [lra|].
  rewrite (sqrt_eval _ 0) by lra. lra.
Qed.

Lemma attack_world_should_kick :
  shouldKick 0 (players (attack_world (F:=R))) 1 (ball attack_world) 1 false None
             (Some OneVsOne) = Some true.
Proof.
  destruct attack_world_facts as (Hp & Hf & H1 & H2 & H3).
  apply (shouldKick_attacks 0 _ 1 _ _ None (Some OneVsOne) Hp);
    [right; reflexivity | lra | exact attack_world_reach | exact Hf | exact H1
    | exact H2 | exact H3].
Qed.

(** The bot of [attack_world] decides to kick, and its kick succeeds. *)
Lemma shouldKick_then_tryKick_witness :
  shouldKick 0 (players (attack_world (F:=R))) 1 (ball attack_world) 1 false None
             (Some OneVsOne) = Some true
  /\ snd (World_tryKick 1 (attack_world (F:=R))) = true.
Proof.
  split; [exact attack_world_should_kick|].
  exact (shouldKick_then_tryKick 0 1 attack_world 1 false None (Some OneVsOne)
           attack_world_should_kick).
Defined.

(** The bot of [attack_world], without a mode and with the draw 1/2. *)
Lemma shouldKick_1v1_witness :
  players (attack_world (F:=R)) !! 1%nat = Some spawn_bot
  /\ (@None GameMode = None \/ @None GameMode = Some OneVsOne)
  /\ 0 <= 1 / 2 < 1
  /\ shouldKick (1 / 2) (players (attack_world (F:=R))) 1 (ball attack_world) 1 false
                None None = Some true.
Proof.
  destruct attack_world_facts as (Hp & Hf & H1 & H2 & H3).
  assert (Hm : @None GameMode = None \/ @None GameMode = Some OneVsOne)
    by (left; reflexivity).
  assert (Hr : 0 <= 1 / 2 < 1) by lra.
  split; [exact Hp|]. split; [exact Hm|]. split; [exact Hr|].
  apply (shouldKick_1v1 (1 / 2) _ 1 _ (ball attack_world) None None Hp Hm Hr).
  exact (conj attack_world_reach (conj Hf (conj H1 (conj H2 H3)))).
Defined.

Lemma World_wf_invariant_witness :
  World_wf (World_new (F:=R) ThreeVsThree)
  /\ World_wf (fst (World_update (1 / 60) (12 / 10) (World_new (F:=R) ThreeVsThree))).
Proof.
  split; [apply World_new_wf|].
  exact (proj1 (World_wf_invariant R_Math (1 / 60) (12 / 10) 0 _
                  (World_new_wf ThreeVsThree))).
Defined.

End WitnessesX.

Section ExactSeparation.
Local Open Scope R_scope.
Local Abbreviation sqrt := R_sqrt.sqrt.

Lemma separation_far (ps : list (Player R)) (bot : nat) (b : Player R)
    (humanTeam botTeam : list nat) (isTeammate : bool) (l : list nat)
    (st : Vec2 R * nat) :
  (forall h o, In h l -> ps !! h = Some o -> h <> bot ->
     100 <= vec2Distance (position (player_entity b)) (position (player_entity o))) ->
  fold_left (separation_step ps bot b humanTeam botTeam isTeammate) l st = st.
Proof.
  revert st. induction l as [|h l IH]; intros st Hfar; cbn [fold_left]; [reflexivity|].
  assert (Hstep : separation_step ps bot b humanTeam botTeam isTeammate st h = st).
  { unfold separation_step. destruct (ps !! h) as [o|] eqn:Ho; [|reflexivity].
    destruct (Nat.eqb h bot) eqn:Hb; [reflexivity|].
    apply Nat.eqb_neq in Hb.
    pose proof (Hfar h o (or_introl eq_refl) Ho Hb) as Hd.
    cbv zeta. Rops. cbn [negb orb]. rewrite (Rltb_false _ (100 * / 1)) by lra.
    reflexivity. }
  rewrite Hstep. apply IH. intros h' o Hin. apply Hfar. right. exact Hin.
Qed.

(** X26.  [calculateSeparation], in exact arithmetic, returns a vector of
    length 1 or the zero vector, and the zero vector whenever every other
    player of the two rosters is at least 100 away from the bot. *)
Theorem calculateSeparation_unit_or_zero (ps : list (Player R)) (bot : nat)
    (b : Player R) (humanTeam botTeam : list nat) (isTeammate : bool) :
  let s := calculateSeparation ps bot b humanTeam botTeam isTeammate in
  (vec2Length s = 1 \/ s = vec2 0 0)
  /\ ((forall h o, In h (humanTeam ++ botTeam) -> ps !! h = Some o -> h <> bot ->
         100 <= vec2Distance (position (player_entity b)) (position (player_entity o))) ->
      s = vec2 0 0).
Proof.
  cbv zeta. unfold calculateSeparation. split.
  - destruct (fold_left _ _ _) as [separation count].
    destruct (_ && _).
    + destruct (normalize_zero_or_unit separation) as [H | H]; [right | left]; exact H.
    + right. Rops. apply vec2_eq; lra.
  - intros Hfar. rewrite separation_far by exact Hfar.
    cbn [Nat.ltb Nat.leb andb]. Rops. apply vec2_eq; lra.
Qed.

End ExactSeparation.
